(** * Role, onboarding, agent verification and office/property lifecycle

    A shallow embedding of the controllers and Mongoose schemas of the
    franchise backend: documents are records, collections are lists in
    insertion order, a controller is a function from the request and the
    store to an outcome and the store it leaves behind. *)

From Stdlib Require Import List String Ascii Bool Arith ZArith Lia
  DecimalString.
Import ListNotations.
Local Open Scope string_scope.

Set Implicit Arguments.

(** ** Identifiers and enumerations *)

(** A Mongo [ObjectId].  [toString] is injective on object ids, so the
    comparisons [a.toString() === b.toString()] of the source are
    comparisons of the ids themselves. *)
Definition ObjectId := nat.

(** [UserSchema.role] : enum buyer, seller, agent, manager, admin. *)
Inductive Role := buyer | seller | agent | manager | admin.

(** [UserSchema.agentVerificationStatus] : enum none, pending, verified,
    rejected. *)
Inductive VerificationStatus := vs_none | vs_pending | vs_verified | vs_rejected.

(** [PropertySchema.status]. *)
Inductive PropertyStatus := ps_active | ps_pending | ps_sold | ps_off_market.

(** [SavedSearchSchema.frequency]. *)
Inductive Frequency := daily | weekly | monthly.

Definition Role_eqb (a b : Role) : bool :=
  match a, b with
  | buyer, buyer | seller, seller | agent, agent
  | manager, manager | admin, admin => true
  | _, _ => false
  end.

Definition VerificationStatus_eqb (a b : VerificationStatus) : bool :=
  match a, b with
  | vs_none, vs_none | vs_pending, vs_pending
  | vs_verified, vs_verified | vs_rejected, vs_rejected => true
  | _, _ => false
  end.

Definition Role_to_string (r : Role) : string :=
  match r with
  | buyer => "buyer" | seller => "seller" | agent => "agent"
  | manager => "manager" | admin => "admin"
  end.

(** The role a request string denotes, when it is one of the enum's. *)
Definition Role_of_string (s : string) : option Role :=
  if s =? "buyer" then Some buyer
  else if s =? "seller" then Some seller
  else if s =? "agent" then Some agent
  else if s =? "manager" then Some manager
  else if s =? "admin" then Some admin
  else None.

(** [Array.prototype.includes] on an array of strings. *)
Definition includes (l : list string) (s : string) : bool :=
  existsb (String.eqb s) l.

(** A value of a request body field whose type the controller does not
    constrain; objects and arrays are kept opaque. *)
Inductive JsValue :=
| JUndefined
| JNull
| JBool (b : bool)
| JNum (n : Z)
| JStr (s : string)
| JObject (repr : string).

(** [v === "lit"] : strict equality with a string literal. *)
Definition strict_eq_str (v : JsValue) (lit : string) : bool :=
  match v with
  | JStr s => s =? lit
  | _ => false
  end.

(** [a || b] on optional references: the first when it is set. *)
Definition or_else {A : Type} (a b : option A) : option A :=
  match a with
  | Some _ => a
  | None => b
  end.

(** [o || d] and schema defaults: the value when it is given. *)
Definition orDefault {A} (o : option A) (d : A) : A :=
  match o with Some a => a | None => d end.

(** [a?.toString() === b?.toString()] on optional object ids: two absent
    operands are both [undefined], hence equal. *)
Definition opt_id_eqb (a b : option ObjectId) : bool :=
  match a, b with
  | Some x, Some y => Nat.eqb x y
  | None, None => true
  | _, _ => false
  end.

(** ** Documents *)

(** The filter object of a saved search ([Schema.Types.Mixed]), with the
    keys the onboarding step writes. *)
Record Filters := {
  f_propertyTypes : option (list string);
  f_priceRange : option (list Z);
  f_locations : option (list string);
  f_bedrooms : option Z;
  f_bathrooms : option Z
}.

(** [SavedSearchSchema]. *)
Record SavedSearch := {
  ss_id : ObjectId;
  ss_name : string;
  ss_filters : Filters;
  ss_emailAlerts : bool;
  ss_frequency : Frequency
}.

(** [UserSchema.preferences]: the four declared paths. *)
Record Preferences := {
  propertyTypes : list string;
  priceRange : list Z;
  locations : list string;
  notifications : bool
}.

(** [UserSchema.onboardingCompleted]. *)
Record OnboardingCompleted := {
  oc_buyer : bool;
  oc_seller : bool;
  oc_agent : bool
}.

(** The paths of [UserSchema] that the modelled controllers read or
    write.  The schema declares [officeId] and [agentId]; it declares no
    path named [office]. *)
Record User := {
  u_id : ObjectId;
  role : Role;
  onboardingCompleted : option OnboardingCompleted;
  officeId : option ObjectId;
  preferences : Preferences;
  savedSearches : list SavedSearch;
  agentId : option ObjectId;
  agentVerificationStatus : VerificationStatus;
  isProfileComplete : bool;
  u_isActive : bool
}.

(** A stored [AgentSchema] document.  [userId], [bio], [office] and
    [licenseNumber] are [required], so a stored document has them. *)
Record Agent := {
  a_id : ObjectId;
  userId : ObjectId;
  bio : string;
  specialties : list string;
  languages : list string;
  office : ObjectId;
  licenseNumber : string;
  licenseState : option string;
  yearsExperience : Z;
  a_isActive : bool
}.

(** The object handed to [Agent.create]: any path may be absent. *)
Record AgentInput := {
  ai_userId : option ObjectId;
  ai_bio : option string;
  ai_licenseNumber : option string;
  ai_licenseState : option string;
  ai_yearsExperience : option Z;
  ai_specialties : option (list string);
  ai_languages : option (list string);
  ai_office : option ObjectId;
  ai_isActive : option bool
}.

(** [OfficeSchema.statistics]. *)
Record Statistics := {
  totalAgents : nat;
  activeListings : nat;
  soldThisYear : nat;
  totalVolume : Z;
  averageSalePrice : Z;
  averageDaysOnMarket : Z
}.

(** A stored [OfficeSchema] document: the relations and the statistics,
    and under [o_paths] the other paths with the values they were
    created with. *)
Record Office := {
  o_id : ObjectId;
  franchiseId : string;
  o_manager : ObjectId;
  agents : list ObjectId;
  statistics : Statistics;
  o_paths : list (string * JsValue)
}.

(** [Partial<IOffice>]: the object [createOffice] builds and hands to
    [Office.create]. *)
Record OfficeData := {
  d_paths : list (string * JsValue);
  d_manager : option ObjectId;
  d_agents : option (list ObjectId);
  d_franchiseId : option string;
  d_statistics : option Statistics
}.

(** [PropertySchema]: the references and the status, as the in-memory
    document holds them; [listingAgent] and [listingOffice] are
    [required] when the document is saved. *)
Record Property := {
  p_id : ObjectId;
  title : option string;
  status : PropertyStatus;
  listingAgent : option ObjectId;
  listingOffice : option ObjectId;
  p_seller : option ObjectId
}.

(** ** The document store *)

(** The four collections and the id the next created document gets. *)
Record Store := {
  users : list User;
  agentsC : list Agent;
  offices : list Office;
  properties : list Property;
  next_id : ObjectId
}.

(** The database and, while a transaction is open, the working copy the
    session's reads and writes go to. *)
Record World := {
  db : Store;
  tx : option Store
}.

(** ** Errors and the controller monad *)

(** [new AppError(message, statusCode)]. *)
Record AppError := { message : string; statusCode : nat }.

(** What a controller hands to [next(error)]: an [AppError], a Mongoose
    [ValidationError] with the paths that failed, a duplicate-key error
    of a unique index, or a write the store refused. *)
Inductive Error :=
| EApp (e : AppError)
| EValidation (paths : list string)
| EDuplicateKey (field : string)
| EWrite.

(** [errorHandler]: the HTTP status each error is answered with. *)
Definition errorHandler (e : Error) : nat :=
  match e with
  | EApp a => statusCode a
  | EValidation _ => 400
  | EDuplicateKey _ => 400
  | EWrite => 500
  end.

(** [res.status(s).json({ success: true, message })]. *)
Record Response := { res_status : nat; res_message : string }.

(** A computation over a state [S] that may throw; the state changes made
    before the throw remain. *)
Definition StateErr (S A : Type) : Type := S -> (Error + A) * S.

Definition ret {S A} (a : A) : StateErr S A := fun st => (inr a, st).

Definition bind {S A B} (m : StateErr S A) (k : A -> StateErr S B)
  : StateErr S B :=
  fun st =>
    match m st with
    | (inl e, st') => (inl e, st')
    | (inr a, st') => k a st'
    end.

Definition throw {S A} (e : Error) : StateErr S A := fun st => (inl e, st).

Definition throwApp {S A} (msg : string) (code : nat) : StateErr S A :=
  throw (EApp {| message := msg; statusCode := code |}).

Definition gets {S A} (f : S -> A) : StateErr S A :=
  fun st => (inr (f st), st).

Definition modify {S} (f : S -> S) : StateErr S unit :=
  fun st => (inr tt, f st).

Declare Scope ctl_scope.
Delimit Scope ctl_scope with ctl.
Notation "x <- m ;; k" := (bind m (fun x => k))
  (at level 61, m at next level, right associativity) : ctl_scope.
Notation "m ;;; k" := (bind m (fun _ => k))
  (at level 61, right associativity) : ctl_scope.

(** A controller outside any transaction works on the database. *)
Definition M (A : Type) : Type := StateErr Store A.

(** A controller that opens a session works on the [World]. *)
Definition T (A : Type) : Type := StateErr World A.

(** What the client of a controller observes. *)
Definition Outcome : Type := Error + Response.

Definition is_error {A} (r : Error + A) : bool :=
  match r with inl _ => true | inr _ => false end.

(** ** Model operations *)

Definition set_users (us : list User) (st : Store) : Store :=
  {| users := us; agentsC := agentsC st; offices := offices st;
     properties := properties st; next_id := next_id st |}.

Definition set_agents (l : list Agent) (st : Store) : Store :=
  {| users := users st; agentsC := l; offices := offices st;
     properties := properties st; next_id := next_id st |}.

Definition set_offices (l : list Office) (st : Store) : Store :=
  {| users := users st; agentsC := agentsC st; offices := l;
     properties := properties st; next_id := next_id st |}.

Definition set_properties (l : list Property) (st : Store) : Store :=
  {| users := users st; agentsC := agentsC st; offices := offices st;
     properties := l; next_id := next_id st |}.

(** A fresh [_id] for a created document. *)
Definition fresh_id : M ObjectId :=
  fun st =>
    (inr (next_id st),
     {| users := users st; agentsC := agentsC st; offices := offices st;
        properties := properties st; next_id := S (next_id st) |}).

(** [doc.save()] of a loaded document: the stored document with the same
    [_id] takes the in-memory values. *)
Definition replace_by {A} (key : A -> ObjectId) (d : A) (l : list A) : list A :=
  map (fun x => if Nat.eqb (key x) (key d) then d else x) l.

(** The document a query by [_id], or by a reference, finds in a store:
    the first match in the collection. *)
Definition lookup_user (id : ObjectId) (st : Store) : option User :=
  find (fun u => Nat.eqb (u_id u) id) (users st).

Definition lookup_user_by_agentId (aid : ObjectId) (st : Store) : option User :=
  find (fun u => opt_id_eqb (agentId u) (Some aid)) (users st).

Definition lookup_agent (id : ObjectId) (st : Store) : option Agent :=
  find (fun a => Nat.eqb (a_id a) id) (agentsC st).

Definition lookup_agent_by_userId (uid : ObjectId) (st : Store) : option Agent :=
  find (fun a => Nat.eqb (userId a) uid) (agentsC st).

Definition lookup_office (id : ObjectId) (st : Store) : option Office :=
  find (fun o => Nat.eqb (o_id o) id) (offices st).

Definition lookup_property (id : ObjectId) (st : Store) : option Property :=
  find (fun p => Nat.eqb (p_id p) id) (properties st).

(** The Agent Profiles that name the account [uid] as their owner. *)
Definition profiles_of (uid : ObjectId) (st : Store) : list Agent :=
  filter (fun a => Nat.eqb (userId a) uid) (agentsC st).

(** Assignments to the paths of a loaded user document. *)
Definition set_role (r : Role) (u : User) : User :=
  {| u_id := u_id u; role := r;
     onboardingCompleted := onboardingCompleted u; officeId := officeId u;
     preferences := preferences u; savedSearches := savedSearches u;
     agentId := agentId u;
     agentVerificationStatus := agentVerificationStatus u;
     isProfileComplete := isProfileComplete u; u_isActive := u_isActive u |}.

Definition set_onboardingCompleted (oc : OnboardingCompleted) (u : User) : User :=
  {| u_id := u_id u; role := role u;
     onboardingCompleted := Some oc; officeId := officeId u;
     preferences := preferences u; savedSearches := savedSearches u;
     agentId := agentId u;
     agentVerificationStatus := agentVerificationStatus u;
     isProfileComplete := isProfileComplete u; u_isActive := u_isActive u |}.

Definition set_officeId (o : option ObjectId) (u : User) : User :=
  {| u_id := u_id u; role := role u;
     onboardingCompleted := onboardingCompleted u; officeId := o;
     preferences := preferences u; savedSearches := savedSearches u;
     agentId := agentId u;
     agentVerificationStatus := agentVerificationStatus u;
     isProfileComplete := isProfileComplete u; u_isActive := u_isActive u |}.

Definition set_preferences (p : Preferences) (u : User) : User :=
  {| u_id := u_id u; role := role u;
     onboardingCompleted := onboardingCompleted u; officeId := officeId u;
     preferences := p; savedSearches := savedSearches u;
     agentId := agentId u;
     agentVerificationStatus := agentVerificationStatus u;
     isProfileComplete := isProfileComplete u; u_isActive := u_isActive u |}.

Definition set_savedSearches (l : list SavedSearch) (u : User) : User :=
  {| u_id := u_id u; role := role u;
     onboardingCompleted := onboardingCompleted u; officeId := officeId u;
     preferences := preferences u; savedSearches := l;
     agentId := agentId u;
     agentVerificationStatus := agentVerificationStatus u;
     isProfileComplete := isProfileComplete u; u_isActive := u_isActive u |}.

Definition set_agentId (a : option ObjectId) (u : User) : User :=
  {| u_id := u_id u; role := role u;
     onboardingCompleted := onboardingCompleted u; officeId := officeId u;
     preferences := preferences u; savedSearches := savedSearches u;
     agentId := a;
     agentVerificationStatus := agentVerificationStatus u;
     isProfileComplete := isProfileComplete u; u_isActive := u_isActive u |}.

Definition set_agentVerificationStatus (s : VerificationStatus) (u : User)
  : User :=
  {| u_id := u_id u; role := role u;
     onboardingCompleted := onboardingCompleted u; officeId := officeId u;
     preferences := preferences u; savedSearches := savedSearches u;
     agentId := agentId u;
     agentVerificationStatus := s;
     isProfileComplete := isProfileComplete u; u_isActive := u_isActive u |}.

Definition set_isProfileComplete (b : bool) (u : User) : User :=
  {| u_id := u_id u; role := role u;
     onboardingCompleted := onboardingCompleted u; officeId := officeId u;
     preferences := preferences u; savedSearches := savedSearches u;
     agentId := agentId u;
     agentVerificationStatus := agentVerificationStatus u;
     isProfileComplete := b; u_isActive := u_isActive u |}.

(** [user.office]: [UserSchema] declares no path [office] (the office
    reference of an account is [officeId]), so on a user document this
    property access yields [undefined]. *)
Definition user_office (u : User) : option ObjectId := None.

(** ** Validation of a saved search *)

(** A filters object without a key.  Mongoose does not store an empty
    object: a saved search that was given one is stored without its
    [filters], and is loaded without them. *)
Definition Filters_empty (f : Filters) : bool :=
  match f_propertyTypes f, f_priceRange f, f_locations f,
        f_bedrooms f, f_bathrooms f with
  | None, None, None, None, None => true
  | _, _, _, _, _ => false
  end.

Definition nat_to_string (n : nat) : string :=
  NilEmpty.string_of_uint (Nat.to_uint n).

(** The path of a saved search's field in a validation error. *)
Definition search_path (i : nat) (p : string) : string :=
  "savedSearches." ++ nat_to_string i ++ "." ++ p.

(** The [required] paths of [SavedSearchSchema] that the saved search at
    position [i] fails.  [name] fails when it is the empty string.
    [filters] fails when the document has none: a search loaded from the
    store has them unless the stored object was empty, and a search whose
    [filters] the request has just assigned has them, also when the
    object is empty. *)
Definition invalid_search (assigned : bool) (i : nat) (s : SavedSearch)
  : list string :=
  ((if ss_name s =? "" then [search_path i "name"] else [])
   ++
   (if Filters_empty (ss_filters s) && negb assigned
    then [search_path i "filters"] else []))%list.

(** Whether a saved search passes: no path of it fails. *)
Definition search_ok (assigned : bool) (s : SavedSearch) : bool :=
  negb (ss_name s =? "") && negb (Filters_empty (ss_filters s) && negb assigned).

Fixpoint invalid_searches (assigned : list nat) (i : nat)
  (l : list SavedSearch) : list string :=
  match l with
  | [] => []
  | s :: r =>
      (invalid_search (existsb (Nat.eqb i) assigned) i s
       ++ invalid_searches assigned (S i) r)%list
  end.

Module UserModel.

Definition findById (id : ObjectId) : M (option User) :=
  gets (lookup_user id).

(** [User.findOne({ agentId })]. *)
Definition findOne_agentId (aid : ObjectId) : M (option User) :=
  gets (lookup_user_by_agentId aid).

(** The paths on which [user.validate()] fails.  [assigned] are the
    positions of the saved searches whose [filters] this request has
    assigned.  The account's own required paths (email, password, first
    and last name) are not modelled: a stored account has them; its role,
    its status and its flags are enum members and booleans by their
    types. *)
Definition validate (assigned : list nat) (u : User) : list string :=
  invalid_searches assigned 0 (savedSearches u).

(** [user.save()]: the whole document is validated, its saved searches
    included, and written only when no path fails. *)
Definition save_assigned (assigned : list nat) (u : User) : M unit :=
  match validate assigned u with
  | [] => modify (fun st => set_users (replace_by u_id u (users st)) st)
  | paths => throw (EValidation paths)
  end.

(** [user.save()] in a request that assigns no [filters]. *)
Definition save (u : User) : M unit := save_assigned [] u.

(** [User.findByIdAndUpdate(id, { agentVerificationStatus })]. *)
Definition findByIdAndUpdate_status (id : ObjectId) (s : VerificationStatus)
  : M unit :=
  modify (fun st =>
    set_users
      (map (fun u =>
              if Nat.eqb (u_id u) id
              then set_agentVerificationStatus s u else u)
           (users st)) st).

End UserModel.

(** ** Schema declarations *)

(** The options of a schema path that decide whether a document is
    accepted: [required] and [unique]. *)
Record SchemaPath := {
  sp_name : string;
  sp_required : bool;
  sp_unique : bool
}.

Definition path (n : string) (req uniq : bool) : SchemaPath :=
  {| sp_name := n; sp_required := req; sp_unique := uniq |}.

(** [schema.index(fields, { unique })]. *)
Record SchemaIndex := {
  ix_fields : list string;
  ix_unique : bool
}.

(** The paths of [AgentSchema]. *)
Definition AgentSchema : list SchemaPath :=
  [ path "userId" true false;
    path "profileImage" false false;
    path "bio" true false;
    path "specialties" false false;
    path "languages" false false;
    path "office" true false;
    path "licenseNumber" true false;
    path "licenseState" false false;
    path "licenseExpiration" false false;
    path "yearsExperience" false false;
    path "socialMedia" false false;
    path "isActive" false false ].

(** [AgentSchema.index({ office: 1, isActive: 1 })] and
    [AgentSchema.index({ specialties: 1 })]. *)
Definition AgentSchema_indexes : list SchemaIndex :=
  [ {| ix_fields := ["office"; "isActive"]; ix_unique := false |};
    {| ix_fields := ["specialties"]; ix_unique := false |} ].

(** The paths of [OfficeSchema] that are [required] or [unique], and the
    paths [createOffice] sets itself. *)
Definition OfficeSchema : list SchemaPath :=
  [ path "name" true false;
    path "franchiseId" true true;
    path "address" true false;
    path "phone" true false;
    path "email" true false;
    path "website" false false;
    path "manager" true false;
    path "agents" false false;
    path "description" true false;
    path "statistics" false false;
    path "contact" true false;
    path "isActive" false false;
    path "isPremium" false false;
    path "establishedDate" true false ].

(** [OfficeSchema.index({ franchiseId: 1 }, { unique: true })] is the one
    unique index among the schema's seven. *)
Definition OfficeSchema_indexes : list SchemaIndex :=
  [ {| ix_fields := ["manager"; "isActive"]; ix_unique := false |};
    {| ix_fields := ["franchiseId"]; ix_unique := true |} ].

(** The modelled paths of [PropertySchema]. *)
Definition PropertySchema : list SchemaPath :=
  [ path "title" true false;
    path "status" false false;
    path "listingAgent" true false;
    path "listingOffice" true false;
    path "seller" false false ].

(** Whether the store rejects a second document with the same value at
    [p]: the path is declared [unique], or a unique index covers exactly
    that path. *)
Definition declares_unique (schema : list SchemaPath)
  (indexes : list SchemaIndex) (p : string) : bool :=
  existsb (fun sp => (sp_name sp =? p) && sp_unique sp) schema
  || existsb (fun ix =>
                match ix_fields ix with
                | [f] => (f =? p) && ix_unique ix
                | _ => false
                end) indexes.

(** The required paths of [schema] that the document leaves unset: the
    paths of the [ValidationError] that [save] raises. *)
Definition missing_required (schema : list SchemaPath)
  (present : string -> bool) : list string :=
  map sp_name
      (filter (fun sp => sp_required sp && negb (present (sp_name sp))) schema).

(** The [required] validator of a string path rejects the empty string. *)
Definition present_string (o : option string) : bool :=
  match o with
  | Some s => negb (s =? "")
  | None => false
  end.

Definition present_ref {A} (o : option A) : bool :=
  match o with Some _ => true | None => false end.

(** The [required] validator on a request value. *)
Definition present_value (v : JsValue) : bool :=
  match v with
  | JUndefined | JNull => false
  | JStr s => negb (s =? "")
  | _ => true
  end.

(** [obj[key]]: the value under [key], [undefined] when there is none. *)
Fixpoint lookup_key (key : string) (obj : list (string * JsValue)) : JsValue :=
  match obj with
  | [] => JUndefined
  | (k, v) :: rest => if k =? key then v else lookup_key key rest
  end.

(** [obj[key] = v]. *)
Fixpoint assign_key (key : string) (v : JsValue) (obj : list (string * JsValue))
  : list (string * JsValue) :=
  match obj with
  | [] => [(key, v)]
  | (k, w) :: rest =>
      if k =? key then (k, v) :: rest else (k, w) :: assign_key key v rest
  end.

(** The [uppercase: true] setter of [OfficeSchema.franchiseId]. *)
Definition upper_ascii (c : ascii) : ascii :=
  let n := nat_of_ascii c in
  if Nat.leb 97 n && Nat.leb n 122 then ascii_of_nat (n - 32) else c.

Fixpoint toUpperCase (s : string) : string :=
  match s with
  | EmptyString => EmptyString
  | String c r => String (upper_ascii c) (toUpperCase r)
  end.

Module AgentModel.

Definition findById (id : ObjectId) : M (option Agent) :=
  gets (lookup_agent id).

(** [Agent.findOne({ userId })]. *)
Definition findOne_userId (uid : ObjectId) : M (option Agent) :=
  gets (lookup_agent_by_userId uid).

Definition present (i : AgentInput) (p : string) : bool :=
  if p =? "userId" then present_ref (ai_userId i)
  else if p =? "bio" then present_string (ai_bio i)
  else if p =? "office" then present_ref (ai_office i)
  else if p =? "licenseNumber" then present_string (ai_licenseNumber i)
  else true.

(** [Agent.create(doc)]: validate against the schema, check the unique
    indexes the schema declares, then insert with a fresh [_id]. *)
Definition create (i : AgentInput) : M Agent :=
  match missing_required AgentSchema (present i),
        ai_userId i, ai_bio i, ai_office i, ai_licenseNumber i with
  | [], Some uid, Some b, Some o, Some l =>
      (dup <- gets (fun st =>
               declares_unique AgentSchema AgentSchema_indexes "userId"
               && existsb (fun a => Nat.eqb (userId a) uid) (agentsC st)) ;;
       if dup then throw (EDuplicateKey "userId")
       else
         id <- fresh_id ;;
         let a := {| a_id := id; userId := uid; bio := b;
                     specialties := orDefault (ai_specialties i) [];
                     languages := orDefault (ai_languages i) [];
                     office := o; licenseNumber := l;
                     licenseState := ai_licenseState i;
                     yearsExperience := orDefault (ai_yearsExperience i) 0%Z;
                     a_isActive := orDefault (ai_isActive i) false |} in
         modify (fun st => set_agents (agentsC st ++ [a]) st) ;;;
         ret a)%ctl
  | missing, _, _, _, _ => throw (EValidation missing)
  end.

(** [agent.save()] of a loaded document. *)
Definition save (a : Agent) : M unit :=
  modify (fun st => set_agents (replace_by a_id a (agentsC st)) st).

End AgentModel.

Definition set_a_isActive (b : bool) (a : Agent) : Agent :=
  {| a_id := a_id a; userId := userId a; bio := bio a;
     specialties := specialties a; languages := languages a;
     office := office a; licenseNumber := licenseNumber a;
     licenseState := licenseState a; yearsExperience := yearsExperience a;
     a_isActive := b |}.

Definition set_a_office (o : ObjectId) (a : Agent) : Agent :=
  {| a_id := a_id a; userId := userId a; bio := bio a;
     specialties := specialties a; languages := languages a;
     office := o; licenseNumber := licenseNumber a;
     licenseState := licenseState a; yearsExperience := yearsExperience a;
     a_isActive := a_isActive a |}.

Module OfficeModel.

Definition findById (id : ObjectId) : M (option Office) :=
  gets (lookup_office id).

(** [Office.findOne({ franchiseId })]: the query value goes through
    the path's setter, as stored values do. *)
Definition findOne_franchiseId (fid : string) : M (option Office) :=
  gets (fun st =>
          find (fun o => franchiseId o =? toUpperCase fid) (offices st)).

Definition present (d : OfficeData) (p : string) : bool :=
  if p =? "manager" then present_ref (d_manager d)
  else if p =? "franchiseId" then present_string (d_franchiseId d)
  else if p =? "agents" then present_ref (d_agents d)
  else if p =? "statistics" then present_ref (d_statistics d)
  else present_value (lookup_key p (d_paths d)).

Definition default_statistics : Statistics :=
  {| totalAgents := 0; activeListings := 0; soldThisYear := 0;
     totalVolume := 0; averageSalePrice := 0; averageDaysOnMarket := 0 |}.

Definition set_totalAgents (n : nat) (s : Statistics) : Statistics :=
  {| totalAgents := n; activeListings := activeListings s;
     soldThisYear := soldThisYear s; totalVolume := totalVolume s;
     averageSalePrice := averageSalePrice s;
     averageDaysOnMarket := averageDaysOnMarket s |}.

(** [OfficeSchema.pre("save")]: when [agents] was modified, which on a
    new document means it was given, [statistics.totalAgents] becomes
    the number of agents. *)
Definition pre_save (agents_given : option (list ObjectId)) (s : Statistics)
  : Statistics :=
  match agents_given with
  | Some l => set_totalAgents (List.length l) s
  | None => s
  end.

(** [Office.create([doc], { session })]: validate the required paths,
    run the pre-save hook, check the unique index on [franchiseId],
    insert with a fresh [_id]. *)
Definition create (d : OfficeData) : M Office :=
  match missing_required OfficeSchema (present d),
        d_manager d, d_franchiseId d with
  | [], Some m, Some fid =>
      (let fid' := toUpperCase fid in
       dup <- gets (fun st =>
               declares_unique OfficeSchema OfficeSchema_indexes "franchiseId"
               && existsb (fun o => franchiseId o =? fid') (offices st)) ;;
       if dup then throw (EDuplicateKey "franchiseId")
       else
         id <- fresh_id ;;
         let o := {| o_id := id; franchiseId := fid'; o_manager := m;
                     agents := orDefault (d_agents d) [];
                     statistics :=
                       pre_save (d_agents d)
                         (orDefault (d_statistics d)
                                               default_statistics);
                     o_paths := d_paths d |} in
         modify (fun st => set_offices (offices st ++ [o]) st) ;;;
         ret o)%ctl
  | missing, _, _ => throw (EValidation missing)
  end.

End OfficeModel.

Module PropertyModel.

Definition findById (id : ObjectId) : M (option Property) :=
  gets (lookup_property id).

Definition present (p : Property) (n : string) : bool :=
  if n =? "title" then present_string (title p)
  else if n =? "listingAgent" then present_ref (listingAgent p)
  else if n =? "listingOffice" then present_ref (listingOffice p)
  else true.

(** [property.save()]: the document is validated, then stored. *)
Definition save (p : Property) : M unit :=
  match missing_required PropertySchema (present p) with
  | [] =>
      modify (fun st => set_properties (replace_by p_id p (properties st)) st)
  | missing => throw (EValidation missing)
  end.

End PropertyModel.

(** ** Sessions and transactions *)

(** A read or write that is given the session: it works on the
    transaction's copy while one is open. *)
Definition in_session {A} (m : M A) : T A :=
  fun w =>
    match tx w with
    | Some s => let (r, s') := m s in (r, {| db := db w; tx := Some s' |})
    | None => let (r, s') := m (db w) in (r, {| db := s'; tx := None |})
    end.

(** A read or write that is not given the session goes to the database. *)
Definition no_session {A} (m : M A) : T A :=
  fun w => let (r, s') := m (db w) in (r, {| db := s'; tx := tx w |}).

(** [session.startTransaction()]. *)
Definition startTransaction (w : World) : World :=
  {| db := db w; tx := Some (db w) |}.

(** [session.commitTransaction()]: the copy becomes the database, unless
    the store refuses the commit. *)
Definition commitTransaction (refused : bool) : T unit :=
  fun w =>
    if refused then (inl EWrite, w)
    else
      match tx w with
      | Some s => (inr tt, {| db := s; tx := None |})
      | None => (inr tt, w)
      end.

(** [session.abortTransaction()]: the copy is dropped. *)
Definition abortTransaction (w : World) : World :=
  {| db := db w; tx := None |}.

(** A write the store may refuse. *)
Definition may_fail {S A} (refused : bool) (m : StateErr S A) : StateErr S A :=
  if refused then throw EWrite else m.

(** ** Role controller *)

(** The keys of [onboardingData] that the buyer and seller steps read. *)
Record OnboardingData := {
  od_propertyTypes : option (list string);
  od_priceRange : option (list Z);
  od_locations : option (list string);
  od_notifications : option bool;
  od_bedrooms : option Z;
  od_bathrooms : option Z;
  od_emailAlerts : option bool;
  od_hasProperty : bool
}.

(** [onboardingCompleted[role]]: the object has the keys buyer, seller
    and agent; any other key reads [undefined]. *)
Definition oc_get (oc : OnboardingCompleted) (r : Role) : option bool :=
  match r with
  | buyer => Some (oc_buyer oc)
  | seller => Some (oc_seller oc)
  | agent => Some (oc_agent oc)
  | manager | admin => None
  end.

(** [onboardingCompleted[typedRole] = true] for the two onboarding roles. *)
Definition oc_set_true (oc : OnboardingCompleted) (r : Role) : OnboardingCompleted :=
  match r with
  | buyer => {| oc_buyer := true; oc_seller := oc_seller oc; oc_agent := oc_agent oc |}
  | seller => {| oc_buyer := oc_buyer oc; oc_seller := true; oc_agent := oc_agent oc |}
  | _ => oc
  end.

Definition truthy (o : option bool) : bool :=
  match o with Some true => true | _ => false end.

(** [arr?.length > 0]. *)
Definition has_elements {A} (o : option (list A)) : bool :=
  match o with
  | Some (_ :: _) => true
  | _ => false
  end.

(** [onboardingCompleted[primaryRole]] of an account, as a boolean. *)
Definition currentRoleComplete (u : User) : bool :=
  match onboardingCompleted u with
  | Some oc => truthy (oc_get oc (role u))
  | None => false
  end.

Module RoleController.

(** [const validRoles = ["buyer", "seller"]] of the module. *)
Definition validRoles : list string := ["buyer"; "seller"].

(** [selectRole]: POST /api/users/:id/select-role. *)
Definition selectRole (req_user : option User) (id : ObjectId)
  (role_s : string) : M Response :=
  (if negb (opt_id_eqb (option_map u_id req_user) (Some id))
   then throwApp "Unauthorized access" 403
   else if negb (includes ["buyer"; "seller"; "agent"] role_s)
   then throwApp "Invalid role. Must be buyer, seller, or agent" 400
   else
     ou <- UserModel.findById id ;;
     match ou, Role_of_string role_s with
     | None, _ => throwApp "User not found" 404
     | Some _, None => throw (EValidation ["role"])
     | Some user, Some r =>
         let user := set_role r user in
         let user :=
           if Role_eqb r agent
           then set_agentVerificationStatus vs_none user else user in
         UserModel.save user ;;;
         ret {| res_status := 200;
                res_message := "Role updated to " ++ role_s |}
     end)%ctl.

(** [completeBuyerOnboarding(user, data)]: the preferences are
    replaced and, when property types or locations are given, a saved
    search is pushed.  Its [filters] then hold at least one of the two
    keys, so they are stored. *)
Definition completeBuyerOnboarding (user : User) (data : OnboardingData)
  : M User :=
  (let user :=
     set_preferences
       {| propertyTypes := orDefault (od_propertyTypes data) [];
          priceRange :=
            orDefault (od_priceRange data) [0%Z; 1000000%Z];
          locations := orDefault (od_locations data) [];
          notifications :=
            match od_notifications data with
            | Some false => false
            | _ => true
            end |} user in
   if has_elements (od_propertyTypes data) || has_elements (od_locations data)
   then
     sid <- fresh_id ;;
     ret (set_savedSearches
            (savedSearches user ++
             [ {| ss_id := sid;
                  ss_name := "My Initial Search";
                  ss_filters :=
                    {| f_propertyTypes := od_propertyTypes data;
                       f_priceRange := od_priceRange data;
                       f_locations := od_locations data;
                       f_bedrooms := od_bedrooms data;
                       f_bathrooms := od_bathrooms data |};
                  ss_emailAlerts :=
                    orDefault (od_emailAlerts data) false;
                  ss_frequency := weekly |} ])
            user)
   else ret user)%ctl.

(** [completeSellerOnboarding(user, data)]: [preferences] is reassigned
    with a [sellerData] key; the schema declares no such path under
    [preferences], so the declared paths keep their values. *)
Definition completeSellerOnboarding (user : User) (data : OnboardingData)
  : M User :=
  if od_hasProperty data
  then ret (set_preferences (preferences user) user)
  else ret user.

(** [completeOnboarding]: POST /api/users/:id/onboarding. *)
Definition completeOnboarding (req_user : option User) (id : ObjectId)
  (role_s : string) (onboardingData : OnboardingData) : M Response :=
  (if negb (opt_id_eqb (option_map u_id req_user) (Some id))
   then throwApp "Unauthorized access" 403
   else
     ou <- UserModel.findById id ;;
     match ou with
     | None => throwApp "User not found" 404
     | Some user =>
         if negb (includes validRoles role_s)
         then throwApp
                "Invalid role. Only buyer and seller onboarding are handled here."
                400
         else
           user <- (if role_s =? "buyer"
                    then completeBuyerOnboarding user onboardingData
                    else if role_s =? "seller"
                    then completeSellerOnboarding user onboardingData
                    else ret user) ;;
           match Role_of_string role_s with
           | None => throw (EValidation ["onboardingCompleted"])
           | Some typedRole =>
               let oc :=
                 match onboardingCompleted user with
                 | Some oc => oc
                 | None => {| oc_buyer := false; oc_seller := false;
                              oc_agent := false |}
                 end in
               let user := set_onboardingCompleted (oc_set_true oc typedRole) user in
               let user :=
                 if currentRoleComplete user
                 then set_isProfileComplete true user else user in
               UserModel.save user ;;;
               ret {| res_status := 200;
                      res_message :=
                        role_s ++ " onboarding completed successfully" |}
           end
     end)%ctl.

End RoleController.

(** ** User controller: saved searches *)

Record SavedSearchBody := {
  sb_name : option string;
  sb_filters : option Filters;
  sb_emailAlerts : option bool;
  sb_frequency : option Frequency
}.

Module UserController.

(** [addSavedSearch]: POST /api/users/:id/saved-searches. *)
Definition addSavedSearch (req_user : option User) (id : ObjectId)
  (body : SavedSearchBody) : M Response :=
  (if negb (opt_id_eqb (option_map u_id req_user) (Some id))
   then throwApp "Insufficient permissions" 403
   else
     match present_string (sb_name body), sb_name body, sb_filters body with
     | true, Some nm, Some filters =>
         ou <- UserModel.findById id ;;
         match ou with
         | None => throwApp "User not found" 404
         | Some user =>
             if Nat.leb 10 (List.length (savedSearches user))
             then throwApp "Maximum saved searches limit reached (10)" 400
             else
               sid <- fresh_id ;;
               let savedSearch :=
                 {| ss_id := sid; ss_name := nm; ss_filters := filters;
                    ss_emailAlerts :=
                      orDefault (sb_emailAlerts body) false;
                    ss_frequency :=
                      orDefault (sb_frequency body) weekly |} in
               UserModel.save_assigned [List.length (savedSearches user)]
                 (set_savedSearches (savedSearches user ++ [savedSearch]) user) ;;;
               ret {| res_status := 201;
                      res_message := "Search saved successfully" |}
         end
     | _, _, _ => throwApp "Valid name and filters are required" 400
     end)%ctl.

(** [deleteSavedSearch]: DELETE /api/users/:id/saved-searches/:searchId. *)
Definition deleteSavedSearch (req_user : option User) (id searchId : ObjectId)
  : M Response :=
  (if negb (opt_id_eqb (option_map u_id req_user) (Some id))
   then throwApp "Insufficient permissions" 403
   else
     ou <- UserModel.findById id ;;
     match ou with
     | None => throwApp "User not found" 404
     | Some user =>
         if negb (existsb (fun s => Nat.eqb (ss_id s) searchId)
                          (savedSearches user))
         then throwApp "Saved search not found" 404
         else
           UserModel.save
             (set_savedSearches
                (filter (fun s => negb (Nat.eqb (ss_id s) searchId))
                        (savedSearches user)) user) ;;;
           ret {| res_status := 200;
                  res_message := "Saved search deleted successfully" |}
     end)%ctl.

End UserController.

(** ** Agent controller *)

(** The fields of the application form that [apply] copies. *)
Record ApplicationBody := {
  ab_bio : option string;
  ab_licenseNumber : option string;
  ab_licenseState : option string;
  ab_yearsExperience : option Z;
  ab_specialties : option (list string);
  ab_languages : option (list string);
  ab_office : option ObjectId
}.

Definition status_message (s : VerificationStatus) : string :=
  match s with
  | vs_none => "none" | vs_pending => "pending"
  | vs_verified => "verified" | vs_rejected => "rejected"
  end.

Module AgentController.

(** The reads of [apply], up to its last check: the account is loaded,
it must not be verified, and it must not own an Agent Profile. *)
Definition apply_reads (uid : ObjectId) : M User :=
(ou <- UserModel.findById uid ;;
 match ou with
 | None => throwApp "User not found" 404
 | Some user =>
     if VerificationStatus_eqb (agentVerificationStatus user) vs_verified
     then throwApp "You are already a verified agent" 400
     else
       existingAgent <- AgentModel.findOne_userId uid ;;
       match existingAgent with
       | Some _ => throwApp "Agent application already submitted" 400
       | None => ret user
       end
 end)%ctl.

(** The writes of [apply]: the Agent Profile is created inactive, then
the loaded account document is saved as pending with its [agentId].
The two writes share no transaction: when the save fails, the profile
that was created stays. *)
Definition apply_writes (uid : ObjectId) (user : User) (body : ApplicationBody)
  : M Response :=
(a <- AgentModel.create
        {| ai_userId := Some uid;
           ai_bio := ab_bio body;
           ai_licenseNumber := ab_licenseNumber body;
           ai_licenseState := ab_licenseState body;
           ai_yearsExperience := ab_yearsExperience body;
           ai_specialties := ab_specialties body;
           ai_languages := ab_languages body;
           ai_office := ab_office body;
           ai_isActive := Some false |} ;;
 UserModel.save
   (set_agentId (Some (a_id a))
      (set_agentVerificationStatus vs_pending user)) ;;;
 ret {| res_status := 201;
        res_message := "Agent application submitted successfully" |})%ctl.

(** [apply]: POST /api/agents/apply.  The reads and the writes are
separate awaited calls. *)
Definition apply (req_user : option User) (body : ApplicationBody)
  : M Response :=
match req_user with
| None => throwApp "Unauthorized access" 403
| Some ru =>
    (user <- apply_reads (u_id ru) ;; apply_writes (u_id ru) user body)%ctl
end.

(** [verifyAgent]: PATCH /api/admin/agents/:id/verify. *)
Definition verifyAgent (req_user : option User) (id : ObjectId)
  (action : JsValue) : M Response :=
  match option_map role req_user with
  | Some admin =>
      (oa <- AgentModel.findById id ;;
       match oa with
       | None => throwApp "Agent not found" 404
       | Some a =>
           (* populate("userId") *)
           populated <- UserModel.findById (userId a) ;;
           let status :=
             if strict_eq_str action "approve"
             then vs_verified else vs_rejected in
           AgentModel.save (set_a_isActive (strict_eq_str action "approve") a) ;;;
           match populated with
           | Some owner =>
               UserModel.findByIdAndUpdate_status (u_id owner) status
           | None => ret tt
           end ;;;
           ret {| res_status := 200;
                  res_message := "Agent " ++ status_message status |}
       end)%ctl
  | _ => throwApp "Unauthorized access" 403
  end.

End AgentController.

(** ** Office controller *)

(** The request body of [createOffice]: the two destructured keys and
    the remaining keys. *)
Record OfficeBody := {
  ob_manager : option ObjectId;
  ob_franchiseId : option string;
  ob_fields : list (string * JsValue)
}.

(** Which of the store's writes in [createOffice] are refused. *)
Record Faults := {
  office_create_refused : bool;
  agent_save_refused : bool;
  user_save_refused : bool;
  commit_refused : bool
}.

Definition no_faults : Faults :=
  {| office_create_refused := false; agent_save_refused := false;
     user_save_refused := false; commit_refused := false |}.

Module OfficeController.

(** [const allowedFields] of [createOffice]. *)
Definition allowedFields : list string :=
  [ "name"; "description"; "address"; "phone"; "email"; "website";
    "settings"; "images"; "specialties"; "services"; "languages";
    "officeHours"; "socialMedia"; "contact"; "metadata"; "marketAreas";
    "awards"; "certifications"; "isActive"; "isPremium" ].

(** The loop that copies the allowed keys of the body that are not
    [undefined]. *)
Definition copy_allowed (allowed : list string)
  (body : list (string * JsValue)) : list (string * JsValue) :=
  fold_left
    (fun data key =>
       match lookup_key key body with
       | JUndefined => data
       | v => assign_key key v data
       end)
    allowed [].

(** The office data [createOffice] builds: the allowed keys of the
    body, then the relations and the initial statistics. *)
Definition build_officeData (allowed : list string)
  (fields : list (string * JsValue)) (managerAgent : Agent) (fid : string)
  : OfficeData :=
  {| d_paths := copy_allowed allowed fields;
     d_manager := Some (a_id managerAgent);
     d_agents := Some [a_id managerAgent];
     d_franchiseId := Some fid;
     d_statistics :=
       Some {| totalAgents := 1; activeListings := 0; soldThisYear := 0;
               totalVolume := 0; averageSalePrice := 0;
               averageDaysOnMarket := 0 |} |}.

(** The [try] block of [createOffice], for a given list of allowed
    fields. *)
Definition createOffice_try (allowed : list string) (f : Faults)
  (req_user : option User) (body : OfficeBody) : T Response :=
  match req_user, ob_manager body, present_string (ob_franchiseId body),
        ob_franchiseId body with
  | None, _, _, _ => throwApp "Unauthorized" 401
  | Some _, None, _, _ => throwApp "Manager (agent id) is required" 400
  | Some ru, Some managerId, true, Some fid =>
      (cu <- in_session (UserModel.findById (u_id ru)) ;;
       match cu with
       | None => throwApp "User not found" 404
       | Some currentUser =>
           if negb (includes ["admin"; "manager"]
                             (Role_to_string (role currentUser)))
           then throwApp "Only admin or manager can create offices" 403
           else
             existingOffice <- in_session (OfficeModel.findOne_franchiseId fid) ;;
             match existingOffice with
             | Some _ => throwApp "Franchise ID already in use" 400
             | None =>
                 ma <- in_session (AgentModel.findById managerId) ;;
                 match ma with
                 | None => throwApp "Manager agent not found" 404
                 | Some managerAgent =>
                     mu <- in_session
                             (UserModel.findOne_agentId (a_id managerAgent)) ;;
                     match mu with
                     | None => throwApp "Manager must be a verified agent" 400
                     | Some managerUser =>
                         if negb (VerificationStatus_eqb
                                    (agentVerificationStatus managerUser)
                                    vs_verified)
                         then throwApp "Manager must be a verified agent" 400
                         else
                           let officeData :=
                             build_officeData allowed (ob_fields body)
                                              managerAgent fid in
                           createdOffice <-
                             in_session
                               (may_fail (office_create_refused f)
                                  (OfficeModel.create officeData)) ;;
                           in_session
                             (may_fail (agent_save_refused f)
                                (AgentModel.save
                                   (set_a_office (o_id createdOffice)
                                                 managerAgent))) ;;;
                           in_session
                             (may_fail (user_save_refused f)
                                (UserModel.save
                                   (set_officeId (Some (o_id createdOffice))
                                      (if Role_eqb (role managerUser) manager
                                       then managerUser
                                       else set_role manager managerUser)))) ;;;
                           commitTransaction (commit_refused f) ;;;
                           _ <- no_session
                                  (OfficeModel.findById (o_id createdOffice)) ;;
                           ret {| res_status := 201;
                                  res_message :=
                                    "Office created successfully" |}
                     end
                 end
             end
       end)%ctl
  | Some _, Some _, _, _ => throwApp "Franchise ID is required" 400
  end.

(** [createOffice] for a given list of allowed fields: the transaction
    is started, the [try] block runs, the [catch] block aborts and
    forwards the error, and the session ends. *)
Definition createOffice_with (allowed : list string) (f : Faults)
  (req_user : option User) (body : OfficeBody) (st : Store)
  : Outcome * Store :=
  let w0 := startTransaction {| db := st; tx := None |} in
  match createOffice_try allowed f req_user body w0 with
  | (inr resp, w1) => (inr resp, db w1)
  | (inl e, w1) => (inl e, db (abortTransaction w1))
  end.

(** [createOffice]: POST /api/offices/create. *)
Definition createOffice : Faults -> option User -> OfficeBody -> Store
                          -> Outcome * Store :=
  createOffice_with allowedFields.

End OfficeController.

(** ** Property controller *)

(** The keys of the request body that [extractPropertyFields] reads,
    among the modelled paths. *)
Record PropertyBody := {
  pb_title : option string;
  pb_status : option PropertyStatus;
  pb_listingAgent : option ObjectId;
  pb_listingOffice : option ObjectId;
  pb_seller : option ObjectId
}.

(** The request body of [assignProperty]. *)
Record AssignBody := {
  asg_agentId : option ObjectId;
  asg_officeId : option ObjectId
}.

Definition set_p_status (s : PropertyStatus) (p : Property) : Property :=
  {| p_id := p_id p; title := title p; status := s;
     listingAgent := listingAgent p; listingOffice := listingOffice p;
     p_seller := p_seller p |}.

Module PropertyController.

(** [extractPropertyFields(body)] merged into the document by
    [Object.assign]: every key is assigned, also when its value is
    [undefined]. *)
Definition assign_fields (body : PropertyBody) (p : Property) : Property :=
  {| p_id := p_id p;
     title := pb_title body;
     status := orDefault (pb_status body) ps_active;
     listingAgent := pb_listingAgent body;
     listingOffice := pb_listingOffice body;
     p_seller := pb_seller body |}.

(** [canManageProperty(user, property)]. *)
Definition canManageProperty (user : User) (property : Property) : bool :=
  if Role_eqb (role user) admin then true
  else if Role_eqb (role user) manager
          && opt_id_eqb (user_office user) (listingOffice property)
  then true
  else if Role_eqb (role user) agent
          && opt_id_eqb (Some (u_id user)) (listingAgent property)
  then true
  else false.

(** [updateProperty]: PUT /api/properties/:id. *)
Definition updateProperty (req_user : option User) (id : ObjectId)
  (body : PropertyBody) : M Response :=
  match req_user with
  | None => throwApp "Unauthorized" 401
  | Some user =>
      (op <- PropertyModel.findById id ;;
       match op with
       | None => throwApp "Property not found" 404
       | Some property =>
           if negb (canManageProperty user property)
           then throwApp "Access denied" 403
           else
             PropertyModel.save (assign_fields body property) ;;;
             ret {| res_status := 200;
                    res_message := "Property updated successfully" |}
       end)%ctl
  end.

(** [deleteProperty]: DELETE /api/properties/:id (soft delete). *)
Definition deleteProperty (req_user : option User) (id : ObjectId)
  : M Response :=
  match req_user with
  | None => throwApp "Unauthorized" 401
  | Some user =>
      (op <- PropertyModel.findById id ;;
       match op with
       | None => throwApp "Property not found" 404
       | Some property =>
           if negb (canManageProperty user property)
           then throwApp "Access denied" 403
           else
             PropertyModel.save (set_p_status ps_off_market property) ;;;
             ret {| res_status := 200;
                    res_message := "Property deactivated successfully" |}
       end)%ctl
  end.

(** [assignProperty]: PUT /api/properties/:id/assign. *)
Definition assignProperty (req_user : option User) (id : ObjectId)
  (body : AssignBody) : M Response :=
  match req_user with
  | None => throwApp "Unauthorized" 401
  | Some user =>
      if negb (includes ["admin"; "manager"] (Role_to_string (role user)))
      then throwApp "Access denied" 403
      else
        (op <- PropertyModel.findById id ;;
         match op with
         | None => throwApp "Property not found" 404
         | Some property =>
             PropertyModel.save
               {| p_id := p_id property;
                  title := title property;
                  status := ps_active;
                  listingAgent := asg_agentId body;
                  listingOffice :=
                    or_else (asg_officeId body) (user_office user);
                  p_seller := p_seller property |} ;;;
             ret {| res_status := 200;
                    res_message :=
                      "Property assigned and activated successfully" |}
         end)%ctl
  end.

End PropertyController.

(** ** Role controller: onboarding status *)

(** The [data] of [getOnboardingStatus]. *)
Record OnboardingStatus := {
  isComplete : bool;
  os_role : Role;
  completedOnboarding : option OnboardingCompleted;
  nextSteps : list string
}.

Module RoleStatus.

(** [getNextSteps(user)]. *)
Definition getNextSteps (user : User) : list string :=
  if negb (isProfileComplete user) then
    (if negb (currentRoleComplete user)
     then ["complete_" ++ Role_to_string (role user) ++ "_onboarding"]
     else [])
    ++
    (if Role_eqb (role user) agent
        && VerificationStatus_eqb (agentVerificationStatus user) vs_pending
     then ["await_agent_verification"]
     else [])
  else [].

(** [getOnboardingStatus]: GET /api/users/:id/onboarding-status. *)
Definition getOnboardingStatus (req_user : option User) (id : ObjectId)
  : M OnboardingStatus :=
  (if negb (opt_id_eqb (option_map u_id req_user) (Some id))
   then throwApp "Unauthorized access" 403
   else
     ou <- UserModel.findById id ;;
     match ou with
     | None => throwApp "User not found" 404
     | Some user =>
         ret {| isComplete := isProfileComplete user;
                os_role := role user;
                completedOnboarding := onboardingCompleted user;
                nextSteps := getNextSteps user |}
     end)%ctl.

End RoleStatus.

(** ** User controller: updating a saved search *)

Definition set_ss_name (n : string) (s : SavedSearch) : SavedSearch :=
  {| ss_id := ss_id s; ss_name := n; ss_filters := ss_filters s;
     ss_emailAlerts := ss_emailAlerts s; ss_frequency := ss_frequency s |}.

Definition set_ss_filters (f : Filters) (s : SavedSearch) : SavedSearch :=
  {| ss_id := ss_id s; ss_name := ss_name s; ss_filters := f;
     ss_emailAlerts := ss_emailAlerts s; ss_frequency := ss_frequency s |}.

Definition set_ss_emailAlerts (b : bool) (s : SavedSearch) : SavedSearch :=
  {| ss_id := ss_id s; ss_name := ss_name s; ss_filters := ss_filters s;
     ss_emailAlerts := b; ss_frequency := ss_frequency s |}.

Definition set_ss_frequency (f : Frequency) (s : SavedSearch) : SavedSearch :=
  {| ss_id := ss_id s; ss_name := ss_name s; ss_filters := ss_filters s;
     ss_emailAlerts := ss_emailAlerts s; ss_frequency := f |}.

(** [{ ...old, ...given }] on filter objects: a key the request gives
    replaces the stored one. *)
Definition merge_filters (old given : Filters) : Filters :=
  {| f_propertyTypes := or_else (f_propertyTypes given) (f_propertyTypes old);
     f_priceRange := or_else (f_priceRange given) (f_priceRange old);
     f_locations := or_else (f_locations given) (f_locations old);
     f_bedrooms := or_else (f_bedrooms given) (f_bedrooms old);
     f_bathrooms := or_else (f_bathrooms given) (f_bathrooms old) |}.

(** [arr[findIndex(p)] = f(arr[findIndex(p)])]: the first element that
    satisfies [p] is replaced. *)
Fixpoint update_first {A} (p : A -> bool) (f : A -> A) (l : list A) : list A :=
  match l with
  | [] => []
  | x :: r => if p x then f x :: r else x :: update_first p f r
  end.

(** [arr.findIndex(p)] when an element satisfies [p]. *)
Fixpoint find_index {A} (p : A -> bool) (l : list A) : nat :=
  match l with
  | [] => 0
  | x :: r => if p x then 0 else S (find_index p r)
  end.

Module SavedSearches.

(** The partial update of [updateSavedSearch]. *)
Definition patch (body : SavedSearchBody) (s : SavedSearch) : SavedSearch :=
  let s := if present_string (sb_name body)
           then set_ss_name (orDefault (sb_name body) "") s else s in
  let s := match sb_filters body with
           | Some f => set_ss_filters (merge_filters (ss_filters s) f) s
           | None => s
           end in
  let s := match sb_emailAlerts body with
           | Some b => set_ss_emailAlerts b s
           | None => s
           end in
  match sb_frequency body with
  | Some f => set_ss_frequency f s
  | None => s
  end.

(** [updateSavedSearch]: PUT /api/users/:id/saved-searches/:searchId. *)
Definition updateSavedSearch (req_user : option User) (id searchId : ObjectId)
  (body : SavedSearchBody) : M Response :=
  (if negb (opt_id_eqb (option_map u_id req_user) (Some id))
   then throwApp "Insufficient permissions" 403
   else
     ou <- UserModel.findById id ;;
     match ou with
     | None => throwApp "User not found" 404
     | Some user =>
         if negb (existsb (fun s => Nat.eqb (ss_id s) searchId)
                          (savedSearches user))
         then throwApp "Saved search not found" 404
         else
           UserModel.save_assigned
             (match sb_filters body with
              | Some _ =>
                  [find_index (fun s => Nat.eqb (ss_id s) searchId)
                              (savedSearches user)]
              | None => []
              end)
             (set_savedSearches
                (update_first (fun s => Nat.eqb (ss_id s) searchId)
                              (patch body) (savedSearches user))
                user) ;;;
           ret {| res_status := 200;
                  res_message := "Saved search updated successfully" |}
     end)%ctl.

End SavedSearches.

(** ** Property controller: creating and submitting *)

Module PropertyFlow.

(** [new Property(data).save()]: the document is validated and inserted
    with a fresh [_id]; [refused] stands for the store turning the insert
    down (the unique index on [mlsNumber]). *)
Definition create (refused : bool) (data : Property) : M Property :=
  match missing_required PropertySchema (PropertyModel.present data) with
  | [] =>
      if refused then throw (EDuplicateKey "mlsNumber")
      else
        (id <- fresh_id ;;
         let p := {| p_id := id; title := title data; status := status data;
                     listingAgent := listingAgent data;
                     listingOffice := listingOffice data;
                     p_seller := p_seller data |} in
         modify (fun st => set_properties (properties st ++ [p]) st) ;;;
         ret p)%ctl
  | missing => throw (EValidation missing)
  end.

(** [extractPropertyFields(body)], as a document without an [_id] yet. *)
Definition extractPropertyFields (body : PropertyBody) : Property :=
  {| p_id := 0;
     title := pb_title body;
     status := orDefault (pb_status body) ps_active;
     listingAgent := pb_listingAgent body;
     listingOffice := pb_listingOffice body;
     p_seller := pb_seller body |}.

Definition set_listingAgent (a : option ObjectId) (p : Property) : Property :=
  {| p_id := p_id p; title := title p; status := status p;
     listingAgent := a; listingOffice := listingOffice p;
     p_seller := p_seller p |}.

Definition set_listingOffice (o : option ObjectId) (p : Property) : Property :=
  {| p_id := p_id p; title := title p; status := status p;
     listingAgent := listingAgent p; listingOffice := o;
     p_seller := p_seller p |}.

Definition set_seller (o : option ObjectId) (p : Property) : Property :=
  {| p_id := p_id p; title := title p; status := status p;
     listingAgent := listingAgent p; listingOffice := listingOffice p;
     p_seller := o |}.

(** [createProperty]: POST /api/properties. *)
Definition createProperty (refused : bool) (req_user : option User)
  (body : PropertyBody) : M Response :=
  match req_user with
  | None => throwApp "Unauthorized" 401
  | Some user =>
      if negb (includes ["admin"; "manager"; "agent"]
                        (Role_to_string (role user)))
      then throwApp "Access denied" 403
      else
        (let data := extractPropertyFields body in
         let data := if Role_eqb (role user) agent
                     then set_listingAgent (Some (u_id user)) data else data in
         let data := if Role_eqb (role user) manager
                        || Role_eqb (role user) agent
                     then set_listingOffice
                            (or_else (user_office user) (listingOffice data))
                            data
                     else data in
         create refused data ;;;
         ret {| res_status := 201;
                res_message := "Property created successfully" |})%ctl
  end.

(** [submitProperty]: POST /api/properties/submit. *)
Definition submitProperty (refused : bool) (req_user : option User)
  (body : PropertyBody) : M Response :=
  match req_user with
  | None => throwApp "Unauthorized" 401
  | Some user =>
      if negb (Role_eqb (role user) seller)
      then throwApp "Access denied" 403
      else
        (let data := extractPropertyFields body in
         let data := set_seller (Some (u_id user)) data in
         let data := set_p_status ps_pending data in
         let data := set_listingAgent None data in
         let data := set_listingOffice None data in
         create refused data ;;;
         ret {| res_status := 201;
                res_message := "Property submitted for review" |})%ctl
  end.

End PropertyFlow.

(** ** Office lifecycle: update, soft delete and the schema's methods *)

Definition set_o_paths (l : list (string * JsValue)) (o : Office) : Office :=
  {| o_id := o_id o; franchiseId := franchiseId o; o_manager := o_manager o;
     agents := agents o; statistics := statistics o; o_paths := l |}.

Definition set_o_manager (m : ObjectId) (o : Office) : Office :=
  {| o_id := o_id o; franchiseId := franchiseId o; o_manager := m;
     agents := agents o; statistics := statistics o; o_paths := o_paths o |}.

Definition set_o_agents (l : list ObjectId) (o : Office) : Office :=
  {| o_id := o_id o; franchiseId := franchiseId o; o_manager := o_manager o;
     agents := l; statistics := statistics o; o_paths := o_paths o |}.

Definition set_o_statistics (s : Statistics) (o : Office) : Office :=
  {| o_id := o_id o; franchiseId := franchiseId o; o_manager := o_manager o;
     agents := agents o; statistics := s; o_paths := o_paths o |}.

(** [office.isActive] of a stored office: the stored boolean, [true] (the
    schema default) when the path was never set. *)
Definition office_isActive (o : Office) : bool :=
  match lookup_key "isActive" (o_paths o) with
  | JUndefined => true
  | JBool b => b
  | JNull => false
  | JNum n => negb (Z.eqb n 0)
  | JStr s => negb (s =? "")
  | JObject _ => true
  end.

(** [Object.prototype.hasOwnProperty.call(obj, key)]. *)
Definition has_key (key : string) (obj : list (string * JsValue)) : bool :=
  existsb (fun kv => fst kv =? key) obj.

(** [agents.includes(id)] on an array of object ids. *)
Definition includes_id (l : list ObjectId) (id : ObjectId) : bool :=
  existsb (Nat.eqb id) l.

(** Which writes of [updateOffice] and [deleteOffice] the store
    refuses. *)
Record LifecycleFaults := {
  lf_office_save : bool;
  lf_user_save : bool;
  lf_agents_update : bool;
  lf_users_update : bool;
  lf_commit : bool
}.

Definition no_lifecycle_faults : LifecycleFaults :=
  {| lf_office_save := false; lf_user_save := false;
     lf_agents_update := false; lf_users_update := false;
     lf_commit := false |}.

(** What [OfficeSchema] makes of a value assigned to one of its paths:
    given the path, the value the document holds and the value assigned,
    the path's setters ([trim], [lowercase]) and its cast give the value
    the document keeps, or the cast fails.  The schema decides it path by
    path; the model leaves the function open, so that what is proved of
    [updateOffice] holds whatever the schema does. *)
Definition SchemaCast : Type := string -> JsValue -> JsValue -> option JsValue.

(** The cast of values that already are what the schema stores, as the
    values of the examples are. *)
Definition as_given : SchemaCast := fun _ _ v => Some v.

Module OfficeDoc.

Definition present (o : Office) (p : string) : bool :=
  if p =? "manager" then true
  else if p =? "franchiseId" then negb (franchiseId o =? "")
  else if p =? "agents" then true
  else if p =? "statistics" then true
  else present_value (lookup_key p (o_paths o)).

(** [office.save()] of a loaded office: the required paths are
    validated and the pre-save hook recounts the agents when [agents]
    was modified. *)
Definition save (agents_modified : bool) (o : Office) : M unit :=
  match missing_required OfficeSchema (present o) with
  | [] =>
      let o' := if agents_modified
                then set_o_statistics
                       (OfficeModel.set_totalAgents (List.length (agents o))
                                                    (statistics o)) o
                else o in
      modify (fun st => set_offices (replace_by o_id o' (offices st)) st)
  | missing => throw (EValidation missing)
  end.

(** [office.save()] after assignments of which those to the paths
    [invalid] failed their cast: a failed cast is a validation error of
    the document, reported with the required paths that are missing. *)
Definition save_invalid (invalid : list string) (agents_modified : bool)
  (o : Office) : M unit :=
  match invalid with
  | [] => save agents_modified o
  | _ =>
      throw (EValidation
               (invalid ++ missing_required OfficeSchema (present o))%list)
  end.

(** [OfficeSchema.methods.addAgent]. *)
Definition addAgent (agentId : ObjectId) (o : Office) : M Office :=
  (if includes_id (agents o) agentId
   then save false o ;;; ret o
   else
     let l := (agents o ++ [agentId])%list in
     let o' := set_o_statistics
                 (OfficeModel.set_totalAgents (List.length l) (statistics o))
                 (set_o_agents l o) in
     save true o' ;;; ret o')%ctl.

(** [OfficeSchema.methods.removeAgent]. *)
Definition removeAgent (agentId : ObjectId) (o : Office) : M Office :=
  (let l := filter (fun id => negb (Nat.eqb id agentId)) (agents o) in
   let o' := set_o_statistics
               (OfficeModel.set_totalAgents (List.length l) (statistics o))
               (set_o_agents l o) in
   save (negb (Nat.eqb (List.length l) (List.length (agents o)))) o' ;;;
   ret o')%ctl.

(** [Agent.updateMany({ office }, { $set: { isActive: false } })]. *)
Definition deactivate_agents_of (oid : ObjectId) : M unit :=
  modify (fun st =>
    set_agents
      (map (fun a => if Nat.eqb (office a) oid then set_a_isActive false a else a)
           (agentsC st)) st).

(** [User.updateMany({ officeId }, { $unset: { officeId: "" } })]. *)
Definition unset_officeId_of (oid : ObjectId) : M unit :=
  modify (fun st =>
    set_users
      (map (fun u => if opt_id_eqb (officeId u) (Some oid)
                     then set_officeId None u else u)
           (users st)) st).

End OfficeDoc.

Module OfficeLifecycle.

(** The loop of [updateOffice] over the allowed fields: a key the body
    owns is assigned, whatever its value.  The document keeps what the
    schema makes of the value; a path whose cast fails keeps what it had
    and is invalid.  The result is the paths of the document and the
    invalid paths. *)
Definition assign_field (cast : SchemaCast) (body : list (string * JsValue))
  (acc : list (string * JsValue) * list string) (key : string)
  : list (string * JsValue) * list string :=
  if has_key key body
  then match cast key (lookup_key key (fst acc)) (lookup_key key body) with
       | Some v => (assign_key key v (fst acc), snd acc)
       | None => (fst acc, (snd acc ++ [key])%list)
       end
  else acc.

Definition assign_allowed (cast : SchemaCast) (allowed : list string)
  (body paths : list (string * JsValue))
  : list (string * JsValue) * list string :=
  fold_left (assign_field cast body) allowed (paths, []).

(** The manager reassignment of [updateOffice]: the new manager must be
    an Agent Profile of a verified account; it becomes the manager, joins
    the agents when it is not among them, and its account is promoted
    and saved.  The result is the office document and whether [agents]
    was modified. *)
Definition reassign_manager (f : LifecycleFaults) (newManagerId : ObjectId)
  (o : Office) : T (Office * bool) :=
  (ma <- in_session (AgentModel.findById newManagerId) ;;
   match ma with
   | None => throwApp "New manager agent not found" 404
   | Some newManagerAgent =>
       mu <- in_session (UserModel.findOne_agentId (a_id newManagerAgent)) ;;
       match mu with
       | None => throwApp "New manager must be a verified agent" 400
       | Some newManagerUser =>
           if negb (VerificationStatus_eqb
                      (agentVerificationStatus newManagerUser) vs_verified)
           then throwApp "New manager must be a verified agent" 400
           else
             let o1 := set_o_manager (a_id newManagerAgent) o in
             let pushed := negb (includes_id (agents o1) (a_id newManagerAgent)) in
             let o2 := if pushed
                       then set_o_agents (agents o1 ++ [a_id newManagerAgent]) o1
                       else o1 in
             in_session
               (may_fail (lf_user_save f)
                  (UserModel.save
                     (set_officeId (Some (o_id o))
                        (if Role_eqb (role newManagerUser) manager
                         then newManagerUser
                         else set_role manager newManagerUser)))) ;;;
             ret (o2, pushed)
       end
   end)%ctl.

(** The [try] block of [updateOffice]. *)
Definition updateOffice_try (cast : SchemaCast) (f : LifecycleFaults)
  (req_user : option User) (id : ObjectId) (body : OfficeBody) : T Response :=
  match req_user with
  | None => throwApp "Unauthorized" 401
  | Some ru =>
      (cu <- in_session (UserModel.findById (u_id ru)) ;;
       match cu with
       | None => throwApp "User not found" 404
       | Some currentUser =>
           if negb (includes ["admin"; "manager"]
                             (Role_to_string (role currentUser)))
           then throwApp "Only admin or manager can update offices" 403
           else
             oo <- in_session (OfficeModel.findById id) ;;
             match oo with
             | None => throwApp "Office not found" 404
             | Some office =>
                 if Role_eqb (role currentUser) manager
                    && negb (opt_id_eqb (Some (o_manager office))
                                        (agentId currentUser))
                 then throwApp "You can only update your own office" 403
                 else
                   let assigned :=
                     assign_allowed cast OfficeController.allowedFields
                                    (ob_fields body) (o_paths office) in
                   let office1 := set_o_paths (fst assigned) office in
                   r <- match ob_manager body with
                        | Some newManagerId =>
                            if negb (Nat.eqb newManagerId (o_manager office))
                            then reassign_manager f newManagerId office1
                            else ret (office1, false)
                        | None => ret (office1, false)
                        end ;;
                   in_session
                     (may_fail (lf_office_save f)
                        (OfficeDoc.save_invalid (snd assigned)
                                                (snd r) (fst r))) ;;;
                   commitTransaction (lf_commit f) ;;;
                   _ <- no_session (OfficeModel.findById id) ;;
                   ret {| res_status := 200;
                          res_message := "Office updated successfully" |}
             end
       end)%ctl
  end.

(** [updateOffice]: PUT /api/offices/:id. *)
Definition updateOffice (cast : SchemaCast) (f : LifecycleFaults)
  (req_user : option User) (id : ObjectId) (body : OfficeBody) (st : Store)
  : Outcome * Store :=
  let w0 := startTransaction {| db := st; tx := None |} in
  match updateOffice_try cast f req_user id body w0 with
  | (inr resp, w1) => (inr resp, db w1)
  | (inl e, w1) => (inl e, db (abortTransaction w1))
  end.

(** The [try] block of [deleteOffice]; [now] is the date it stamps. *)
Definition deleteOffice_try (f : LifecycleFaults) (now : string)
  (req_user : option User) (id : ObjectId) : T Response :=
  match req_user with
  | None => throwApp "Unauthorized" 401
  | Some ru =>
      (cu <- in_session (UserModel.findById (u_id ru)) ;;
       match cu with
       | None => throwApp "User not found" 404
       | Some currentUser =>
           if negb (includes ["admin"; "manager"]
                             (Role_to_string (role currentUser)))
           then throwApp "Only admin or manager can delete offices" 403
           else
             oo <- in_session (OfficeModel.findById id) ;;
             match oo with
             | None => throwApp "Office not found" 404
             | Some office =>
                 if negb (office_isActive office)
                 then throwApp "Office is already inactive" 400
                 else if Role_eqb (role currentUser) manager
                         && negb (opt_id_eqb (Some (o_manager office))
                                             (agentId currentUser))
                 then throwApp "Managers can only delete their own offices" 403
                 else
                   let office' :=
                     set_o_paths
                       (assign_key "deletedAt" (JStr now)
                          (assign_key "isActive" (JBool false)
                                      (o_paths office)))
                       office in
                   in_session
                     (may_fail (lf_office_save f)
                        (OfficeDoc.save false office')) ;;;
                   in_session
                     (may_fail (lf_agents_update f)
                        (OfficeDoc.deactivate_agents_of (o_id office))) ;;;
                   in_session
                     (may_fail (lf_users_update f)
                        (OfficeDoc.unset_officeId_of (o_id office))) ;;;
                   commitTransaction (lf_commit f) ;;;
                   ret {| res_status := 200;
                          res_message :=
                            "Office deleted successfully (soft delete)" |}
             end
       end)%ctl
  end.

(** [deleteOffice]: DELETE /api/offices/:id. *)
Definition deleteOffice (f : LifecycleFaults) (now : string)
  (req_user : option User) (id : ObjectId) (st : Store) : Outcome * Store :=
  let w0 := startTransaction {| db := st; tx := None |} in
  match deleteOffice_try f now req_user id w0 with
  | (inr resp, w1) => (inr resp, db w1)
  | (inl e, w1) => (inl e, db (abortTransaction w1))
  end.

End OfficeLifecycle.

(** Two stores that hold the same documents.  They may differ in the
    next generated id: an [_id] a request generated before it failed is
    not handed out again. *)
Definition same_documents (st st' : Store) : Prop :=
  users st' = users st /\ agentsC st' = agentsC st /\
  offices st' = offices st /\ properties st' = properties st.

(** ** Concrete stores and requests *)

Definition default_preferences : Preferences :=
  {| propertyTypes := []; priceRange := [0%Z; 1000000%Z]; locations := [];
     notifications := true |}.

(** A newly registered account: every path at its schema default. *)
Definition new_user (id : ObjectId) : User :=
  {| u_id := id; role := buyer;
     onboardingCompleted :=
       Some {| oc_buyer := false; oc_seller := false; oc_agent := false |};
     officeId := None; preferences := default_preferences;
     savedSearches := []; agentId := None;
     agentVerificationStatus := vs_none; isProfileComplete := false;
     u_isActive := true |}.

Definition store_of (us : list User) (n : ObjectId) : Store :=
  {| users := us; agentsC := []; offices := []; properties := [];
     next_id := n |}.

(** Onboarding data of a buyer looking for a house. *)
Definition house_hunter : OnboardingData :=
  {| od_propertyTypes := Some ["house"]; od_priceRange := None;
     od_locations := None; od_notifications := None; od_bedrooms := Some 3%Z;
     od_bathrooms := None; od_emailAlerts := None; od_hasProperty := false |}.

(** Account 1 registers, completes buyer onboarding, then selects the
    seller role. *)
Definition after_buyer_onboarding : Store :=
  snd (RoleController.completeOnboarding (Some (new_user 1)) 1 "buyer"
         house_hunter (store_of [new_user 1] 100)).

Definition after_switch_to_seller : Store :=
  snd (RoleController.selectRole (Some (new_user 1)) 1 "seller"
         after_buyer_onboarding).


Definition already_submitted : Error :=
  EApp {| message := "Agent application already submitted"; statusCode := 400 |}.

(** A complete application form. *)
Definition valid_application : ApplicationBody :=
  {| ab_bio := Some "Ten years of residential sales in the county";
     ab_licenseNumber := Some "LIC-0001";
     ab_licenseState := Some "CA";
     ab_yearsExperience := Some 10%Z;
     ab_specialties := Some ["residential"];
     ab_languages := Some ["english"];
     ab_office := Some 50 |}.

Definition admin_user : User := set_role admin (new_user 9).

(** Account 1 applies; the application gets the Agent Profile 100. *)
Definition before_apply : Store := store_of [new_user 1; admin_user] 100.

Definition after_apply : Store :=
  snd (AgentController.apply (Some (new_user 1)) valid_application before_apply).

(** The admin rejects, or approves, that application. *)
Definition after_reject : Store :=
  snd (AgentController.verifyAgent (Some admin_user) 100 (JStr "reject")
         after_apply).

Definition after_approve : Store :=
  snd (AgentController.verifyAgent (Some admin_user) 100 (JStr "approve")
         after_apply).

(** A second form, sent by the same account in a concurrent request. *)
Definition second_application : ApplicationBody :=
  {| ab_bio := Some "Also licensed for commercial property";
     ab_licenseNumber := Some "LIC-0002";
     ab_licenseState := Some "NV";
     ab_yearsExperience := None;
     ab_specialties := None;
     ab_languages := None;
     ab_office := Some 51 |}.

(** The manager of office 50, and the account 3 whose Agent Profile
    is 30. *)
Definition manager_o50 : User :=
  set_officeId (Some 50) (set_agentId (Some 20)
    (set_agentVerificationStatus vs_verified (set_role manager (new_user 2)))).

Definition agent_user : User :=
  set_agentId (Some 30)
    (set_agentVerificationStatus vs_verified (set_role agent (new_user 3))).

(** Listings: one of office 50 held by Agent Profile 30, one of office
    60, one that has no agent and no office, and one whose [listingAgent]
    is the account id 3. *)
Definition listing_o50 : Property :=
  {| p_id := 7; title := Some "Bungalow"; status := ps_active;
     listingAgent := Some 30; listingOffice := Some 50; p_seller := None |}.

Definition listing_o60 : Property :=
  {| p_id := 8; title := Some "Loft"; status := ps_pending;
     listingAgent := Some 31; listingOffice := Some 60; p_seller := Some 1 |}.

Definition unassigned_listing : Property :=
  {| p_id := 9; title := Some "Plot"; status := ps_pending;
     listingAgent := None; listingOffice := None; p_seller := Some 1 |}.

Definition listing_by_account : Property :=
  {| p_id := 10; title := Some "Cabin"; status := ps_active;
     listingAgent := Some 3; listingOffice := Some 60; p_seller := None |}.

Definition property_store : Store :=
  {| users := [new_user 1; manager_o50; agent_user; admin_user];
     agentsC := []; offices := [];
     properties :=
       [listing_o50; listing_o60; unassigned_listing; listing_by_account];
     next_id := 100 |}.

Definition access_denied : Error :=
  EApp {| message := "Access denied"; statusCode := 403 |}.

(** An update that only renames the listing of office 50. *)
Definition rename_o50 : PropertyBody :=
  {| pb_title := Some "Bungalow with garden"; pb_status := Some ps_active;
     pb_listingAgent := Some 30; pb_listingOffice := Some 50;
     pb_seller := None |}.

(** An assignment to Agent Profile 30 that names no office, and one
    that names office 50. *)
Definition assign_without_office : AssignBody :=
  {| asg_agentId := Some 30; asg_officeId := None |}.

Definition assign_to_o50 : AssignBody :=
  {| asg_agentId := Some 30; asg_officeId := Some 50 |}.

(** Account 4 already holds ten saved searches, each for condos. *)
Definition no_filters : Filters :=
  {| f_propertyTypes := None; f_priceRange := None; f_locations := None;
     f_bedrooms := None; f_bathrooms := None |}.

Definition condo_filters : Filters :=
  {| f_propertyTypes := Some ["condo"]; f_priceRange := None;
     f_locations := None; f_bedrooms := Some 2%Z; f_bathrooms := None |}.

Definition ten_searches : list SavedSearch :=
  map (fun i => {| ss_id := i; ss_name := "Search"; ss_filters := condo_filters;
                   ss_emailAlerts := false; ss_frequency := weekly |})
      (seq 200 10).

Definition collector : User := set_savedSearches ten_searches (new_user 4).

Definition collector_store : Store := store_of [collector] 300.

Definition one_more_search : SavedSearchBody :=
  {| sb_name := Some "Lake houses"; sb_filters := Some no_filters;
     sb_emailAlerts := None; sb_frequency := None |}.

Definition limit_reached : Error :=
  EApp {| message := "Maximum saved searches limit reached (10)";
          statusCode := 400 |}.

(** Scenario B of the specification: account 3 is a verified agent
    with Agent Profile 30, and the admin creates an office "RMX-100"
    managed by that profile.  The request carries every required field
    of the office, its established date included. *)
Definition profile_30 : Agent :=
  {| a_id := 30; userId := 3; bio := "Twelve years of commercial leasing";
     specialties := ["commercial"]; languages := ["english"];
     office := 50; licenseNumber := "LIC-0030"; licenseState := Some "NY";
     yearsExperience := 12%Z; a_isActive := true |}.

Definition office_store : Store :=
  {| users := [agent_user; admin_user]; agentsC := [profile_30];
     offices := []; properties := []; next_id := 100 |}.

Definition scenario_B : OfficeBody :=
  {| ob_manager := Some 30;
     ob_franchiseId := Some "RMX-100";
     ob_fields :=
       [ ("name", JStr "Downtown");
         ("description", JStr "The downtown branch");
         ("address", JObject "{street, city, state, zipCode}");
         ("phone", JStr "555-0100");
         ("email", JStr "downtown@example.com");
         ("contact", JObject "{primaryContact}");
         ("establishedDate", JStr "2020-01-01") ] |}.

(** The store that Scenario B describes as the result. *)
Definition office_100 : Office :=
  {| o_id := 100; franchiseId := "RMX-100"; o_manager := 30;
     agents := [30];
     statistics :=
       {| totalAgents := 1; activeListings := 0; soldThisYear := 0;
          totalVolume := 0; averageSalePrice := 0; averageDaysOnMarket := 0 |};
     o_paths :=
       [ ("name", JStr "Downtown");
         ("description", JStr "The downtown branch");
         ("address", JObject "{street, city, state, zipCode}");
         ("phone", JStr "555-0100");
         ("email", JStr "downtown@example.com");
         ("contact", JObject "{primaryContact}");
         ("establishedDate", JStr "2020-01-01") ] |}.

Definition office_created : Response :=
  {| res_status := 201; res_message := "Office created successfully" |}.

(** The office document of a successful [Office.create]. *)
Definition created_office (d : OfficeData) (m : ObjectId) (fid : string)
  (st : Store) : Office :=
  {| o_id := next_id st; franchiseId := toUpperCase fid; o_manager := m;
     agents := orDefault (d_agents d) [];
     statistics :=
       OfficeModel.pre_save (d_agents d)
         (orDefault (d_statistics d) OfficeModel.default_statistics);
     o_paths := d_paths d |}.

(** The store Scenario B expects after the call. *)
Definition office_store_after : Store :=
  {| users := [set_officeId (Some 100) (set_role manager agent_user);
               admin_user];
     agentsC := [set_a_office 100 profile_30];
     offices := [office_100]; properties := []; next_id := 101 |}.

(** The allowed fields with the key the schema requires added. *)
Definition allowedFields_with_date : list string :=
  OfficeController.allowedFields ++ ["establishedDate"].

Definition refuse_user_save : Faults :=
  {| office_create_refused := false; agent_save_refused := false;
     user_save_refused := true; commit_refused := false |}.

(** The verified account 1 selects the agent role again. *)
Definition after_reselect_agent : Store :=
  snd (RoleController.selectRole (Some (new_user 1)) 1 "agent" after_approve).

(** Onboarding data of a seller. *)
Definition home_owner : OnboardingData :=
  {| od_propertyTypes := None; od_priceRange := None; od_locations := None;
     od_notifications := None; od_bedrooms := None; od_bathrooms := None;
     od_emailAlerts := None; od_hasProperty := true |}.

(** A seller, and a body that names the listing's agent and office but
    no status. *)
Definition seller_user : User := set_role seller (new_user 5).

Definition retitle_o50 : PropertyBody :=
  {| pb_title := Some "Bungalow, reduced"; pb_status := None;
     pb_listingAgent := Some 30; pb_listingOffice := Some 50;
     pb_seller := None |}.

(** The admin soft-deletes listing 7. *)
Definition after_soft_delete : Store :=
  snd (PropertyController.deleteProperty (Some admin_user) 7 property_store).

(** The Harbour office 70: Agent Profile 20 (account 2) manages it,
    Agent Profile 21 (account 6) is a member, and Agent Profile 30
    (account 3) belongs to another office. *)
Definition harbour_paths : list (string * JsValue) :=
  [ ("name", JStr "Harbour");
    ("description", JStr "The harbour branch");
    ("address", JObject "{street, city, state, zipCode}");
    ("phone", JStr "555-0170");
    ("email", JStr "harbour@example.com");
    ("contact", JObject "{primaryContact}");
    ("establishedDate", JStr "2015-05-01") ].

Definition office_70 : Office :=
  {| o_id := 70; franchiseId := "RMX-070"; o_manager := 20;
     agents := [20; 21];
     statistics :=
       {| totalAgents := 2; activeListings := 0; soldThisYear := 0;
          totalVolume := 0; averageSalePrice := 0; averageDaysOnMarket := 0 |};
     o_paths := harbour_paths |}.

Definition profile_20 : Agent :=
  {| a_id := 20; userId := 2; bio := "Manager of the harbour branch";
     specialties := []; languages := []; office := 70;
     licenseNumber := "LIC-0020"; licenseState := None;
     yearsExperience := 15%Z; a_isActive := true |}.

Definition profile_21 : Agent :=
  {| a_id := 21; userId := 6; bio := "Residential agent at the harbour";
     specialties := []; languages := []; office := 70;
     licenseNumber := "LIC-0021"; licenseState := None;
     yearsExperience := 4%Z; a_isActive := true |}.

Definition manager_70 : User :=
  set_officeId (Some 70) (set_agentId (Some 20)
    (set_agentVerificationStatus vs_verified (set_role manager (new_user 2)))).

Definition member_21 : User :=
  set_officeId (Some 70) (set_agentId (Some 21)
    (set_agentVerificationStatus vs_verified (set_role agent (new_user 6)))).

Definition harbour_store : Store :=
  {| users := [manager_70; member_21; agent_user; admin_user];
     agentsC := [profile_20; profile_21; profile_30];
     offices := [office_70]; properties := []; next_id := 100 |}.

(** The admin makes Agent Profile 30 the manager of office 70. *)
Definition new_manager_30 : OfficeBody :=
  {| ob_manager := Some 30; ob_franchiseId := None;
     ob_fields := [("phone", JStr "555-0199")] |}.

Definition after_reassignment : Store :=
  snd (OfficeLifecycle.updateOffice as_given no_lifecycle_faults
         (Some admin_user) 70 new_manager_30 harbour_store).

(** The admin soft-deletes office 70. *)
Definition after_office_delete : Store :=
  snd (OfficeLifecycle.deleteOffice no_lifecycle_faults "2026-01-01"
         (Some admin_user) 70 harbour_store).

Definition office_already_inactive : Error :=
  EApp {| message := "Office is already inactive"; statusCode := 400 |}.

Definition refuse_office_save : LifecycleFaults :=
  {| lf_office_save := true; lf_user_save := false;
     lf_agents_update := false; lf_users_update := false;
     lf_commit := false |}.

Definition refuse_users_update : LifecycleFaults :=
  {| lf_office_save := false; lf_user_save := false;
     lf_agents_update := false; lf_users_update := true;
     lf_commit := false |}.

(** The office document [updateOffice] stores after a reassignment to
    the Agent Profile [m]: the allowed fields assigned, the new manager,
    and the manager among the agents, recounted when it was added. *)
Definition saved_after_reassignment (o : Office)
  (paths' : list (string * JsValue)) (m : ObjectId) : Office :=
  let o1 := set_o_manager m (set_o_paths paths' o) in
  if includes_id (agents o1) m then o1
  else
    let o2 := set_o_agents (agents o1 ++ [m]) o1 in
    set_o_statistics
      (OfficeModel.set_totalAgents (List.length (agents o2)) (statistics o2))
      o2.

Definition office_updated : Response :=
  {| res_status := 200; res_message := "Office updated successfully" |}.

(** Account 1 saves a search whose filters object is empty; the search
    is stored without its filters. *)
Definition after_empty_search : Store :=
  snd (UserController.addSavedSearch (Some (new_user 1)) 1 one_more_search
         before_apply).

(** * Properties *)

Unset Implicit Arguments.

(** ** Collections *)

Section Collections.

Context {A : Type} (key : A -> ObjectId).

Lemma find_replace_by (d : A) (l : list A) (k : ObjectId) (x : A) :
  find (fun y => Nat.eqb (key y) k) l = Some x ->
  key d = k ->
  find (fun y => Nat.eqb (key y) k) (replace_by key d l) = Some d.
Proof.
  intros Hf Hk. induction l as [|y l IH]; simpl in *; [discriminate|].
  destruct (Nat.eqb (key y) k) eqn:Ey.
  - apply Nat.eqb_eq in Ey.
    assert (Hyd : Nat.eqb (key y) (key d) = true)
      by (apply Nat.eqb_eq; congruence).
    rewrite Hyd. simpl.
    assert (Hdk : Nat.eqb (key d) k = true) by (apply Nat.eqb_eq; exact Hk).
    now rewrite Hdk.
  - assert (Hyd : Nat.eqb (key y) (key d) = false).
    { apply Nat.eqb_neq. apply Nat.eqb_neq in Ey. congruence. }
    rewrite Hyd. simpl. rewrite Ey. now apply IH.
Qed.

Lemma find_replace_by_other (d : A) (l : list A) (k : ObjectId) :
  key d <> k ->
  find (fun y => Nat.eqb (key y) k) (replace_by key d l)
  = find (fun y => Nat.eqb (key y) k) l.
Proof.
  intros Hk. induction l as [|y l IH]; simpl; [reflexivity|].
  destruct (Nat.eqb (key y) (key d)) eqn:Eyd; simpl.
  - apply Nat.eqb_eq in Eyd.
    assert (H1 : Nat.eqb (key d) k = false) by now apply Nat.eqb_neq.
    assert (H2 : Nat.eqb (key y) k = false)
      by (apply Nat.eqb_neq; congruence).
    now rewrite H1, H2.
  - now rewrite IH.
Qed.

Lemma find_some_key (l : list A) (k : ObjectId) (x : A) :
  find (fun y => Nat.eqb (key y) k) l = Some x -> key x = k.
Proof.
  intros H. apply find_some in H. destruct H as [_ H].
  now apply Nat.eqb_eq in H.
Qed.

Lemma length_replace_by (d : A) (l : list A) :
  List.length (replace_by key d l) = List.length l.
Proof. unfold replace_by. apply length_map. Qed.

End Collections.

(** ** Onboarding completion *)

(** After [user.save()] a query by the account's [_id] finds the saved
    document. *)
Lemma lookup_user_save (u' u : User) (id : ObjectId) (st st0 : Store) :
  lookup_user id st = Some u ->
  u_id u' = id ->
  users st0 = replace_by u_id u' (users st) ->
  lookup_user id st0 = Some u'.
Proof.
  unfold lookup_user. intros H E Hus. rewrite Hus.
  eapply find_replace_by; eauto.
Qed.

(** [user.save()] either fails validation and leaves the store as it
    was, or replaces the stored account. *)
Lemma UserModel_save_cases (assigned : list nat) (u : User) (st : Store) :
  (exists ps,
      UserModel.validate assigned u = ps /\ ps <> [] /\
      UserModel.save_assigned assigned u st = (inl (EValidation ps), st))
  \/
  (UserModel.validate assigned u = [] /\
   UserModel.save_assigned assigned u st
   = (inr tt, set_users (replace_by u_id u (users st)) st)).
Proof.
  unfold UserModel.save_assigned.
  destruct (UserModel.validate assigned u) as [|p ps] eqn:E.
  - right. split; reflexivity.
  - left. exists (p :: ps). repeat split. discriminate.
Qed.

Lemma invalid_search_ok (assigned : bool) (i : nat) (s : SavedSearch) :
  invalid_search assigned i s = [] <-> search_ok assigned s = true.
Proof.
  unfold invalid_search, search_ok.
  destruct (ss_name s =? ""), (Filters_empty (ss_filters s) && negb assigned);
    simpl; split; intros H; try reflexivity; discriminate.
Qed.

Lemma invalid_searches_app (assigned : list nat) (i : nat)
  (l r : list SavedSearch) :
  invalid_searches assigned i (l ++ r)
  = (invalid_searches assigned i l
     ++ invalid_searches assigned (i + List.length l) r)%list.
Proof.
  revert i. induction l as [|s l IH]; intros i; simpl.
  - now rewrite Nat.add_0_r.
  - replace (i + S (List.length l)) with (S i + List.length l) by lia.
    now rewrite IH, app_assoc.
Qed.

(** The searches at positions the request did not touch are judged as
    stored. *)
Lemma invalid_searches_untouched (assigned : list nat) (i : nat)
  (l : list SavedSearch) :
  (forall a, In a assigned -> a < i \/ i + List.length l <= a) ->
  invalid_searches assigned i l = invalid_searches [] i l.
Proof.
  revert i. induction l as [|s l IH]; intros i H; simpl; [reflexivity|].
  assert (E : existsb (Nat.eqb i) assigned = false).
  { destruct (existsb (Nat.eqb i) assigned) eqn:E; [|reflexivity].
    apply existsb_exists in E. destruct E as (a & Ha & E).
    apply Nat.eqb_eq in E. subst a.
    destruct (H i Ha) as [X | X]; simpl in X; lia. }
  rewrite E. f_equal. apply IH. intros a Ha.
  destruct (H a Ha) as [X | X]; simpl in X; lia.
Qed.

Local Arguments UserModel.save_assigned : simpl never.
Local Arguments UserModel.validate : simpl never.

Ltac run_ctl :=
  unfold bind, ret, throwApp, throw, gets, modify, fresh_id in *; simpl in *.

(** Case analysis on the outcome of a [user.save()] in the goal. *)
Ltac save_cases :=
  match goal with
  | |- context [UserModel.save_assigned ?a ?u ?st] =>
      let ps := fresh "ps" in
      let Hv := fresh "Hvalid" in
      let Hs := fresh "Hsave" in
      destruct (UserModel_save_cases a u st) as [(ps & _ & _ & Hs) | (Hv & Hs)];
      rewrite Hs; clear Hs; simpl
  end.

(** Case analysis on the test a controller branches on. *)
Ltac branch :=
  match goal with
  | |- context [if ?b then _ else _] => destruct b eqn:?
  | |- context [match ?x with _ => _ end] => destruct x eqn:?
  end; simpl in *.

(** [selectRole] leaves [isProfileComplete] as it was: the flag is not
    recomputed against the new primary role. *)
Lemma selectRole_keeps_isProfileComplete ru id role_s st resp st' u :
  lookup_user id st = Some u ->
  RoleController.selectRole ru id role_s st = (inr resp, st') ->
  exists u' r,
    lookup_user id st' = Some u' /\ Role_of_string role_s = Some r /\
    role u' = r /\
    onboardingCompleted u' = onboardingCompleted u /\
    isProfileComplete u' = isProfileComplete u.
Proof.
  intros Hu. unfold RoleController.selectRole, UserModel.findById, UserModel.save.
  pose proof (find_some_key u_id _ _ _ Hu) as Hid.
  branch; run_ctl; [discriminate|].
  branch; run_ctl; [discriminate|].
  rewrite Hu.
  destruct (Role_of_string role_s) as [r|]; run_ctl; [|discriminate].
  save_cases; [discriminate|].
  intros H. inversion H; subst; clear H.
  destruct (Role_eqb r agent); simpl;
    (eexists; exists r; split;
       [eapply lookup_user_save; [exact Hu | | simpl; reflexivity]; reflexivity|]);
    repeat split.
Qed.

Lemma currentRoleComplete_set_isProfileComplete b u :
  currentRoleComplete (set_isProfileComplete b u) = currentRoleComplete u.
Proof. reflexivity. Qed.

(** The step that ends [completeOnboarding]: raise the flag when the
    primary role's onboarding is complete. *)
Lemma latch_step (x : User) :
  let x' := if currentRoleComplete x then set_isProfileComplete true x else x in
  u_id x' = u_id x /\ role x' = role x /\
  isProfileComplete x' = isProfileComplete x || currentRoleComplete x'.
Proof.
  simpl. destruct (currentRoleComplete x) eqn:E.
  - rewrite currentRoleComplete_set_isProfileComplete, E. simpl.
    now rewrite orb_true_r.
  - rewrite E. now rewrite orb_false_r.
Qed.

(** [completeOnboarding] raises [isProfileComplete] when the onboarding
    of the primary role is complete and otherwise leaves it as it was. *)
Lemma completeOnboarding_latches ru id role_s data st resp st' u :
  lookup_user id st = Some u ->
  RoleController.completeOnboarding ru id role_s data st = (inr resp, st') ->
  exists u',
    lookup_user id st' = Some u' /\
    role u' = role u /\
    isProfileComplete u' = isProfileComplete u || currentRoleComplete u'.
Proof.
  intros Hu.
  unfold RoleController.completeOnboarding, UserModel.findById, UserModel.save,
    RoleController.completeBuyerOnboarding,
    RoleController.completeSellerOnboarding.
  pose proof (find_some_key u_id _ _ _ Hu) as Hid.
  branch; run_ctl; [discriminate|].
  rewrite Hu.
  branch; run_ctl; [discriminate|].
  destruct (role_s =? "buyer") eqn:Eb; run_ctl.
  - apply String.eqb_eq in Eb; subst role_s. simpl.
    destruct (has_elements (od_propertyTypes data)
              || has_elements (od_locations data)); run_ctl;
      (save_cases; [discriminate|]);
      intros H; inversion H; subst; clear H;
      match goal with
      | |- context [if currentRoleComplete ?x then _ else _] =>
          destruct (latch_step x) as (L1 & L2 & L3)
      end;
      (eexists; split;
       [eapply lookup_user_save; [exact Hu | | simpl; reflexivity]; exact L1|]);
      split; [exact L2 | exact L3 | exact L2 | exact L3].
  - destruct (role_s =? "seller") eqn:Es; run_ctl.
    + apply String.eqb_eq in Es; subst role_s. simpl.
      destruct (od_hasProperty data); run_ctl;
        (save_cases; [discriminate|]);
        intros H; inversion H; subst; clear H;
        match goal with
        | |- context [if currentRoleComplete ?x then _ else _] =>
            destruct (latch_step x) as (L1 & L2 & L3)
        end;
        (eexists; split;
         [eapply lookup_user_save; [exact Hu | | simpl; reflexivity]; exact L1|]);
        split; [exact L2 | exact L3 | exact L2 | exact L3].
    + discriminate.
Qed.

(** C1 (as amended).  After a successful [completeOnboarding] the flag
    [isProfileComplete] is its previous value or-ed with
    [onboardingCompleted[primaryRole]]: it is raised when the onboarding
    of the primary role is complete and is never lowered.  A successful
    [selectRole] changes the primary role and leaves [isProfileComplete]
    and [onboardingCompleted] exactly as they were. *)
Theorem isProfileComplete_is_a_latch
  (ru : option User) (id : ObjectId) (st : Store) (u : User)
  (Hu : lookup_user id st = Some u) :
  (forall role_s data resp st',
      RoleController.completeOnboarding ru id role_s data st = (inr resp, st') ->
      exists u',
        lookup_user id st' = Some u' /\
        isProfileComplete u' = isProfileComplete u || currentRoleComplete u')
  /\
  (forall role_s resp st',
      RoleController.selectRole ru id role_s st = (inr resp, st') ->
      exists u',
        lookup_user id st' = Some u' /\
        Role_of_string role_s = Some (role u') /\
        onboardingCompleted u' = onboardingCompleted u /\
        isProfileComplete u' = isProfileComplete u).
Proof.
  split.
  - intros role_s data resp st' H.
    destruct (completeOnboarding_latches _ _ _ _ _ _ _ _ Hu H) as (u' & H1 & _ & H3).
    exists u'. split; assumption.
  - intros role_s resp st' H.
    destruct (selectRole_keeps_isProfileComplete _ _ _ _ _ _ _ Hu H)
      as (u' & r & H1 & H2 & H3 & H4 & H5).
    exists u'. subst r. repeat split; assumption.
Qed.

(** The latch at work on account 1 after its buyer onboarding. *)
Lemma isProfileComplete_is_a_latch_witness :
  exists u',
    lookup_user 1 after_switch_to_seller = Some u' /\
    Role_of_string "seller" = Some (role u') /\
    isProfileComplete u' = true.
Proof.
  edestruct (isProfileComplete_is_a_latch (Some (new_user 1)) 1
               after_buyer_onboarding) as [_ H].
  - vm_compute. reflexivity.
  - destruct (H "seller"
                {| res_status := 200; res_message := "Role updated to seller" |}
                after_switch_to_seller) as (u' & H1 & H2 & _ & H4).
    + vm_compute. reflexivity.
    + exists u'. repeat split; assumption.
Defined.

(** C1, counterexample.  Account 1 completes buyer onboarding as a buyer,
    which raises [isProfileComplete]; it then selects the seller role,
    whose onboarding it has not done.  After that [selectRole] call the
    flag is still [true] while [onboardingCompleted[primaryRole]] is
    [false]. *)
Lemma selectRole_breaks_derivation :
  exists u',
    fst (RoleController.selectRole (Some (new_user 1)) 1 "seller"
           after_buyer_onboarding)
    = inr {| res_status := 200; res_message := "Role updated to seller" |} /\
    lookup_user 1 after_switch_to_seller = Some u' /\
    role u' = seller /\
    isProfileComplete u' = true /\
    currentRoleComplete u' = false /\
    isProfileComplete u' <> currentRoleComplete u'.
Proof.
  eexists. split; [vm_compute; reflexivity|].
  split; [vm_compute; reflexivity|].
  repeat split; try reflexivity. vm_compute. discriminate.
Qed.

(** ** Agent applications *)

Lemma find_none_filter_nil {A} (f : A -> bool) (l : list A) :
  find f l = None -> filter f l = [].
Proof.
  induction l as [|x l IH]; simpl; [reflexivity|].
  destruct (f x); [discriminate | exact IH].
Qed.

Lemma find_app_none {A} (f : A -> bool) (l l' : list A) :
  find f l = None -> find f (l ++ l') = find f l'.
Proof.
  induction l as [|x l IH]; simpl; [reflexivity|].
  destruct (f x); [discriminate | exact IH].
Qed.

(** What a successful [apply] did: the account existed and was not
    verified, it had no Agent Profile, and the store now holds one new
    inactive profile and the account marked pending. *)
Lemma apply_success ru body st resp st' :
  AgentController.apply (Some ru) body st = (inr resp, st') ->
  exists user a,
    lookup_user (u_id ru) st = Some user /\
    agentVerificationStatus user <> vs_verified /\
    lookup_agent_by_userId (u_id ru) st = None /\
    a_id a = next_id st /\ userId a = u_id ru /\ a_isActive a = false /\
    st' = {| users :=
               replace_by u_id
                 (set_agentId (Some (next_id st))
                    (set_agentVerificationStatus vs_pending user))
                 (users st);
             agentsC := agentsC st ++ [a];
             offices := offices st;
             properties := properties st;
             next_id := S (next_id st) |}.
Proof.
  unfold AgentController.apply, AgentController.apply_reads,
    AgentController.apply_writes, UserModel.findById, UserModel.save,
    AgentModel.findOne_userId, AgentModel.create.
  run_ctl.
  destruct (lookup_user (u_id ru) st) as [user|] eqn:Hu; [|discriminate].
  destruct (VerificationStatus_eqb (agentVerificationStatus user) vs_verified)
    eqn:Ev; [discriminate|].
  destruct (lookup_agent_by_userId (u_id ru) st) eqn:Ha; [discriminate|].
  unfold missing_required, AgentSchema, AgentModel.present, path,
    present_string, present_ref.
  destruct (ab_bio body) as [b|], (ab_office body) as [o|],
    (ab_licenseNumber body) as [l|]; simpl;
    try destruct (b =? ""); try destruct (l =? ""); simpl;
    try discriminate.
  save_cases; [discriminate|].
  intros H. inversion H; subst; clear H.
  do 2 eexists. repeat apply conj.
  7: (simpl; reflexivity).
  all: try reflexivity.
  intros E; rewrite E in Ev; discriminate.
Qed.


(** An account that already owns an Agent Profile is turned away,
    whatever its verification status short of verified. *)
Lemma apply_existing ru body st user a :
  lookup_user (u_id ru) st = Some user ->
  agentVerificationStatus user <> vs_verified ->
  lookup_agent_by_userId (u_id ru) st = Some a ->
  AgentController.apply (Some ru) body st = (inl already_submitted, st).
Proof.
  intros Hu Hv Ha.
  unfold AgentController.apply, AgentController.apply_reads,
    UserModel.findById, AgentModel.findOne_userId.
  run_ctl. rewrite Hu.
  destruct (agentVerificationStatus user); try congruence;
    simpl; rewrite Ha; reflexivity.
Qed.

(** The document [apply] saves is valid exactly when the loaded account
    is: [apply] assigns a status and a reference, no saved search. *)
Lemma validate_applicant (user : User) (a : ObjectId) :
  UserModel.validate []
    (set_agentId (Some a) (set_agentVerificationStatus vs_pending user))
  = UserModel.validate [] user.
Proof. reflexivity. Qed.

(** An account without an Agent Profile that sends a complete form gets
    one.  When the account document passes validation the account
    becomes pending; when it does not, [apply] answers with the
    validation error after the profile was created, and the profile
    stays. *)
Lemma apply_fresh ru body st user :
  lookup_user (u_id ru) st = Some user ->
  agentVerificationStatus user <> vs_verified ->
  lookup_agent_by_userId (u_id ru) st = None ->
  present_string (ab_bio body) = true ->
  present_string (ab_licenseNumber body) = true ->
  ab_office body <> None ->
  (UserModel.validate [] user = [] /\
   exists st' u',
     AgentController.apply (Some ru) body st
     = (inr {| res_status := 201;
               res_message := "Agent application submitted successfully" |}, st')
     /\ lookup_user (u_id ru) st' = Some u'
     /\ agentVerificationStatus u' = vs_pending
     /\ agentId u' = Some (next_id st)
     /\ List.length (profiles_of (u_id ru) st') = 1)
  \/
  (UserModel.validate [] user <> [] /\
   exists st',
     AgentController.apply (Some ru) body st
     = (inl (EValidation (UserModel.validate [] user)), st')
     /\ users st' = users st
     /\ List.length (profiles_of (u_id ru) st') = 1).
Proof.
  intros Hu Hv Ha Hb Hl Ho.
  unfold AgentController.apply, AgentController.apply_reads,
    AgentController.apply_writes, UserModel.findById, UserModel.save,
    AgentModel.findOne_userId, AgentModel.create.
  run_ctl. rewrite Hu.
  destruct (VerificationStatus_eqb (agentVerificationStatus user) vs_verified)
    eqn:Ev.
  { destruct (agentVerificationStatus user); simpl in Ev; congruence. }
  rewrite Ha.
  unfold missing_required, AgentSchema, AgentModel.present, path, present_ref.
  simpl. rewrite Hb, Hl.
  destruct (ab_office body) as [o|]; [|congruence].
  destruct (ab_bio body) as [b|]; [|discriminate].
  destruct (ab_licenseNumber body) as [l|]; [|discriminate].
  simpl.
  assert (Hp : forall a us,
             List.length
               (filter (fun x => Nat.eqb (userId x) (u_id ru))
                  (agentsC st ++
                   [{| a_id := a; userId := u_id ru; bio := b;
                       specialties := orDefault (ab_specialties body) [];
                       languages := orDefault (ab_languages body) [];
                       office := o; licenseNumber := l;
                       licenseState := ab_licenseState body;
                       yearsExperience := orDefault (ab_yearsExperience body) 0%Z;
                       a_isActive := us |}])) = 1).
  { intros a us. rewrite filter_app.
    unfold lookup_agent_by_userId in Ha.
    rewrite (find_none_filter_nil _ _ Ha). simpl.
    now rewrite Nat.eqb_refl. }
  match goal with
  | |- context [UserModel.save_assigned ?a ?u ?s] =>
      destruct (UserModel_save_cases a u s) as [(ps & Hps & Hne & Hs) | (Hval & Hs)];
      rewrite Hs; clear Hs; simpl
  end.
  - right. rewrite validate_applicant in Hps. subst ps.
    split; [exact Hne|]. eexists. split; [reflexivity|].
    split; [reflexivity|]. unfold profiles_of. simpl. apply Hp.
  - left. rewrite validate_applicant in Hval. split; [exact Hval|].
    do 2 eexists. split; [reflexivity|].
    split; [eapply lookup_user_save; [exact Hu | | simpl; reflexivity];
            simpl; eapply find_some_key; exact Hu|].
    split; [reflexivity|]. split; [reflexivity|].
    unfold profiles_of. simpl. apply Hp.
Qed.




(** After a successful [apply] the account owns exactly the profile that
    was created. *)
Lemma apply_success_profiles ru body st resp st' :
  AgentController.apply (Some ru) body st = (inr resp, st') ->
  (exists a u',
      lookup_agent_by_userId (u_id ru) st' = Some a /\
      profiles_of (u_id ru) st' = [a] /\
      lookup_user (u_id ru) st' = Some u' /\
      agentVerificationStatus u' = vs_pending).
Proof.
  intros H.
  destruct (apply_success _ _ _ _ _ H)
    as (user & a & Hu & Hv & Ha & Hid & Huid & Hact & Hst).
  exists a. eexists. subst st'.
  unfold lookup_agent_by_userId, profiles_of in *. simpl.
  rewrite (find_app_none _ _ [a] Ha), filter_app,
    (find_none_filter_nil _ _ Ha).
  simpl. rewrite Huid, Nat.eqb_refl. repeat split.
  - eapply lookup_user_save; [exact Hu | | simpl; reflexivity].
    simpl. eapply find_some_key; exact Hu.
  - reflexivity.
Qed.

(** In the store a successful [apply] leaves, the account owns exactly
    one Agent Profile and an [apply] by the same account is refused with
    status 400, "Agent application already submitted", and changes
    nothing: the lookup [apply] makes before it creates finds the
    profile.  Nothing else stands in the way of a second profile:
    [AgentSchema] declares neither [unique] on [userId] nor a unique
    index over it. *)
Lemma apply_twice
  (ru : User) (body : ApplicationBody) (st st1 : Store) (resp : Response)
  (H : AgentController.apply (Some ru) body st = (inr resp, st1)) :
  List.length (profiles_of (u_id ru) st1) = 1 /\
  (forall ru2 body2,
      u_id ru2 = u_id ru ->
      AgentController.apply (Some ru2) body2 st1 = (inl already_submitted, st1)
      /\ errorHandler already_submitted = 400) /\
  declares_unique AgentSchema AgentSchema_indexes "userId" = false.
Proof.
  destruct (apply_success_profiles _ _ _ _ _ H) as (a & u' & Ha & Hp & Hu' & Hs).
  split; [now rewrite Hp|]. split; [|reflexivity].
  intros ru2 body2 E. split; [|reflexivity].
  eapply apply_existing; rewrite ?E; eauto. congruence.
Qed.

(** The Agent Profile store has no uniqueness constraint on the owning
    account: account 1 already owns profile 100, and a second
    [Agent.create] for account 1 is accepted, leaving the account with
    two profiles. *)
Lemma duplicate_profile_accepted_by_store :
  declares_unique AgentSchema AgentSchema_indexes "userId" = false /\
  List.length (profiles_of 1 after_apply) = 1 /\
  exists a st',
    AgentModel.create
      {| ai_userId := Some 1; ai_bio := Some "A second profile";
         ai_licenseNumber := Some "LIC-0002"; ai_licenseState := None;
         ai_yearsExperience := None; ai_specialties := None;
         ai_languages := None; ai_office := Some 50;
         ai_isActive := Some false |}
      after_apply = (inr a, st') /\
    List.length (profiles_of 1 st') = 2.
Proof.
  split; [reflexivity|]. split; [reflexivity|].
  do 2 eexists. split; vm_compute; reflexivity.
Qed.

(** C5, the code at the failing input.  Account 1, which owns no Agent
    Profile, sends two applications at the same time.  Each request
    finishes its reads, the account and the lookup of an existing
    profile, before either writes: both pass the duplicate check.  Each
    then creates a profile and saves the account, and each answers 201.
    [AgentSchema] declares no unique index on [userId], so the store
    accepts the second profile, and account 1 ends with two Agent
    Profiles without either call having failed.  Sent one after the
    other, the second application is refused. *)
Theorem concurrent_applies_leave_two_profiles :
  declares_unique AgentSchema AgentSchema_indexes "userId" = false /\
  List.length (profiles_of 1 before_apply) = 0 /\
  AgentController.apply_reads 1 before_apply
  = (inr (new_user 1), before_apply) /\
  (exists st1 st2,
      AgentController.apply_writes 1 (new_user 1) valid_application before_apply
      = (inr {| res_status := 201;
                res_message := "Agent application submitted successfully" |},
         st1) /\
      AgentController.apply_writes 1 (new_user 1) second_application st1
      = (inr {| res_status := 201;
                res_message := "Agent application submitted successfully" |},
         st2) /\
      List.length (profiles_of 1 st2) = 2) /\
  AgentController.apply (Some (new_user 1)) second_application after_apply
  = (inl already_submitted, after_apply).
Proof.
  split; [reflexivity|]. split; [reflexivity|].
  split; [vm_compute; reflexivity|]. split; [|vm_compute; reflexivity].
  do 2 eexists. split; [vm_compute; reflexivity|].
  split; [vm_compute; reflexivity|]. reflexivity.
Qed.

(** ** Verification *)

Lemma find_map_update {A} (key : A -> ObjectId) (f : A -> A) (l : list A)
  (k k' : ObjectId) :
  (forall x, key (f x) = key x) ->
  find (fun y => Nat.eqb (key y) k)
       (map (fun x => if Nat.eqb (key x) k' then f x else x) l)
  = option_map (fun x => if Nat.eqb (key x) k' then f x else x)
               (find (fun y => Nat.eqb (key y) k) l).
Proof.
  intros Hf. induction l as [|x l IH]; simpl; [reflexivity|].
  assert (E : key (if Nat.eqb (key x) k' then f x else x) = key x)
    by (destruct (Nat.eqb (key x) k'); [apply Hf | reflexivity]).
  rewrite E. destruct (Nat.eqb (key x) k); [reflexivity | exact IH].
Qed.

Lemma strict_eq_str_neq (v : JsValue) (lit : string) :
  v <> JStr lit -> strict_eq_str v lit = false.
Proof.
  destruct v as [| | b | n | s | r]; simpl; try reflexivity.
  intros H. apply String.eqb_neq. congruence.
Qed.

Lemma In_replace_by {A} (key : A -> ObjectId) (d x : A) (l : list A) :
  In x l -> key x = key d -> In d (replace_by key d l).
Proof.
  intros Hin Hk. unfold replace_by. apply in_map_iff.
  exists x. split; [|exact Hin].
  rewrite Hk, Nat.eqb_refl. reflexivity.
Qed.

(** What [verifyAgent] does for an admin on an existing Agent Profile
    whose owning account exists: both the profile's [isActive] and the
    account's status follow the single test [action === "approve"], and
    the profile stays in the store. *)
Lemma verifyAgent_effect
  (ru : User) (id : ObjectId) (action : JsValue) (st : Store)
  (a : Agent) (owner : User) :
  role ru = admin ->
  lookup_agent id st = Some a ->
  lookup_user (userId a) st = Some owner ->
  let approve := strict_eq_str action "approve" in
  let verdict := if approve then vs_verified else vs_rejected in
  exists st',
    AgentController.verifyAgent (Some ru) id action st
    = (inr {| res_status := 200;
              res_message := "Agent " ++ status_message verdict |}, st') /\
    lookup_agent id st' = Some (set_a_isActive approve a) /\
    lookup_user (userId a) st'
    = Some (set_agentVerificationStatus verdict owner) /\
    lookup_agent_by_userId (userId a) st' <> None.
Proof.
  intros Hadmin Ha Ho approve verdict.
  unfold AgentController.verifyAgent, AgentModel.findById, AgentModel.save,
    UserModel.findById, UserModel.findByIdAndUpdate_status.
  simpl. rewrite Hadmin. run_ctl. rewrite Ha, Ho.
  eexists. split; [reflexivity|].
  pose proof (find_some_key a_id _ _ _ Ha) as Eid.
  split; [|split].
  - unfold lookup_agent in *. simpl.
    eapply find_replace_by; [exact Ha | exact Eid].
  - unfold lookup_user in *. simpl.
    rewrite find_map_update by reflexivity.
    rewrite Ho. simpl.
    pose proof (find_some_key u_id _ _ _ Ho) as E.
    rewrite E, Nat.eqb_refl. reflexivity.
  - unfold lookup_agent_by_userId, lookup_agent in *. simpl.
    intros Hnone.
    apply find_some in Ha. destruct Ha as [Hin _].
    pose proof (In_replace_by a_id (set_a_isActive approve a) a _ Hin eq_refl)
      as Hin'.
    pose proof (find_none _ _ Hnone _ Hin') as Hx. simpl in Hx.
    rewrite Nat.eqb_refl in Hx. discriminate.
Qed.

(** C10.  Called by an admin on an existing Agent Profile whose owning
    account exists, [verifyAgent] with any action other than the exact
    string "approve" answers with success ("Agent rejected"), never with
    an error, sets the profile's [isActive] to [false] and the owning
    account's [agentVerificationStatus] to [rejected]. *)
Theorem verifyAgent_rejects_unless_approve
  (ru : User) (id : ObjectId) (action : JsValue) (st : Store)
  (a : Agent) (owner : User)
  (Hadmin : role ru = admin)
  (Ha : lookup_agent id st = Some a)
  (Ho : lookup_user (userId a) st = Some owner)
  (Haction : action <> JStr "approve") :
  exists st',
    AgentController.verifyAgent (Some ru) id action st
    = (inr {| res_status := 200; res_message := "Agent rejected" |}, st') /\
    option_map a_isActive (lookup_agent id st') = Some false /\
    option_map agentVerificationStatus (lookup_user (userId a) st')
    = Some vs_rejected.
Proof.
  destruct (verifyAgent_effect ru id action st a owner Hadmin Ha Ho)
    as (st' & H1 & H2 & H3 & _).
  rewrite (strict_eq_str_neq _ _ Haction) in *.
  exists st'. rewrite H2, H3. repeat split. exact H1.
Qed.

(** For an admin and an existing profile no action value makes
    [verifyAgent] fail. *)
Lemma verifyAgent_total
  (ru : User) (id : ObjectId) (action : JsValue) (st : Store) (a : Agent) :
  role ru = admin ->
  lookup_agent id st = Some a ->
  exists resp st',
    AgentController.verifyAgent (Some ru) id action st = (inr resp, st').
Proof.
  intros Hadmin Ha.
  unfold AgentController.verifyAgent, AgentModel.findById, AgentModel.save,
    UserModel.findById, UserModel.findByIdAndUpdate_status.
  simpl. rewrite Hadmin. run_ctl. rewrite Ha.
  destruct (lookup_user (userId a) st); do 2 eexists; reflexivity.
Qed.

(** Once [verifyAgent] has rejected an application, every [apply] of the
    owning account is turned away: the account is no longer verified and
    its profile is still there. *)
Lemma rejection_blocks_reapplication
  (ru : User) (id : ObjectId) (action : JsValue) (st : Store)
  (a : Agent) (owner applicant : User) (body : ApplicationBody) :
  role ru = admin ->
  lookup_agent id st = Some a ->
  lookup_user (userId a) st = Some owner ->
  action <> JStr "approve" ->
  u_id applicant = userId a ->
  let st' := snd (AgentController.verifyAgent (Some ru) id action st) in
  AgentController.apply (Some applicant) body st' = (inl already_submitted, st').
Proof.
  intros Hadmin Ha Ho Haction Hid st'.
  destruct (verifyAgent_effect ru id action st a owner Hadmin Ha Ho)
    as (st1 & H1 & _ & H3 & H4).
  subst st'. rewrite H1. simpl.
  rewrite (strict_eq_str_neq _ _ Haction) in H3.
  destruct (lookup_agent_by_userId (userId a) st1) as [a1|] eqn:E;
    [|congruence].
  eapply apply_existing; rewrite ?Hid; eauto.
  simpl. discriminate.
Qed.

(** The admin mistypes the action on the application of account 1. *)
Lemma verifyAgent_rejects_unless_approve_witness :
  exists st',
    AgentController.verifyAgent (Some admin_user) 100 (JStr "aprove")
      after_apply
    = (inr {| res_status := 200; res_message := "Agent rejected" |}, st') /\
    option_map a_isActive (lookup_agent 100 st') = Some false /\
    option_map agentVerificationStatus (lookup_user 1 st') = Some vs_rejected.
Proof.
  edestruct (verifyAgent_rejects_unless_approve admin_user 100 (JStr "aprove")
               after_apply) as (st' & H1 & H2 & H3).
  - reflexivity.
  - vm_compute. reflexivity.
  - vm_compute. reflexivity.
  - discriminate.
  - exists st'. repeat split; assumption.
Defined.

(** With "approve" the profile is activated and the account verified. *)
Lemma verifyAgent_approve :
  option_map a_isActive (lookup_agent 100 after_approve) = Some true /\
  option_map agentVerificationStatus (lookup_user 1 after_approve)
  = Some vs_verified.
Proof. vm_compute. split; reflexivity. Qed.

(** ** Property authorization *)

(** What [canManageProperty] decides for a manager: the office reference
    it reads from the actor is never set, so the test succeeds exactly
    for the listings that have no office. *)
Lemma canManageProperty_manager (u : User) (p : Property) :
  role u = manager ->
  PropertyController.canManageProperty u p
  = negb (present_ref (listingOffice p)).
Proof.
  intros H. unfold PropertyController.canManageProperty, user_office.
  rewrite H. simpl. destruct (listingOffice p); reflexivity.
Qed.

(** What [canManageProperty] decides for an agent: the listing agent is
    compared with the account's own [_id]. *)
Lemma canManageProperty_agent (u : User) (p : Property) :
  role u = agent ->
  PropertyController.canManageProperty u p
  = opt_id_eqb (Some (u_id u)) (listingAgent p).
Proof.
  intros H. unfold PropertyController.canManageProperty.
  rewrite H. simpl. destruct (listingAgent p) as [x|]; simpl; [|reflexivity].
  destruct (Nat.eqb (u_id u) x); reflexivity.
Qed.

Lemma canManageProperty_admin (u : User) (p : Property) :
  role u = admin -> PropertyController.canManageProperty u p = true.
Proof.
  intros H. unfold PropertyController.canManageProperty. now rewrite H.
Qed.

(** C3, the code at the failing input.  The manager of office 50 is
    refused the update of a listing of office 50 (status 403), and is
    allowed to manage a listing that belongs to no office. *)
Theorem manager_own_office_denied :
  role manager_o50 = manager /\
  officeId manager_o50 = Some 50 /\
  listingOffice listing_o50 = Some 50 /\
  PropertyController.canManageProperty manager_o50 listing_o50 = false /\
  PropertyController.updateProperty (Some manager_o50) 7 rename_o50
    property_store = (inl access_denied, property_store) /\
  PropertyController.canManageProperty manager_o50 unassigned_listing = true.
Proof. repeat split. Qed.

(** C4, the code at the failing input.  Account 3 owns Agent Profile 30.
    It is refused the soft delete of the listing whose [listingAgent] is
    30, and is allowed to manage the listing whose [listingAgent] is 3,
    its own account id. *)
Theorem agent_own_listing_denied :
  role agent_user = agent /\
  agentId agent_user = Some 30 /\
  listingAgent listing_o50 = Some 30 /\
  PropertyController.canManageProperty agent_user listing_o50 = false /\
  PropertyController.deleteProperty (Some agent_user) 7 property_store
  = (inl access_denied, property_store) /\
  listingAgent listing_by_account <> agentId agent_user /\
  PropertyController.canManageProperty agent_user listing_by_account = true.
Proof. repeat split. discriminate. Qed.

(** ** Property assignment *)

(** Any actor other than an admin or a manager is refused. *)
Lemma assignProperty_forbidden (user : User) (id : ObjectId)
  (body : AssignBody) (st : Store) :
  role user <> admin -> role user <> manager ->
  PropertyController.assignProperty (Some user) id body st
  = (inl access_denied, st).
Proof.
  intros H1 H2. unfold PropertyController.assignProperty.
  destruct (role user); try congruence; reflexivity.
Qed.

(** When the request names the office, the listing gets the agent, that
    office and the status active. *)
Lemma assignProperty_with_office (user : User) (id : ObjectId)
  (a o : ObjectId) (st : Store) (property : Property) :
  role user = admin \/ role user = manager ->
  lookup_property id st = Some property ->
  present_string (title property) = true ->
  exists st' p',
    PropertyController.assignProperty (Some user) id
      {| asg_agentId := Some a; asg_officeId := Some o |} st
    = (inr {| res_status := 200;
              res_message := "Property assigned and activated successfully" |},
       st') /\
    lookup_property id st' = Some p' /\
    listingAgent p' = Some a /\ listingOffice p' = Some o /\
    status p' = ps_active.
Proof.
  intros Hr Hp Ht.
  unfold PropertyController.assignProperty, PropertyModel.findById,
    PropertyModel.save.
  assert (E : includes ["admin"; "manager"] (Role_to_string (role user)) = true)
    by (destruct Hr as [-> | ->]; reflexivity).
  rewrite E. run_ctl. rewrite Hp.
  unfold missing_required, PropertySchema, PropertyModel.present, path.
  simpl. rewrite Ht. simpl.
  do 2 eexists. split; [reflexivity|]. split.
  - unfold lookup_property in *. simpl.
    eapply find_replace_by; [exact Hp|].
    simpl. eapply find_some_key; exact Hp.
  - repeat split.
Qed.

(** When the request names no office, the listing office is read from
    the actor's [office], which a user document does not have: the
    document fails validation on [listingOffice] and nothing is stored. *)
Lemma assignProperty_without_office (user : User) (id : ObjectId)
  (body : AssignBody) (st : Store) (property : Property) :
  role user = admin \/ role user = manager ->
  lookup_property id st = Some property ->
  asg_officeId body = None ->
  exists paths,
    PropertyController.assignProperty (Some user) id body st
    = (inl (EValidation paths), st) /\
    In "listingOffice" paths.
Proof.
  intros Hr Hp Ho.
  unfold PropertyController.assignProperty, PropertyModel.findById,
    PropertyModel.save, user_office.
  assert (E : includes ["admin"; "manager"] (Role_to_string (role user)) = true)
    by (destruct Hr as [-> | ->]; reflexivity).
  rewrite E. run_ctl. rewrite Hp, Ho.
  unfold missing_required, PropertySchema, PropertyModel.present, path.
  simpl.
  destruct (present_string (title property)),
    (present_ref (asg_agentId body)); simpl;
    eexists; (split; [reflexivity|]); simpl; auto.
Qed.

(** C8, the code at the failing input.  The manager of office 50 assigns
    listing 8 to Agent Profile 30 and names no office.  The listing does
    not get office 50: the call fails on [listingOffice] with status 400
    and the listing stays as it was.  The same request with the office
    named succeeds. *)
Theorem assignProperty_default_office_fails :
  role manager_o50 = manager /\
  officeId manager_o50 = Some 50 /\
  PropertyController.assignProperty (Some manager_o50) 8 assign_without_office
    property_store
  = (inl (EValidation ["listingOffice"]), property_store) /\
  errorHandler (EValidation ["listingOffice"]) = 400 /\
  lookup_property 8 property_store = Some listing_o60 /\
  fst (PropertyController.assignProperty (Some manager_o50) 8 assign_to_o50
         property_store)
  = inr {| res_status := 200;
           res_message := "Property assigned and activated successfully" |}.
Proof. repeat split. Qed.

(** ** Saved searches *)

(** [addSavedSearch] keeps an account within ten saved searches. *)
Lemma addSavedSearch_bounded (ru : option User) (id : ObjectId)
  (body : SavedSearchBody) (st st' : Store) (r : Error + Response) (u u' : User) :
  lookup_user id st = Some u ->
  List.length (savedSearches u) <= 10 ->
  UserController.addSavedSearch ru id body st = (r, st') ->
  lookup_user id st' = Some u' ->
  List.length (savedSearches u') <= 10.
Proof.
  intros Hu Hlen.
  unfold UserController.addSavedSearch, UserModel.findById, UserModel.save.
  pose proof (find_some_key u_id _ _ _ Hu) as Hid.
  branch; run_ctl.
  { intros H; inversion H; subst; clear H. intros H'. congruence. }
  destruct (present_string (sb_name body)), (sb_name body) as [nm|],
    (sb_filters body) as [fl|]; run_ctl;
    try (intros H; inversion H; subst; clear H; intros H'; congruence).
  rewrite Hu.
  change (match List.length (savedSearches u) with
          | S (S (S (S (S (S (S (S (S (S _))))))))) => true
          | _ => false
          end) with (Nat.leb 10 (List.length (savedSearches u))).
  destruct (Nat.leb 10 (List.length (savedSearches u))) eqn:E.
  - intros H; inversion H; subst; clear H. intros H'. congruence.
  - save_cases.
    + intros H; inversion H; subst; clear H. intros H'.
      unfold lookup_user in *. simpl in H'. congruence.
    + intros H; inversion H; subst; clear H. intros H'.
      erewrite lookup_user_save in H';
        [| exact Hu | | simpl; reflexivity]; [|reflexivity].
      inversion H'; subst; clear H'. simpl.
      rewrite length_app. simpl. apply Nat.leb_gt in E. lia.
Qed.

(** Buyer onboarding that names a property type or a location adds one
    saved search, however many the account already holds. *)
Lemma buyer_onboarding_pushes (ru : option User) (id : ObjectId)
  (data : OnboardingData) (st : Store) (u : User) :
  lookup_user id st = Some u ->
  option_map u_id ru = Some id ->
  has_elements (od_propertyTypes data) || has_elements (od_locations data)
  = true ->
  UserModel.validate [] u = [] ->
  exists resp st' u',
    RoleController.completeOnboarding ru id "buyer" data st = (inr resp, st')
    /\ lookup_user id st' = Some u'
    /\ List.length (savedSearches u') = S (List.length (savedSearches u)).
Proof.
  intros Hu Hru Hel Hval.
  unfold RoleController.completeOnboarding, UserModel.findById, UserModel.save,
    RoleController.completeBuyerOnboarding.
  pose proof (find_some_key u_id _ _ _ Hu) as Hid.
  rewrite Hru. simpl. rewrite Nat.eqb_refl. run_ctl. rewrite Hu, Hel.
  simpl.
  match goal with
  | |- context [if currentRoleComplete ?x then _ else _] =>
      assert (Hs : savedSearches
                     (if currentRoleComplete x
                      then set_isProfileComplete true x else x)
                   = savedSearches x)
        by (destruct (currentRoleComplete x); reflexivity);
      destruct (latch_step x) as (L1 & _ & _)
  end.
  match goal with
  | |- context [UserModel.save_assigned ?a ?d ?s] =>
      destruct (UserModel_save_cases a d s) as [(ps & Hps & Hne & _) | (_ & Hsv)]
  end.
  { exfalso. apply Hne. rewrite <- Hps.
    unfold UserModel.validate in *. rewrite Hs. simpl.
    rewrite invalid_searches_app, Hval. simpl.
    rewrite app_nil_r.
    apply invalid_search_ok. unfold search_ok, Filters_empty. simpl.
    destruct (od_propertyTypes data) as [[|x l]|],
      (od_locations data) as [[|y l']|]; simpl in Hel;
      try discriminate;
      destruct (od_priceRange data), (od_bedrooms data), (od_bathrooms data);
      reflexivity. }
  rewrite Hsv. simpl.
  do 3 eexists. split; [reflexivity|]. split.
  - eapply lookup_user_save; [exact Hu | | simpl; reflexivity].
    simpl in L1. rewrite L1. exact Hid.
  - rewrite Hs. simpl. rewrite length_app. simpl. lia.
Qed.

(** C9, the code at the failing input.  Account 4 holds ten saved
    searches: [addSavedSearch] refuses an eleventh, but buyer onboarding
    with a property type pushes its default search without looking at
    the count, and the account ends with eleven. *)
Theorem onboarding_exceeds_saved_search_limit :
  option_map (fun u => List.length (savedSearches u))
             (lookup_user 4 collector_store) = Some 10 /\
  UserController.addSavedSearch (Some collector) 4 one_more_search
    collector_store = (inl limit_reached, collector_store) /\
  fst (RoleController.completeOnboarding (Some collector) 4 "buyer"
         house_hunter collector_store)
  = inr {| res_status := 200;
           res_message := "buyer onboarding completed successfully" |} /\
  option_map (fun u => List.length (savedSearches u))
             (lookup_user 4
                (snd (RoleController.completeOnboarding (Some collector) 4
                        "buyer" house_hunter collector_store)))
  = Some 11.
Proof. vm_compute. repeat split. Qed.

(** ** Office creation *)

(** [Office.create] either rejects the document and leaves the store as
    it is, or appends one office with a fresh [_id]. *)
Lemma Office_create_cases (d : OfficeData) (st : Store) :
  (exists e, OfficeModel.create d st = (inl e, st))
  \/
  (exists m fid,
      d_manager d = Some m /\ d_franchiseId d = Some fid /\
      missing_required OfficeSchema (OfficeModel.present d) = [] /\
      OfficeModel.create d st
      = (inr (created_office d m fid st),
         {| users := users st; agentsC := agentsC st;
            offices := offices st ++ [created_office d m fid st];
            properties := properties st; next_id := S (next_id st) |})).
Proof.
  unfold OfficeModel.create.
  destruct (missing_required OfficeSchema (OfficeModel.present d)) eqn:Hm.
  - destruct (d_manager d) as [m|]; [|left; eexists; reflexivity].
    destruct (d_franchiseId d) as [fid|]; [|left; eexists; reflexivity].
    unfold bind, gets.
    destruct (declares_unique OfficeSchema OfficeSchema_indexes "franchiseId"
              && existsb (fun o => franchiseId o =? toUpperCase fid)
                         (offices st)).
    + left; eexists; reflexivity.
    + right. exists m, fid. repeat split.
  - left; eexists; reflexivity.
Qed.

Local Opaque OfficeModel.create.
Local Arguments includes : simpl never.

(** The two ways [createOffice] can end.  In the second the office data
    passed the schema's required-path validation. *)
Lemma createOffice_cases
  (allowed : list string) (f : Faults) (ru : option User) (body : OfficeBody)
  (st : Store) :
  let r := OfficeController.createOffice_with allowed f ru body st in
  (is_error (fst r) = true /\ snd r = st)
  \/
  (exists ma mu fid,
      ob_manager body = Some (a_id ma) /\
      ob_franchiseId body = Some fid /\
      lookup_agent (a_id ma) st = Some ma /\
      lookup_user_by_agentId (a_id ma) st = Some mu /\
      missing_required OfficeSchema
        (OfficeModel.present
           (OfficeController.build_officeData allowed (ob_fields body) ma fid))
      = [] /\
      let o := created_office
                 (OfficeController.build_officeData allowed (ob_fields body)
                                                    ma fid)
                 (a_id ma) fid st in
      fst r = inr office_created /\
      snd r = {| users :=
                   replace_by u_id
                     (set_officeId (Some (o_id o))
                        (if Role_eqb (role mu) manager
                         then mu else set_role manager mu))
                     (users st);
                 agentsC :=
                   replace_by a_id (set_a_office (o_id o) ma) (agentsC st);
                 offices := offices st ++ [o];
                 properties := properties st;
                 next_id := S (next_id st) |}).
Proof.
  unfold OfficeController.createOffice_with, OfficeController.createOffice_try,
    startTransaction, abortTransaction.
  simpl.
  destruct ru as [ru|]; [|left; split; reflexivity].
  destruct (ob_manager body) as [mid|] eqn:Hmid; [|left; split; reflexivity].
  destruct (ob_franchiseId body) as [fid|] eqn:Hfid; simpl;
    [|left; split; reflexivity].
  destruct (negb (fid =? "")) eqn:Hne; [|left; split; reflexivity].
  unfold bind, in_session, no_session, UserModel.findById,
    UserModel.findOne_agentId, AgentModel.findById,
    OfficeModel.findOne_franchiseId, OfficeModel.findById, gets.
  simpl.
  destruct (lookup_user (u_id ru) st) as [cu|]; [|left; split; reflexivity].
  simpl.
  destruct (negb (includes ["admin"; "manager"] (Role_to_string (role cu))));
    [left; split; reflexivity|].
  simpl.
  destruct (find (fun o => franchiseId o =? toUpperCase fid) (offices st));
    [left; split; reflexivity|].
  simpl.
  destruct (lookup_agent mid st) as [ma|] eqn:Hma; [|left; split; reflexivity].
  simpl.
  destruct (lookup_user_by_agentId (a_id ma) st) as [mu|] eqn:Hmu;
    [|left; split; reflexivity].
  simpl.
  destruct (negb (VerificationStatus_eqb (agentVerificationStatus mu)
                                           vs_verified));
    [left; split; reflexivity|].
  simpl.
  unfold may_fail.
  destruct (office_create_refused f); [left; split; reflexivity|].
  destruct (Office_create_cases
              (OfficeController.build_officeData allowed (ob_fields body) ma fid)
              st) as [[e He] | (m & fid' & Hm & Hf & Hmiss & Hc)].
  { rewrite He. left; split; reflexivity. }
  simpl in Hm, Hf. inversion Hm; inversion Hf; subst m fid'.
  rewrite Hc. simpl.
  destruct (agent_save_refused f); [left; split; reflexivity|].
  unfold AgentModel.save, UserModel.save, modify. simpl.
  destruct (user_save_refused f); [left; split; reflexivity|].
  save_cases; [left; split; reflexivity|].
  simpl. unfold commitTransaction.
  destruct (commit_refused f); [left; split; reflexivity|].
  simpl. right. exists ma, mu, fid.
  pose proof (find_some_key a_id _ _ _ Hma) as Eid.
  repeat split; try assumption; try congruence.
Qed.

(** C6.  [createOffice] is all-or-nothing, whichever keys the body may
    carry into the office and whichever of its writes the store refuses.
    Either it answers with an error and the store is exactly what it was
    (no office, no office link on the Agent Profile, no role or
    [officeId] on the account), or it answers 201 and the store holds all
    three writes: the new office, the manager's Agent Profile linked to
    it, and the manager's account with role manager and the office's
    id. *)
Theorem createOffice_atomic
  (allowed : list string) (f : Faults) (ru : option User) (body : OfficeBody)
  (st : Store) :
  let r := OfficeController.createOffice_with allowed f ru body st in
  (is_error (fst r) = true /\ snd r = st)
  \/
  (exists ma mu fid,
      ob_manager body = Some (a_id ma) /\
      ob_franchiseId body = Some fid /\
      lookup_agent (a_id ma) st = Some ma /\
      lookup_user_by_agentId (a_id ma) st = Some mu /\
      let o := created_office
                 (OfficeController.build_officeData allowed (ob_fields body)
                                                    ma fid)
                 (a_id ma) fid st in
      fst r = inr office_created /\
      snd r = {| users :=
                   replace_by u_id
                     (set_officeId (Some (o_id o))
                        (if Role_eqb (role mu) manager
                         then mu else set_role manager mu))
                     (users st);
                 agentsC :=
                   replace_by a_id (set_a_office (o_id o) ma) (agentsC st);
                 offices := offices st ++ [o];
                 properties := properties st;
                 next_id := S (next_id st) |}).
Proof.
  intros r. destruct (createOffice_cases allowed f ru body st)
    as [H | (ma & mu & fid & H1 & H2 & H3 & H4 & _ & H5)].
  - left. exact H.
  - right. exists ma, mu, fid. repeat split; try assumption; apply H5.
Qed.

Local Transparent OfficeModel.create.

(** Both ends of the alternative occur.  With the established date among
    the allowed keys, Scenario B stores the office, the link and the
    promotion together; when the last of the three writes is refused,
    the two before it are rolled back. *)
Lemma createOffice_all :
  OfficeController.createOffice_with allowedFields_with_date no_faults
    (Some admin_user) scenario_B office_store
  = (inr office_created, office_store_after).
Proof. vm_compute. reflexivity. Qed.

Lemma createOffice_nothing :
  OfficeController.createOffice_with allowedFields_with_date refuse_user_save
    (Some admin_user) scenario_B office_store
  = (inl EWrite, office_store).
Proof. vm_compute. reflexivity. Qed.

Lemma lookup_key_assign_other (k k' : string) (v : JsValue)
  (obj : list (string * JsValue)) :
  k <> k' -> lookup_key k (assign_key k' v obj) = lookup_key k obj.
Proof.
  intros Hne. induction obj as [|[k0 w] obj IH]; simpl.
  - apply String.eqb_neq in Hne. rewrite String.eqb_sym in Hne.
    now rewrite Hne.
  - destruct (k0 =? k') eqn:E1; simpl.
    + apply String.eqb_eq in E1. subst k0.
      assert (E2 : (k' =? k) = false)
        by (apply String.eqb_neq; congruence).
      now rewrite E2.
    + destruct (k0 =? k); [reflexivity | exact IH].
Qed.

(** A key outside the allowed list never reaches the office data. *)
Lemma copy_allowed_drops (k : string) (allowed : list string)
  (body : list (string * JsValue)) :
  ~ In k allowed ->
  lookup_key k (OfficeController.copy_allowed allowed body) = JUndefined.
Proof.
  unfold OfficeController.copy_allowed.
  assert (G : forall acc,
             ~ In k allowed ->
             lookup_key k
               (fold_left
                  (fun data key =>
                     match lookup_key key body with
                     | JUndefined => data
                     | v => assign_key key v data
                     end) allowed acc)
             = lookup_key k acc).
  { induction allowed as [|a allowed IH]; intros acc Hn; simpl; [reflexivity|].
    rewrite IH by (intros Hi; apply Hn; now right).
    assert (Hka : k <> a) by (intros E; apply Hn; now left).
    destruct (lookup_key a body); try reflexivity;
      now apply lookup_key_assign_other. }
  intros Hn. now rewrite G.
Qed.

(** The office data of [createOffice] never has the established date. *)
Lemma officeData_misses_establishedDate
  (fields : list (string * JsValue)) (ma : Agent) (fid : string) :
  In "establishedDate"
     (missing_required OfficeSchema
        (OfficeModel.present
           (OfficeController.build_officeData OfficeController.allowedFields
                                              fields ma fid))).
Proof.
  unfold missing_required. apply in_map_iff.
  exists (path "establishedDate" true false). split; [reflexivity|].
  apply filter_In. split.
  - unfold OfficeSchema. do 13 right. left. reflexivity.
  - assert (E : lookup_key "establishedDate"
                  (OfficeController.copy_allowed OfficeController.allowedFields
                                                 fields) = JUndefined).
    { apply copy_allowed_drops. unfold OfficeController.allowedFields.
      intros H. repeat (destruct H as [H|H]; [discriminate|]). exact H. }
    unfold OfficeModel.present, OfficeController.build_officeData.
    cbn [d_paths sp_name sp_required path String.eqb Ascii.eqb Bool.eqb].
    rewrite E. reflexivity.
Qed.

(** [createOffice], with the allowed fields the source lists, answers
    every request with an error and stores nothing. *)
Lemma createOffice_never_succeeds
  (f : Faults) (ru : option User) (body : OfficeBody) (st : Store) :
  is_error (fst (OfficeController.createOffice f ru body st)) = true /\
  snd (OfficeController.createOffice f ru body st) = st.
Proof.
  unfold OfficeController.createOffice.
  destruct (createOffice_cases OfficeController.allowedFields f ru body st)
    as [H | (ma & mu & fid & _ & _ & _ & _ & Hmiss & _)]; [exact H|].
  pose proof (officeData_misses_establishedDate (ob_fields body) ma fid) as Hin.
  rewrite Hmiss in Hin. destruct Hin.
Qed.

(** C7, the code at the failing input.  The admin creates office
    "RMX-100" with the verified Agent Profile 30 as manager and a
    complete body.  [createOffice] copies only its allowed keys, which
    leave out the established date the schema requires: the call fails
    validation with status 400 and the store is unchanged, so no office
    with [agents = [30]] exists and account 3 is still an agent without
    an office. *)
Theorem createOffice_scenario_B_rejected :
  option_map agentVerificationStatus (lookup_user_by_agentId 30 office_store)
  = Some vs_verified /\
  lookup_key "establishedDate" (ob_fields scenario_B) = JStr "2020-01-01" /\
  OfficeController.createOffice no_faults (Some admin_user) scenario_B
    office_store
  = (inl (EValidation ["establishedDate"]), office_store) /\
  errorHandler (EValidation ["establishedDate"]) = 400 /\
  option_map role (lookup_user 3 office_store) = Some agent /\
  option_map officeId (lookup_user 3 office_store) = Some None.
Proof. vm_compute. repeat split. Qed.

(** * Further properties of the modelled code *)

(** ** Selecting a role *)

(** The two ways [selectRole] can end: an error that leaves the store as
    it was, or the actor's own document saved with one of the three
    selectable roles. *)
Lemma selectRole_cases (ru : option User) (id : ObjectId) (role_s : string)
  (st st' : Store) (out : Error + Response) :
  RoleController.selectRole ru id role_s st = (out, st') ->
  (is_error out = true /\ st' = st)
  \/
  (exists u r,
      opt_id_eqb (option_map u_id ru) (Some id) = true /\
      lookup_user id st = Some u /\
      (r = buyer \/ r = seller \/ r = agent) /\
      Role_to_string r = role_s /\
      out = inr {| res_status := 200;
                   res_message := "Role updated to " ++ role_s |} /\
      st' = set_users
              (replace_by u_id
                 (if Role_eqb r agent
                  then set_agentVerificationStatus vs_none (set_role r u)
                  else set_role r u)
                 (users st)) st).
Proof.
  unfold RoleController.selectRole, UserModel.findById, UserModel.save.
  destruct (opt_id_eqb (option_map u_id ru) (Some id)) eqn:Eauth; simpl;
    [|intros H; inversion H; subst; left; split; reflexivity].
  unfold includes. simpl.
  destruct (role_s =? "buyer") eqn:E1; simpl;
    [|destruct (role_s =? "seller") eqn:E2; simpl;
      [|destruct (role_s =? "agent") eqn:E3; simpl;
        [|intros H; inversion H; subst; left; split; reflexivity]]];
    match goal with
    | E : (role_s =? _) = true |- _ => apply String.eqb_eq in E; subst role_s
    end;
    run_ctl;
    (destruct (lookup_user id st) as [u|] eqn:Hu;
     [|intros H; inversion H; subst; left; split; reflexivity]);
    simpl;
    (save_cases; [intros H; inversion H; subst; left; split; reflexivity|]);
    intros H; inversion H; subst; clear H; right.
  - exists u, buyer. repeat split; auto.
  - exists u, seller. repeat split; auto.
  - exists u, agent. repeat split; auto.
Qed.

(** X1.  [selectRole] is all-or-nothing and can only yield a buyer, a
    seller or an agent: when it fails the store is unchanged, and when it
    succeeds the account's role is the requested one, which is never
    manager or admin. *)
Theorem selectRole_never_promotes
  (ru : option User) (id : ObjectId) (role_s : string) (st st' : Store)
  (out : Error + Response)
  (H : RoleController.selectRole ru id role_s st = (out, st')) :
  (is_error out = true -> st' = st) /\
  (is_error out = false ->
   exists u',
     lookup_user id st' = Some u' /\
     Role_to_string (role u') = role_s /\
     role u' <> manager /\ role u' <> admin).
Proof.
  destruct (selectRole_cases ru id role_s st st' out H)
    as [[He Hs] | (u & r & Hauth & Hu & Hr & Hstr & Hout & Hst)].
  - split; [intros _; exact Hs | rewrite He; discriminate].
  - subst out. split; [discriminate|]. intros _.
    pose proof (find_some_key u_id _ _ _ Hu) as Hid.
    eexists. split.
    + eapply lookup_user_save; [exact Hu | | subst st'; simpl; reflexivity].
      destruct (Role_eqb r agent); exact Hid.
    + destruct Hr as [-> | [-> | ->]]; simpl; repeat split;
        try exact Hstr; discriminate.
Qed.

(** X2.  [selectRole] with "agent" puts the account's verification status
    back to [none], whatever it was, and keeps its [agentId]; with
    "buyer" or "seller" it keeps the status. *)
Theorem selectRole_agent_resets_verification
  (ru : option User) (id : ObjectId) (role_s : string) (st st' : Store)
  (resp : Response) (u : User)
  (Hu : lookup_user id st = Some u)
  (H : RoleController.selectRole ru id role_s st = (inr resp, st')) :
  exists u',
    lookup_user id st' = Some u' /\
    agentId u' = agentId u /\
    agentVerificationStatus u'
    = (if role_s =? "agent" then vs_none else agentVerificationStatus u).
Proof.
  destruct (selectRole_cases ru id role_s st st' _ H)
    as [[He _] | (u0 & r & Hauth & Hu0 & Hr & Hstr & Hout & Hst)];
    [discriminate|].
  rewrite Hu in Hu0. inversion Hu0; subst u0; clear Hu0.
  pose proof (find_some_key u_id _ _ _ Hu) as Hid.
  eexists. split.
  - eapply lookup_user_save; [exact Hu | | subst st'; simpl; reflexivity].
    destruct (Role_eqb r agent); exact Hid.
  - subst role_s. destruct Hr as [-> | [-> | ->]]; simpl; split; reflexivity.
Qed.

Lemma selectRole_never_promotes_witness :
  exists u',
    lookup_user 1 after_switch_to_seller = Some u' /\
    Role_to_string (role u') = "seller" /\
    role u' <> manager /\ role u' <> admin.
Proof.
  edestruct (selectRole_never_promotes (Some (new_user 1)) 1 "seller"
               after_buyer_onboarding after_switch_to_seller) as [_ H].
  - vm_compute. reflexivity.
  - apply H. reflexivity.
Defined.

(** Account 1, verified with Agent Profile 100, selects "agent". *)
Lemma selectRole_agent_resets_verification_witness :
  option_map agentVerificationStatus (lookup_user 1 after_approve)
  = Some vs_verified /\
  exists u',
    lookup_user 1 after_reselect_agent = Some u' /\
    agentId u' = Some 100 /\
    agentVerificationStatus u' = vs_none.
Proof.
  split; [vm_compute; reflexivity|].
  edestruct (selectRole_agent_resets_verification (Some (new_user 1)) 1 "agent"
               after_approve after_reselect_agent) as (u' & H1 & H2 & H3).
  - vm_compute. reflexivity.
  - vm_compute. reflexivity.
  - exists u'. repeat split; assumption.
Defined.

(** ** Completing onboarding *)

(** The two ways [completeOnboarding] can end: an error that leaves every
    document as it was, or the actor's own document saved with the flag
    of the onboarded role raised. *)
Lemma completeOnboarding_cases (ru : option User) (id : ObjectId)
  (role_s : string) (data : OnboardingData) (st st' : Store)
  (out : Error + Response) :
  RoleController.completeOnboarding ru id role_s data st = (out, st') ->
  (is_error out = true /\ same_documents st st')
  \/
  (exists u r unew,
      opt_id_eqb (option_map u_id ru) (Some id) = true /\
      lookup_user id st = Some u /\
      (r = buyer \/ r = seller) /\ Role_to_string r = role_s /\
      is_error out = false /\
      users st' = replace_by u_id unew (users st) /\
      agentsC st' = agentsC st /\
      u_id unew = u_id u /\ role unew = role u /\
      agentVerificationStatus unew = agentVerificationStatus u /\
      agentId unew = agentId u /\ officeId unew = officeId u /\
      onboardingCompleted unew
      = Some (oc_set_true
                (orDefault (onboardingCompleted u)
                   {| oc_buyer := false; oc_seller := false;
                      oc_agent := false |}) r) /\
      isProfileComplete unew
      = isProfileComplete u || currentRoleComplete unew).
Proof.
  unfold RoleController.completeOnboarding, UserModel.findById, UserModel.save,
    RoleController.completeBuyerOnboarding,
    RoleController.completeSellerOnboarding.
  destruct (opt_id_eqb (option_map u_id ru) (Some id)) eqn:Eauth; simpl;
    [|intros H; inversion H; subst; left; split; [reflexivity | repeat split]].
  run_ctl.
  destruct (lookup_user id st) as [u|] eqn:Hu;
    [|intros H; inversion H; subst; left; split; [reflexivity | repeat split]].
  unfold includes, RoleController.validRoles. simpl.
  destruct (role_s =? "buyer") eqn:E1; simpl.
  - apply String.eqb_eq in E1. subst role_s. simpl.
    destruct (has_elements (od_propertyTypes data)
              || has_elements (od_locations data)); simpl;
      match goal with
      | |- context [if currentRoleComplete ?x then _ else _] =>
          pose proof (latch_step x) as L; simpl in L;
          destruct L as (L1 & L2 & L3);
          assert (F : forall y,
                     y = (if currentRoleComplete x
                          then set_isProfileComplete true x else x) ->
                     agentVerificationStatus y = agentVerificationStatus u /\
                     agentId y = agentId u /\ officeId y = officeId u /\
                     onboardingCompleted y = onboardingCompleted x)
            by (intros y ->; destruct (currentRoleComplete x);
                repeat split)
      end;
      (save_cases;
       [intros H; inversion H; subst; left; split; [reflexivity | repeat split]|]);
      intros H; inversion H; subst; clear H; right;
      exists u, buyer; eexists;
      destruct (F _ eq_refl) as (F1 & F2 & F3 & F4);
      repeat split; try reflexivity; try eassumption;
      try (rewrite F4; simpl; destruct (onboardingCompleted u); reflexivity);
      auto.
  - destruct (role_s =? "seller") eqn:E2; simpl;
      [|intros H; inversion H; subst; left; split; [reflexivity | repeat split]].
    apply String.eqb_eq in E2. subst role_s. simpl.
    destruct (od_hasProperty data); simpl;
      match goal with
      | |- context [if currentRoleComplete ?x then _ else _] =>
          pose proof (latch_step x) as L; simpl in L;
          destruct L as (L1 & L2 & L3);
          assert (F : forall y,
                     y = (if currentRoleComplete x
                          then set_isProfileComplete true x else x) ->
                     agentVerificationStatus y = agentVerificationStatus u /\
                     agentId y = agentId u /\ officeId y = officeId u /\
                     onboardingCompleted y = onboardingCompleted x)
            by (intros y ->; destruct (currentRoleComplete x);
                repeat split)
      end;
      (save_cases;
       [intros H; inversion H; subst; left; split; [reflexivity | repeat split]|]);
      intros H; inversion H; subst; clear H; right;
      exists u, seller; eexists;
      destruct (F _ eq_refl) as (F1 & F2 & F3 & F4);
      repeat split; try reflexivity; try eassumption;
      try (rewrite F4; simpl; destruct (onboardingCompleted u); reflexivity);
      auto.
Qed.

(** X3.  A successful [completeOnboarding] raises the flag of the
    onboarded role and never lowers a flag that was raised; it changes
    neither the account's role nor its verification status. *)
Theorem completeOnboarding_only_raises_flags
  (ru : option User) (id : ObjectId) (role_s : string)
  (data : OnboardingData) (st st' : Store) (resp : Response) (u : User)
  (Hu : lookup_user id st = Some u)
  (H : RoleController.completeOnboarding ru id role_s data st = (inr resp, st')) :
  exists u' oc',
    lookup_user id st' = Some u' /\
    onboardingCompleted u' = Some oc' /\
    role u' = role u /\
    agentVerificationStatus u' = agentVerificationStatus u /\
    (exists r, Role_of_string role_s = Some r /\ oc_get oc' r = Some true) /\
    (forall oc r,
        onboardingCompleted u = Some oc ->
        oc_get oc r = Some true -> oc_get oc' r = Some true).
Proof.
  destruct (completeOnboarding_cases ru id role_s data st st' _ H)
    as [[He _] | (u0 & r & unew & _ & Hu0 & Hr & Hstr & _ & Hus & _ & Hid & Hrole
                  & Hvs & _ & _ & Hoc & _)];
    [discriminate|].
  rewrite Hu in Hu0. inversion Hu0; subst u0; clear Hu0.
  exists unew. eexists. split; [|split; [exact Hoc|]].
  - eapply lookup_user_save; [exact Hu | | exact Hus].
    rewrite Hid. eapply find_some_key; exact Hu.
  - split; [exact Hrole|]. split; [exact Hvs|]. split.
    + exists r. subst role_s.
      destruct Hr as [-> | ->]; split; reflexivity.
    + intros oc r0 Hoc0 Hg. rewrite Hoc0. simpl.
      destruct Hr as [-> | ->]; destruct r0; simpl in *; congruence.
Qed.

(** Account 1, now a seller with buyer onboarding done, completes seller
    onboarding: both flags are raised. *)
Lemma completeOnboarding_only_raises_flags_witness :
  exists u' oc',
    lookup_user 1
      (snd (RoleController.completeOnboarding (Some (new_user 1)) 1 "seller"
              home_owner after_switch_to_seller)) = Some u' /\
    onboardingCompleted u' = Some oc' /\
    oc_get oc' seller = Some true /\ oc_get oc' buyer = Some true.
Proof.
  edestruct (completeOnboarding_only_raises_flags (Some (new_user 1)) 1 "seller"
               home_owner after_switch_to_seller)
    as (u' & oc' & H1 & H2 & _ & _ & (r & Hr & Hr') & Hmono).
  - vm_compute. reflexivity.
  - vm_compute. reflexivity.
  - exists u', oc'. split; [exact H1|]. split; [exact H2|]. split.
    + vm_compute in Hr. inversion Hr; subst r. exact Hr'.
    + eapply Hmono; vm_compute; reflexivity.
Defined.

(** ** Onboarding status *)

(** X4.  When an account whose profile is marked complete selects another
    role, [getOnboardingStatus] keeps reporting the profile as complete
    and lists no next step, whether or not the onboarding of the new role
    was done. *)
Theorem status_after_role_switch
  (ru : option User) (id : ObjectId) (role_s : string) (st st' : Store)
  (resp : Response) (u : User)
  (Hu : lookup_user id st = Some u)
  (Hc : isProfileComplete u = true)
  (H : RoleController.selectRole ru id role_s st = (inr resp, st')) :
  exists s,
    RoleStatus.getOnboardingStatus ru id st' = (inr s, st') /\
    isComplete s = true /\ nextSteps s = [] /\
    Role_to_string (os_role s) = role_s /\
    completedOnboarding s = onboardingCompleted u.
Proof.
  destruct (selectRole_cases ru id role_s st st' _ H)
    as [[He _] | (u0 & r & Hauth & Hu0 & Hr & Hstr & _ & Hst)];
    [discriminate|].
  rewrite Hu in Hu0. inversion Hu0; subst u0; clear Hu0.
  pose proof (find_some_key u_id _ _ _ Hu) as Hid.
  unfold RoleStatus.getOnboardingStatus, UserModel.findById.
  rewrite Hauth. simpl. run_ctl.
  erewrite lookup_user_save;
    [| exact Hu | | subst st'; simpl; reflexivity];
    [|destruct (Role_eqb r agent); exact Hid].
  eexists. split; [reflexivity|].
  unfold RoleStatus.getNextSteps.
  destruct Hr as [-> | [-> | ->]]; simpl; rewrite Hc; simpl;
    repeat split; exact Hstr.
Qed.

(** Account 1 switched to seller before doing seller onboarding. *)
Lemma status_after_role_switch_witness :
  exists s,
    RoleStatus.getOnboardingStatus (Some (new_user 1)) 1 after_switch_to_seller
    = (inr s, after_switch_to_seller) /\
    isComplete s = true /\ nextSteps s = [] /\
    option_map oc_seller (completedOnboarding s) = Some false.
Proof.
  edestruct (status_after_role_switch (Some (new_user 1)) 1 "seller"
               after_buyer_onboarding after_switch_to_seller)
    as (s & H1 & H2 & H3 & _ & H5).
  - vm_compute. reflexivity.
  - reflexivity.
  - vm_compute. reflexivity.
  - exists s. repeat split; try assumption. rewrite H5. reflexivity.
Defined.

(** ** Saved searches: update, delete and their composition *)

Lemma length_update_first {A} (p : A -> bool) (f : A -> A) (l : list A) :
  List.length (update_first p f l) = List.length l.
Proof.
  induction l as [|x l IH]; simpl; [reflexivity|].
  destruct (p x); simpl; [reflexivity | now rewrite IH].
Qed.

Lemma map_update_first {A B} (g : A -> B) (p : A -> bool) (f : A -> A)
  (l : list A) :
  (forall x, g (f x) = g x) ->
  map g (update_first p f l) = map g l.
Proof.
  intros Hf. induction l as [|x l IH]; simpl; [reflexivity|].
  destruct (p x); simpl; [now rewrite Hf | now rewrite IH].
Qed.

Lemma In_update_first_other {A} (p : A -> bool) (f : A -> A) (l : list A)
  (x : A) :
  In x l -> p x = false -> In x (update_first p f l).
Proof.
  induction l as [|y l IH]; simpl; [tauto|].
  intros [-> | Hin] Hp.
  - rewrite Hp. now left.
  - destruct (p y); [now right | right; now apply IH].
Qed.

Lemma ss_id_patch (body : SavedSearchBody) (s : SavedSearch) :
  ss_id (SavedSearches.patch body s) = ss_id s.
Proof.
  unfold SavedSearches.patch.
  destruct (present_string (sb_name body)), (sb_filters body),
    (sb_emailAlerts body), (sb_frequency body); reflexivity.
Qed.

Lemma filter_shrinks {A} (p : A -> bool) (l : list A) :
  existsb p l = true ->
  List.length (filter (fun x => negb (p x)) l) < List.length l.
Proof.
  induction l as [|x l IH]; simpl; [discriminate|].
  destruct (p x) eqn:E; simpl.
  - intros _. pose proof (filter_length_le (fun x => negb (p x)) l). lia.
  - intros H. apply IH in H. lia.
Qed.

(** The two ways [deleteSavedSearch] can end. *)
Lemma deleteSavedSearch_cases (ru : option User) (id searchId : ObjectId)
  (st st' : Store) (out : Error + Response) :
  UserController.deleteSavedSearch ru id searchId st = (out, st') ->
  (is_error out = true /\ st' = st)
  \/
  (exists u,
      lookup_user id st = Some u /\
      existsb (fun s => Nat.eqb (ss_id s) searchId) (savedSearches u) = true /\
      is_error out = false /\
      st' = set_users
              (replace_by u_id
                 (set_savedSearches
                    (filter (fun s => negb (Nat.eqb (ss_id s) searchId))
                            (savedSearches u)) u)
                 (users st)) st).
Proof.
  unfold UserController.deleteSavedSearch, UserModel.findById, UserModel.save.
  destruct (opt_id_eqb (option_map u_id ru) (Some id)); simpl;
    [|intros H; inversion H; subst; left; split; reflexivity].
  run_ctl.
  destruct (lookup_user id st) as [u|] eqn:Hu;
    [|intros H; inversion H; subst; left; split; reflexivity].
  destruct (existsb (fun s => Nat.eqb (ss_id s) searchId) (savedSearches u))
    eqn:Ex; simpl;
    [|intros H; inversion H; subst; left; split; reflexivity].
  save_cases; intros H; inversion H; subst; clear H;
    [left; split; reflexivity | right; exists u; repeat split; assumption].
Qed.

(** The two ways [updateSavedSearch] can end. *)
Lemma updateSavedSearch_cases (ru : option User) (id searchId : ObjectId)
  (body : SavedSearchBody) (st st' : Store) (out : Error + Response) :
  SavedSearches.updateSavedSearch ru id searchId body st = (out, st') ->
  (is_error out = true /\ st' = st)
  \/
  (exists u,
      lookup_user id st = Some u /\
      existsb (fun s => Nat.eqb (ss_id s) searchId) (savedSearches u) = true /\
      is_error out = false /\
      st' = set_users
              (replace_by u_id
                 (set_savedSearches
                    (update_first (fun s => Nat.eqb (ss_id s) searchId)
                                  (SavedSearches.patch body) (savedSearches u))
                    u)
                 (users st)) st).
Proof.
  unfold SavedSearches.updateSavedSearch, UserModel.findById, UserModel.save.
  destruct (opt_id_eqb (option_map u_id ru) (Some id)); simpl;
    [|intros H; inversion H; subst; left; split; reflexivity].
  run_ctl.
  destruct (lookup_user id st) as [u|] eqn:Hu;
    [|intros H; inversion H; subst; left; split; reflexivity].
  destruct (existsb (fun s => Nat.eqb (ss_id s) searchId) (savedSearches u))
    eqn:Ex; simpl;
    [|intros H; inversion H; subst; left; split; reflexivity].
  save_cases; intros H; inversion H; subst; clear H;
    [left; split; reflexivity | right; exists u; repeat split; assumption].
Qed.

(** X5.  The three operations on saved searches keep an account within
    ten: [addSavedSearch], [updateSavedSearch] and [deleteSavedSearch],
    whatever they answer, leave at most ten saved searches on an account
    that had at most ten. *)
Theorem saved_search_operations_keep_cap
  (ru : option User) (id : ObjectId) (st : Store) (u : User)
  (Hu : lookup_user id st = Some u)
  (Hlen : List.length (savedSearches u) <= 10) :
  (forall body out st' u',
      UserController.addSavedSearch ru id body st = (out, st') ->
      lookup_user id st' = Some u' ->
      List.length (savedSearches u') <= 10) /\
  (forall searchId body out st' u',
      SavedSearches.updateSavedSearch ru id searchId body st = (out, st') ->
      lookup_user id st' = Some u' ->
      List.length (savedSearches u') <= 10) /\
  (forall searchId out st' u',
      UserController.deleteSavedSearch ru id searchId st = (out, st') ->
      lookup_user id st' = Some u' ->
      List.length (savedSearches u') <= 10).
Proof.
  pose proof (find_some_key u_id _ _ _ Hu) as Hid.
  repeat split.
  - intros body out st' u' H H'.
    exact (addSavedSearch_bounded ru id body st st' out u u' Hu Hlen H H').
  - intros searchId body out st' u' H H'.
    destruct (updateSavedSearch_cases _ _ _ _ _ _ _ H)
      as [[_ ->] | (u0 & Hu0 & _ & _ & ->)]; [congruence|].
    rewrite Hu in Hu0. inversion Hu0; subst u0; clear Hu0.
    erewrite lookup_user_save in H';
      [| exact Hu | | simpl; reflexivity]; [|exact Hid].
    inversion H'; subst u'. simpl. now rewrite length_update_first.
  - intros searchId out st' u' H H'.
    destruct (deleteSavedSearch_cases _ _ _ _ _ _ H)
      as [[_ ->] | (u0 & Hu0 & _ & _ & ->)]; [congruence|].
    rewrite Hu in Hu0. inversion Hu0; subst u0; clear Hu0.
    erewrite lookup_user_save in H';
      [| exact Hu | | simpl; reflexivity]; [|exact Hid].
    inversion H'; subst u'. simpl.
    pose proof (filter_length_le
                  (fun s => negb (Nat.eqb (ss_id s) searchId))
                  (savedSearches u)).
    lia.
Qed.

(** Account 4 holds ten searches; it deletes the search 203. *)
Lemma saved_search_operations_keep_cap_witness :
  exists u',
    lookup_user 4
      (snd (UserController.deleteSavedSearch (Some collector) 4 203
              collector_store)) = Some u' /\
    List.length (savedSearches u') <= 10.
Proof.
  edestruct (saved_search_operations_keep_cap (Some collector) 4 collector_store)
    as (_ & _ & H3).
  - vm_compute. reflexivity.
  - simpl. lia.
  - eexists. split; [vm_compute; reflexivity|].
    eapply (H3 203); [apply surjective_pairing | vm_compute; reflexivity].
Defined.

Lemma filter_all {A} (p : A -> bool) (l : list A) :
  (forall x, In x l -> p x = true) -> filter p l = l.
Proof.
  induction l as [|x l IH]; simpl; [reflexivity|].
  intros H. rewrite (H x (or_introl eq_refl)).
  f_equal. apply IH. intros y Hy. apply H. now right.
Qed.

(** What a successful [addSavedSearch] did. *)
Lemma addSavedSearch_success (ru : option User) (id : ObjectId)
  (body : SavedSearchBody) (st st' : Store) (resp : Response) :
  UserController.addSavedSearch ru id body st = (inr resp, st') ->
  exists u s,
    opt_id_eqb (option_map u_id ru) (Some id) = true /\
    lookup_user id st = Some u /\
    List.length (savedSearches u) < 10 /\
    ss_id s = next_id st /\
    sb_name body = Some (ss_name s) /\
    sb_filters body = Some (ss_filters s) /\
    st' = {| users :=
               replace_by u_id
                 (set_savedSearches (savedSearches u ++ [s]) u) (users st);
             agentsC := agentsC st; offices := offices st;
             properties := properties st; next_id := S (next_id st) |} /\
    UserModel.validate [List.length (savedSearches u)]
      (set_savedSearches (savedSearches u ++ [s]) u) = [].
Proof.
  unfold UserController.addSavedSearch, UserModel.findById, UserModel.save.
  destruct (opt_id_eqb (option_map u_id ru) (Some id)); simpl;
    [|discriminate].
  destruct (present_string (sb_name body)), (sb_name body) as [nm|],
    (sb_filters body) as [fl|]; run_ctl; try discriminate.
  destruct (lookup_user id st) as [u|] eqn:Hu; [|discriminate].
  change (match List.length (savedSearches u) with
          | S (S (S (S (S (S (S (S (S (S _))))))))) => true
          | _ => false
          end) with (Nat.leb 10 (List.length (savedSearches u))).
  destruct (Nat.leb 10 (List.length (savedSearches u))) eqn:E; [discriminate|].
  save_cases; [discriminate|].
  intros H. inversion H; subst; clear H.
  exists u. eexists. repeat split; try reflexivity.
  - apply Nat.leb_gt in E. exact E.
  - exact Hvalid.
Qed.

(** X6.  Adding a saved search and then deleting it by the id it was
    given restores the account's saved searches: the delete succeeds and
    the list is what it was before the add. *)
Theorem add_then_delete_saved_search
  (ru : option User) (id : ObjectId) (body : SavedSearchBody)
  (st st1 : Store) (resp : Response) (u : User)
  (Hu : lookup_user id st = Some u)
  (Hfresh : forall s, In s (savedSearches u) -> ss_id s <> next_id st)
  (H : UserController.addSavedSearch ru id body st = (inr resp, st1)) :
  exists st2 u2,
    UserController.deleteSavedSearch ru id (next_id st) st1
    = (inr {| res_status := 200;
              res_message := "Saved search deleted successfully" |}, st2) /\
    lookup_user id st2 = Some u2 /\
    savedSearches u2 = savedSearches u.
Proof.
  destruct (addSavedSearch_success _ _ _ _ _ _ H)
    as (u0 & s & Hauth & Hu0 & _ & Hs & _ & _ & Hst & Hval).
  rewrite Hu in Hu0. inversion Hu0; subst u0; clear Hu0.
  pose proof (find_some_key u_id _ _ _ Hu) as Hid.
  assert (Hu1 : lookup_user id st1
                = Some (set_savedSearches (savedSearches u ++ [s]) u)).
  { eapply lookup_user_save; [exact Hu | exact Hid | subst st1; reflexivity]. }
  assert (Hf : filter (fun x => negb (Nat.eqb (ss_id x) (next_id st)))
                 (savedSearches u ++ [s]) = savedSearches u).
  { rewrite filter_app. simpl. rewrite Hs, Nat.eqb_refl. simpl.
    rewrite app_nil_r. apply filter_all.
    intros x Hx. apply negb_true_iff. apply Nat.eqb_neq. now apply Hfresh. }
  (* the searches the account held were valid as stored, or the add
     would have failed *)
  assert (Hold : invalid_searches [] 0 (savedSearches u) = []).
  { unfold UserModel.validate in Hval. simpl in Hval.
    rewrite invalid_searches_app in Hval.
    apply app_eq_nil in Hval. destruct Hval as [Hval _].
    rewrite invalid_searches_untouched in Hval; [exact Hval|].
    intros a [<- | []]. right. simpl. lia. }
  unfold UserController.deleteSavedSearch, UserModel.findById, UserModel.save.
  rewrite Hauth. simpl. run_ctl. rewrite Hu1. simpl.
  rewrite existsb_app. simpl. rewrite Hs, Nat.eqb_refl, orb_true_r. simpl.
  rewrite Hf.
  match goal with
  | |- context [UserModel.save_assigned ?a ?d ?s0] =>
      destruct (UserModel_save_cases a d s0)
        as [(ps & Hps & Hne & _) | (_ & Hsv)]
  end.
  { exfalso. apply Hne. rewrite <- Hps. exact Hold. }
  rewrite Hsv. simpl.
  do 2 eexists. split; [reflexivity|]. split.
  - eapply lookup_user_save; [exact Hu1 | | simpl; reflexivity]; exact Hid.
  - reflexivity.
Qed.

(** Account 1 adds a search after its onboarding and deletes it again. *)
Lemma add_then_delete_saved_search_witness :
  exists st2 u2,
    UserController.deleteSavedSearch (Some (new_user 1)) 1
      (next_id after_buyer_onboarding)
      (snd (UserController.addSavedSearch (Some (new_user 1)) 1 one_more_search
              after_buyer_onboarding))
    = (inr {| res_status := 200;
              res_message := "Saved search deleted successfully" |}, st2) /\
    lookup_user 1 st2 = Some u2 /\
    List.length (savedSearches u2) = 1.
Proof.
  edestruct (add_then_delete_saved_search (Some (new_user 1)) 1 one_more_search
               after_buyer_onboarding
               (snd (UserController.addSavedSearch (Some (new_user 1)) 1
                       one_more_search after_buyer_onboarding)))
    as (st2 & u2 & H1 & H2 & H3).
  - vm_compute. reflexivity.
  - simpl. intros s [<- | []]. discriminate.
  - apply injective_projections; [vm_compute; reflexivity | reflexivity].
  - exists st2, u2. split; [exact H1|]. split; [exact H2|].
    rewrite H3. reflexivity.
Defined.

(** X7.  A successful [deleteSavedSearch] removes the searches with the
    given id and nothing else: the others stay, and the account holds
    fewer searches than before. *)
Theorem deleteSavedSearch_removes_exactly
  (ru : option User) (id searchId : ObjectId) (st st' : Store)
  (resp : Response) (u : User)
  (Hu : lookup_user id st = Some u)
  (H : UserController.deleteSavedSearch ru id searchId st = (inr resp, st')) :
  exists u',
    lookup_user id st' = Some u' /\
    (forall s, In s (savedSearches u')
               <-> In s (savedSearches u) /\ ss_id s <> searchId) /\
    List.length (savedSearches u') < List.length (savedSearches u).
Proof.
  destruct (deleteSavedSearch_cases _ _ _ _ _ _ H)
    as [[He _] | (u0 & Hu0 & Hex & _ & ->)]; [discriminate|].
  rewrite Hu in Hu0. inversion Hu0; subst u0; clear Hu0.
  pose proof (find_some_key u_id _ _ _ Hu) as Hid.
  eexists. split; [|split].
  - eapply lookup_user_save; [exact Hu | | simpl; reflexivity]; exact Hid.
  - intros s. simpl. rewrite filter_In, negb_true_iff, Nat.eqb_neq. tauto.
  - simpl. apply (filter_shrinks (fun s => Nat.eqb (ss_id s) searchId)).
    exact Hex.
Qed.

Lemma deleteSavedSearch_removes_exactly_witness :
  exists u',
    lookup_user 4
      (snd (UserController.deleteSavedSearch (Some collector) 4 203
              collector_store)) = Some u' /\
    List.length (savedSearches u') < 10.
Proof.
  edestruct (deleteSavedSearch_removes_exactly (Some collector) 4 203
               collector_store) as (u' & H1 & _ & H3).
  - vm_compute. reflexivity.
  - apply injective_projections; [vm_compute; reflexivity | reflexivity].
  - exists u'. split; [exact H1 | exact H3].
Defined.

(** X8.  A successful [updateSavedSearch] changes neither the number, the
    order nor the ids of the account's saved searches, and leaves every
    search with another id as it was. *)
Theorem updateSavedSearch_keeps_identity
  (ru : option User) (id searchId : ObjectId) (body : SavedSearchBody)
  (st st' : Store) (resp : Response) (u : User)
  (Hu : lookup_user id st = Some u)
  (H : SavedSearches.updateSavedSearch ru id searchId body st = (inr resp, st')) :
  exists u',
    lookup_user id st' = Some u' /\
    map ss_id (savedSearches u') = map ss_id (savedSearches u) /\
    (forall s, In s (savedSearches u) -> ss_id s <> searchId ->
               In s (savedSearches u')).
Proof.
  destruct (updateSavedSearch_cases _ _ _ _ _ _ _ H)
    as [[He _] | (u0 & Hu0 & Hex & _ & ->)]; [discriminate|].
  rewrite Hu in Hu0. inversion Hu0; subst u0; clear Hu0.
  pose proof (find_some_key u_id _ _ _ Hu) as Hid.
  eexists. split; [|split].
  - eapply lookup_user_save; [exact Hu | | simpl; reflexivity]; exact Hid.
  - simpl. apply map_update_first. apply ss_id_patch.
  - intros s Hin Hne. simpl. apply In_update_first_other; [exact Hin|].
    now apply Nat.eqb_neq.
Qed.

Lemma updateSavedSearch_keeps_identity_witness :
  exists u',
    lookup_user 4
      (snd (SavedSearches.updateSavedSearch (Some collector) 4 203
              one_more_search collector_store)) = Some u' /\
    map ss_id (savedSearches u') = seq 200 10.
Proof.
  edestruct (updateSavedSearch_keeps_identity (Some collector) 4 203
               one_more_search collector_store) as (u' & H1 & H2 & _).
  - vm_compute. reflexivity.
  - apply injective_projections; [vm_compute; reflexivity | reflexivity].
  - exists u'. split; [exact H1 | rewrite H2; reflexivity].
Defined.

(** ** Verification: repeated verdicts *)

Lemma replace_by_twice {A} (key : A -> ObjectId) (d1 d2 : A) (l : list A) :
  key d1 = key d2 ->
  replace_by key d2 (replace_by key d1 l) = replace_by key d2 l.
Proof.
  intros E. unfold replace_by. rewrite map_map. apply map_ext. intros x.
  destruct (Nat.eqb (key x) (key d1)) eqn:E1.
  - rewrite E, Nat.eqb_refl. rewrite E in E1. now rewrite E1.
  - rewrite E in E1. now rewrite E1.
Qed.

Lemma map_update_absent {A} (key : A -> ObjectId) (f : A -> A) (k : ObjectId)
  (l : list A) :
  find (fun y => Nat.eqb (key y) k) l = None ->
  map (fun x => if Nat.eqb (key x) k then f x else x) l = l.
Proof.
  induction l as [|x l IH]; simpl; [reflexivity|].
  destruct (Nat.eqb (key x) k); [discriminate|].
  intros H. now rewrite IH.
Qed.

(** The store [verifyAgent] leaves for an admin on an existing profile. *)
Lemma verifyAgent_store (ru : User) (id : ObjectId) (action : JsValue)
  (st : Store) (a : Agent) :
  role ru = admin ->
  lookup_agent id st = Some a ->
  snd (AgentController.verifyAgent (Some ru) id action st)
  = {| users :=
         map (fun u =>
                if Nat.eqb (u_id u) (userId a)
                then set_agentVerificationStatus
                       (if strict_eq_str action "approve"
                        then vs_verified else vs_rejected) u
                else u)
             (users st);
       agentsC :=
         replace_by a_id
           (set_a_isActive (strict_eq_str action "approve") a) (agentsC st);
       offices := offices st; properties := properties st;
       next_id := next_id st |}.
Proof.
  intros Hadmin Ha.
  unfold AgentController.verifyAgent, AgentModel.findById, AgentModel.save,
    UserModel.findById, UserModel.findByIdAndUpdate_status.
  simpl. rewrite Hadmin. run_ctl. rewrite Ha.
  destruct (lookup_user (userId a) st) as [owner|] eqn:Ho; simpl.
  - pose proof (find_some_key u_id _ _ _ Ho) as E. rewrite E. reflexivity.
  - unfold lookup_user in Ho. rewrite (map_update_absent _ _ _ _ Ho).
    reflexivity.
Qed.

(** X9.  The last verdict wins: for an admin and an existing Agent
    Profile, two [verifyAgent] calls in a row leave the store that the
    second call alone would have left.  In particular repeating a verdict
    changes nothing, and an approval after a rejection verifies the
    account. *)
Theorem verifyAgent_last_verdict_wins
  (ru : User) (id : ObjectId) (action1 action2 : JsValue) (st : Store)
  (a : Agent)
  (Hadmin : role ru = admin)
  (Ha : lookup_agent id st = Some a) :
  snd (AgentController.verifyAgent (Some ru) id action2
         (snd (AgentController.verifyAgent (Some ru) id action1 st)))
  = snd (AgentController.verifyAgent (Some ru) id action2 st).
Proof.
  rewrite (verifyAgent_store ru id action1 st a Hadmin Ha).
  rewrite (verifyAgent_store ru id action2 st a Hadmin Ha).
  pose proof (find_some_key a_id _ _ _ Ha) as Eid.
  erewrite verifyAgent_store; [|exact Hadmin|].
  2: { unfold lookup_agent in *. simpl.
       eapply find_replace_by; [exact Ha | exact Eid]. }
  simpl. f_equal.
  - rewrite map_map. apply map_ext. intros u.
    destruct (Nat.eqb (u_id u) (userId a)) eqn:E; simpl; rewrite E; reflexivity.
  - apply replace_by_twice. reflexivity.
Qed.

(** The admin first rejects, then approves, the application of
    account 1. *)
Lemma verifyAgent_last_verdict_wins_witness :
  snd (AgentController.verifyAgent (Some admin_user) 100 (JStr "approve")
         after_reject)
  = after_approve.
Proof.
  exact (verifyAgent_last_verdict_wins admin_user 100 (JStr "reject")
           (JStr "approve") after_apply
           {| a_id := 100; userId := 1;
              bio := "Ten years of residential sales in the county";
              specialties := ["residential"]; languages := ["english"];
              office := 50; licenseNumber := "LIC-0001";
              licenseState := Some "CA"; yearsExperience := 10%Z;
              a_isActive := false |}
           eq_refl eq_refl).
Defined.

(** X10.  Once [verifyAgent] has turned an application down, the owning
    account stays [rejected] and each of its later [apply] calls is
    refused with status 400 and changes nothing. *)
Theorem reapply_after_rejection_is_refused
  (ru : User) (id : ObjectId) (action : JsValue) (st : Store)
  (a : Agent) (owner applicant : User) (body : ApplicationBody)
  (Hadmin : role ru = admin)
  (Ha : lookup_agent id st = Some a)
  (Ho : lookup_user (userId a) st = Some owner)
  (Haction : action <> JStr "approve")
  (Hid : u_id applicant = userId a) :
  let st' := snd (AgentController.verifyAgent (Some ru) id action st) in
  AgentController.apply (Some applicant) body st' = (inl already_submitted, st')
  /\ errorHandler already_submitted = 400
  /\ option_map agentVerificationStatus (lookup_user (u_id applicant) st')
     = Some vs_rejected.
Proof.
  intros st'. split; [|split; [reflexivity|]].
  - exact (rejection_blocks_reapplication ru id action st a owner applicant
             body Hadmin Ha Ho Haction Hid).
  - destruct (verifyAgent_effect ru id action st a owner Hadmin Ha Ho)
      as (st1 & H1 & _ & H3 & _).
    subst st'. rewrite H1. simpl. rewrite Hid, H3.
    rewrite (strict_eq_str_neq _ _ Haction). reflexivity.
Qed.

Lemma reapply_after_rejection_is_refused_witness :
  AgentController.apply (Some (new_user 1)) second_application after_reject
  = (inl already_submitted, after_reject).
Proof.
  exact (proj1 (reapply_after_rejection_is_refused admin_user 100
                  (JStr "reject") after_apply
                  {| a_id := 100; userId := 1;
                     bio := "Ten years of residential sales in the county";
                     specialties := ["residential"]; languages := ["english"];
                     office := 50; licenseNumber := "LIC-0001";
                     licenseState := Some "CA"; yearsExperience := 10%Z;
                     a_isActive := false |}
                  (set_agentId (Some 100)
                     (set_agentVerificationStatus vs_pending (new_user 1)))
                  (new_user 1) second_application
                  eq_refl eq_refl eq_refl
                  ltac:(discriminate) eq_refl)).
Defined.

(** ** Who can verify an account *)

(** When a store differs from another by one saved user document that is
    verified only if the document it replaces was, every verified
    account of the new store was verified in the old one. *)
Lemma saved_document_keeps_unverified (st st' : Store) (u unew : User)
  (id : ObjectId) :
  lookup_user id st = Some u ->
  u_id unew = id ->
  users st' = replace_by u_id unew (users st) ->
  (agentVerificationStatus unew = vs_verified ->
   agentVerificationStatus u = vs_verified) ->
  forall id' u',
    lookup_user id' st' = Some u' ->
    agentVerificationStatus u' = vs_verified ->
    exists u0,
      lookup_user id' st = Some u0 /\
      agentVerificationStatus u0 = vs_verified.
Proof.
  intros Hu Hid Hus Hv id' u' Hu' Hv'.
  destruct (Nat.eq_dec id id') as [<- | Hne].
  - rewrite (lookup_user_save unew u id st st' Hu Hid Hus) in Hu'.
    inversion Hu'; subst u'. exists u. split; [exact Hu | now apply Hv].
  - exists u'. split; [|exact Hv'].
    unfold lookup_user in *. rewrite Hus in Hu'.
    rewrite find_replace_by_other in Hu' by congruence. exact Hu'.
Qed.

(** An [apply] that answers with an error has changed no account.  (It
    may have created an Agent Profile: the account document is saved
    after the profile is created, and that save can fail validation.) *)
Lemma apply_error_keeps_users (ru : option User) (body : ApplicationBody)
  (st st' : Store) (e : Error) :
  AgentController.apply ru body st = (inl e, st') -> users st' = users st.
Proof.
  destruct ru as [ru|]; [|intros H; now inversion H].
  unfold AgentController.apply, AgentController.apply_reads,
    AgentController.apply_writes, UserModel.findById, UserModel.save,
    AgentModel.findOne_userId, AgentModel.create.
  run_ctl.
  destruct (lookup_user (u_id ru) st) as [user|];
    [|intros H; now inversion H].
  destruct (VerificationStatus_eqb (agentVerificationStatus user)
                                    vs_verified);
    [intros H; now inversion H|].
  destruct (lookup_agent_by_userId (u_id ru) st);
    [intros H; now inversion H|].
  unfold missing_required, AgentSchema, AgentModel.present, path,
    present_string, present_ref.
  destruct (ab_bio body) as [b|], (ab_office body) as [o|],
    (ab_licenseNumber body) as [l|]; simpl;
    try destruct (b =? ""); try destruct (l =? ""); simpl;
    try (intros H; inversion H; reflexivity).
  save_cases; intros H; inversion H; reflexivity.
Qed.

(** X11.  No self-service operation verifies an account: after
    [selectRole], [completeOnboarding] or [apply], whatever they answer,
    every account that is [verified] was already [verified] before the
    call.  Only [verifyAgent] sets that status. *)
Theorem self_service_never_verifies (st st' : Store)
  (H : (exists ru id role_s out,
           RoleController.selectRole ru id role_s st = (out, st'))
       \/ (exists ru id role_s data out,
              RoleController.completeOnboarding ru id role_s data st
              = (out, st'))
       \/ (exists ru body out,
              AgentController.apply ru body st = (out, st'))) :
  forall id' u',
    lookup_user id' st' = Some u' ->
    agentVerificationStatus u' = vs_verified ->
    exists u0,
      lookup_user id' st = Some u0 /\
      agentVerificationStatus u0 = vs_verified.
Proof.
  assert (Same : users st' = users st ->
                 forall id' u',
                   lookup_user id' st' = Some u' ->
                   agentVerificationStatus u' = vs_verified ->
                   exists u0,
                     lookup_user id' st = Some u0 /\
                     agentVerificationStatus u0 = vs_verified).
  { intros E id' u' Hu' Hv'. exists u'. split; [|exact Hv'].
    unfold lookup_user in *. now rewrite <- E. }
  destruct H as [(ru & id & role_s & out & H)
                | [(ru & id & role_s & data & out & H)
                  | (ru & body & out & H)]].
  - destruct (selectRole_cases _ _ _ _ _ _ H)
      as [[_ ->] | (u & r & _ & Hu & _ & _ & _ & ->)]; [eauto|].
    eapply saved_document_keeps_unverified;
      [exact Hu | | simpl; reflexivity |].
    + pose proof (find_some_key u_id _ _ _ Hu).
      destruct (Role_eqb r agent); assumption.
    + destruct (Role_eqb r agent); simpl; [discriminate | tauto].
  - destruct (completeOnboarding_cases _ _ _ _ _ _ _ H)
      as [[_ (Hsame & _)]
         | (u & r & unew & _ & Hu & _ & _ & _ & Hus & _ & Hid & _
            & Hvs & _)]; [exact (Same Hsame)|].
    eapply saved_document_keeps_unverified; [exact Hu | | exact Hus |].
    + rewrite Hid. eapply find_some_key; exact Hu.
    + now rewrite Hvs.
  - destruct out as [e | resp].
    + exact (Same (apply_error_keeps_users _ _ _ _ _ H)).
    + destruct ru as [ru|]; [|inversion H].
      destruct (apply_success _ _ _ _ _ H)
        as (user & a & Hu & _ & _ & _ & _ & _ & ->).
      eapply saved_document_keeps_unverified;
        [exact Hu | | simpl; reflexivity |].
      * simpl. eapply find_some_key; exact Hu.
      * simpl. discriminate.
Qed.

(** The verified account 1 selects the seller role: it was verified
    before. *)
Lemma self_service_never_verifies_witness :
  exists u0,
    lookup_user 1 after_approve = Some u0 /\
    agentVerificationStatus u0 = vs_verified.
Proof.
  eapply (self_service_never_verifies after_approve
            (snd (RoleController.selectRole (Some (new_user 1)) 1 "seller"
                    after_approve))).
  - left. exists (Some (new_user 1)), 1, "seller". eexists.
    apply surjective_pairing.
  - vm_compute. reflexivity.
  - reflexivity.
Defined.

(** X12.  A successful [apply] links the account and its new Agent
    Profile in both directions: the account's [agentId] names a stored
    profile whose [userId] is the account, the profile is inactive and
    the account is pending. *)
Theorem apply_links_account_and_profile
  (ru : User) (body : ApplicationBody) (st st' : Store) (resp : Response)
  (Hfresh : lookup_agent (next_id st) st = None)
  (H : AgentController.apply (Some ru) body st = (inr resp, st')) :
  exists u' a,
    lookup_user (u_id ru) st' = Some u' /\
    agentId u' = Some (a_id a) /\
    lookup_agent (a_id a) st' = Some a /\
    userId a = u_id ru /\
    a_isActive a = false /\
    agentVerificationStatus u' = vs_pending.
Proof.
  destruct (apply_success _ _ _ _ _ H)
    as (user & a & Hu & _ & _ & Hid & Huid & Hact & ->).
  eexists. exists a. split; [|split; [|split; [|split; [|split]]]].
  - eapply lookup_user_save; [exact Hu | | simpl; reflexivity].
    simpl. eapply find_some_key; exact Hu.
  - simpl. now rewrite Hid.
  - unfold lookup_agent in *. simpl. rewrite Hid.
    rewrite (find_app_none _ _ [a] Hfresh). simpl.
    now rewrite Hid, Nat.eqb_refl.
  - exact Huid.
  - exact Hact.
  - reflexivity.
Qed.

Lemma apply_links_account_and_profile_witness :
  exists u' a,
    lookup_user 1 after_apply = Some u' /\
    agentId u' = Some (a_id a) /\
    lookup_agent (a_id a) after_apply = Some a /\
    userId a = 1.
Proof.
  edestruct (apply_links_account_and_profile (new_user 1) valid_application
               before_apply after_apply)
    as (u' & a & H1 & H2 & H3 & H4 & _).
  - reflexivity.
  - vm_compute. reflexivity.
  - exists u', a. repeat split; assumption.
Defined.

(** ** An application that fails half-way *)

(** X29.  [apply] is not all-or-nothing.  It creates the Agent Profile
    before it saves the account, and outside any transaction.  When the
    account document fails validation, as it does once one of its saved
    searches is stored without filters, [apply] answers with the
    validation error (status 400), the account is as it was, and the
    Agent Profile that was created stays.  In the store that is left,
    every [apply] of the account is refused with "Agent application
    already submitted". *)
Theorem apply_leaves_profile_behind
  (ru : User) (body : ApplicationBody) (st : Store) (user : User)
  (Hu : lookup_user (u_id ru) st = Some user)
  (Hv : agentVerificationStatus user <> vs_verified)
  (Ha : lookup_agent_by_userId (u_id ru) st = None)
  (Hb : present_string (ab_bio body) = true)
  (Hl : present_string (ab_licenseNumber body) = true)
  (Ho : ab_office body <> None)
  (Hinv : UserModel.validate [] user <> []) :
  exists st',
    AgentController.apply (Some ru) body st
    = (inl (EValidation (UserModel.validate [] user)), st') /\
    errorHandler (EValidation (UserModel.validate [] user)) = 400 /\
    lookup_user (u_id ru) st' = Some user /\
    List.length (profiles_of (u_id ru) st) = 0 /\
    List.length (profiles_of (u_id ru) st') = 1 /\
    (forall body2,
        AgentController.apply (Some ru) body2 st'
        = (inl already_submitted, st')).
Proof.
  destruct (apply_fresh ru body st user Hu Hv Ha Hb Hl Ho)
    as [[Hval _] | (_ & st' & H1 & H2 & H3)]; [contradiction|].
  exists st'. split; [exact H1|]. split; [reflexivity|].
  assert (Hu' : lookup_user (u_id ru) st' = Some user)
    by (unfold lookup_user in *; now rewrite H2).
  split; [exact Hu'|]. split.
  { unfold profiles_of, lookup_agent_by_userId in *.
    now rewrite (find_none_filter_nil _ _ Ha). }
  split; [exact H3|].
  intros body2.
  destruct (lookup_agent_by_userId (u_id ru) st') as [a|] eqn:E.
  - exact (apply_existing ru body2 st' user a Hu' Hv E).
  - unfold profiles_of, lookup_agent_by_userId in *.
    rewrite (find_none_filter_nil _ _ E) in H3. discriminate.
Qed.

(** Account 1 holds a saved search that was stored without its filters,
    and applies: the call fails on that search, and Agent Profile 101
    stays behind. *)
Lemma apply_leaves_profile_behind_witness :
  exists st',
    AgentController.apply (Some (new_user 1)) valid_application
      after_empty_search
    = (inl (EValidation ["savedSearches.0.filters"]), st') /\
    option_map agentVerificationStatus (lookup_user 1 st') = Some vs_none /\
    List.length (profiles_of 1 st') = 1.
Proof.
  edestruct apply_leaves_profile_behind
    with (ru := new_user 1) (body := valid_application)
         (st := after_empty_search)
    as (st' & H1 & _ & H3 & _ & H5 & _).
  - vm_compute. reflexivity.
  - simpl. discriminate.
  - reflexivity.
  - reflexivity.
  - reflexivity.
  - discriminate.
  - vm_compute. discriminate.
  - exists st'. split; [exact H1|]. split; [|exact H5].
    simpl in H3. rewrite H3. reflexivity.
Defined.

(** ** Creating, submitting, updating and deleting listings *)

(** A listing passes validation exactly when it has a title, an agent
    and an office. *)
Lemma property_valid (p : Property) :
  missing_required PropertySchema (PropertyModel.present p) = [] <->
  present_string (title p) = true /\ listingAgent p <> None
  /\ listingOffice p <> None.
Proof.
  unfold missing_required, PropertySchema, PropertyModel.present, path,
    present_ref.
  simpl.
  destruct (present_string (title p)), (listingAgent p), (listingOffice p);
    simpl; split; intros H; try discriminate; try tauto;
    try (repeat split; congruence);
    destruct H as (H1 & H2 & H3); congruence.
Qed.

(** The two ways the insert of a new listing can end. *)
Lemma create_cases (refused : bool) (data : Property) (st : Store) :
  (exists e, PropertyFlow.create refused data st = (inl e, st) /\
             (missing_required PropertySchema (PropertyModel.present data) <> []
              -> e = EValidation
                       (missing_required PropertySchema
                          (PropertyModel.present data))))
  \/
  (missing_required PropertySchema (PropertyModel.present data) = [] /\
   let p := {| p_id := next_id st; title := title data;
               status := status data; listingAgent := listingAgent data;
               listingOffice := listingOffice data;
               p_seller := p_seller data |} in
   PropertyFlow.create refused data st
   = (inr p,
      {| users := users st; agentsC := agentsC st; offices := offices st;
         properties := properties st ++ [p]; next_id := S (next_id st) |})).
Proof.
  unfold PropertyFlow.create.
  destruct (missing_required PropertySchema (PropertyModel.present data))
    eqn:Hm.
  - destruct refused.
    + left. eexists. split; [reflexivity | congruence].
    + right. split; reflexivity.
  - left. eexists. split; reflexivity.
Qed.

(** X13.  [submitProperty] never stores a listing: it removes the agent
    and the office from the submitted data, both of which the schema
    requires, so a seller's submission always fails validation (status
    400) on [listingAgent] and [listingOffice], and every other caller is
    refused before that. *)
Theorem submitProperty_never_stores
  (refused : bool) (ru : option User) (body : PropertyBody) (st : Store) :
  exists e,
    PropertyFlow.submitProperty refused ru body st = (inl e, st) /\
    (option_map role ru = Some seller ->
     exists paths,
       e = EValidation paths /\ errorHandler e = 400 /\
       In "listingAgent" paths /\ In "listingOffice" paths).
Proof.
  unfold PropertyFlow.submitProperty.
  destruct ru as [user|]; simpl;
    [|eexists; split; [reflexivity | discriminate]].
  destruct (Role_eqb (role user) seller) eqn:Er; simpl;
    [|eexists; split; [reflexivity|];
      intros E; inversion E as [E']; rewrite E' in Er; discriminate].
  unfold bind.
  match goal with
  | |- context [PropertyFlow.create refused ?d st] =>
      destruct (create_cases refused d st) as [(e & He & Hv) | (Hm & _)]
  end.
  - assert (Hne : missing_required PropertySchema
                    (PropertyModel.present
                       (PropertyFlow.set_listingOffice None
                          (PropertyFlow.set_listingAgent None
                             (set_p_status ps_pending
                                (PropertyFlow.set_seller (Some (u_id user))
                                   (PropertyFlow.extractPropertyFields body))))))
                  <> []).
    { intros Hm. apply property_valid in Hm. simpl in Hm. tauto. }
    specialize (Hv Hne). rewrite He. subst e.
    eexists. split; [reflexivity|]. intros _.
    eexists. split; [reflexivity|]. split; [reflexivity|].
    unfold missing_required, PropertySchema, PropertyModel.present, path.
    simpl. destruct (present_string (pb_title body)); simpl; tauto.
  - apply property_valid in Hm. simpl in Hm. tauto.
Qed.

Lemma submitProperty_never_stores_witness :
  exists paths,
    PropertyFlow.submitProperty false (Some seller_user) rename_o50
      property_store = (inl (EValidation paths), property_store) /\
    In "listingOffice" paths.
Proof.
  destruct (submitProperty_never_stores false (Some seller_user) rename_o50
              property_store) as (e & H1 & H2).
  destruct (H2 eq_refl) as (paths & -> & _ & _ & H3).
  exists paths. split; assumption.
Defined.

(** What a successful [createProperty] stored. *)
Lemma createProperty_success (refused : bool) (user : User)
  (body : PropertyBody) (st st' : Store) (resp : Response) :
  PropertyFlow.createProperty refused (Some user) body st = (inr resp, st') ->
  exists p,
    (role user = admin \/ role user = manager \/ role user = agent) /\
    p_id p = next_id st /\
    listingAgent p = (if Role_eqb (role user) agent
                      then Some (u_id user) else pb_listingAgent body) /\
    listingOffice p = pb_listingOffice body /\
    listingOffice p <> None /\
    status p = orDefault (pb_status body) ps_active /\
    st' = {| users := users st; agentsC := agentsC st; offices := offices st;
             properties := properties st ++ [p];
             next_id := S (next_id st) |}.
Proof.
  unfold PropertyFlow.createProperty, includes, user_office.
  destruct (role user) eqn:Er; simpl; try discriminate; unfold bind;
    match goal with
    | |- context [PropertyFlow.create refused ?d st] =>
        destruct (create_cases refused d st) as [(e & He & _) | (Hm & Hc)]
    end;
    try (rewrite He; discriminate);
    rewrite Hc; simpl; intros H; inversion H; subst; clear H;
    apply property_valid in Hm; simpl in Hm; destruct Hm as (_ & _ & Hm);
    eexists; repeat split; try reflexivity; auto.
Qed.

(** X14.  An agent can manage what it creates: a listing stored by
    [createProperty] for an agent carries the agent's account id as
    [listingAgent] and the office named in the request, and the same
    agent is then authorized to soft-delete it, which succeeds. *)
Theorem agent_manages_what_it_creates
  (refused : bool) (user : User) (body : PropertyBody) (st st' : Store)
  (resp : Response)
  (Hrole : role user = agent)
  (Hfresh : lookup_property (next_id st) st = None)
  (Htitle : present_string (pb_title body) = true)
  (H : PropertyFlow.createProperty refused (Some user) body st = (inr resp, st')) :
  exists p st'',
    lookup_property (next_id st) st' = Some p /\
    listingAgent p = Some (u_id user) /\
    listingOffice p = pb_listingOffice body /\
    PropertyController.canManageProperty user p = true /\
    PropertyController.deleteProperty (Some user) (next_id st) st'
    = (inr {| res_status := 200;
              res_message := "Property deactivated successfully" |}, st'') /\
    option_map status (lookup_property (next_id st) st'') = Some ps_off_market.
Proof.
  revert H. unfold PropertyFlow.createProperty, includes, user_office.
  rewrite Hrole. simpl. unfold bind.
  match goal with
  | |- context [PropertyFlow.create refused ?d st] =>
      destruct (create_cases refused d st) as [(e & He & _) | (Hm & Hc)]
  end; [rewrite He; discriminate|].
  rewrite Hc. simpl. intros H. inversion H; subst; clear H.
  apply property_valid in Hm. simpl in Hm. destruct Hm as (_ & _ & Hoff).
  set (p := {| p_id := next_id st; title := pb_title body;
               status := orDefault (pb_status body) ps_active;
               listingAgent := Some (u_id user);
               listingOffice := pb_listingOffice body;
               p_seller := pb_seller body |}).
  assert (Hp : lookup_property (next_id st)
                 {| users := users st; agentsC := agentsC st;
                    offices := offices st;
                    properties := properties st ++ [p];
                    next_id := S (next_id st) |} = Some p).
  { unfold lookup_property in *. simpl.
    rewrite (find_app_none _ _ [p] Hfresh). simpl.
    now rewrite Nat.eqb_refl. }
  assert (Hcan : PropertyController.canManageProperty user p = true).
  { rewrite canManageProperty_agent by exact Hrole. simpl.
    apply Nat.eqb_refl. }
  exists p. eexists. split; [exact Hp|]. split; [reflexivity|].
  split; [reflexivity|]. split; [exact Hcan|].
  unfold PropertyController.deleteProperty, PropertyModel.findById,
    PropertyModel.save.
  unfold bind, gets. rewrite Hp, Hcan. simpl.
  unfold missing_required, PropertySchema, PropertyModel.present, path,
    present_ref.
  simpl. rewrite Htitle. simpl.
  destruct (pb_listingOffice body) as [o|] eqn:Eo; [|congruence].
  simpl. split; [reflexivity|].
  unfold lookup_property in *. simpl.
  erewrite find_replace_by; [reflexivity | exact Hp | reflexivity].
Qed.

Lemma agent_manages_what_it_creates_witness :
  exists p,
    lookup_property 100
      (snd (PropertyFlow.createProperty false (Some agent_user) rename_o50
              property_store)) = Some p /\
    listingAgent p = Some 3 /\
    PropertyController.canManageProperty agent_user p = true.
Proof.
  edestruct (agent_manages_what_it_creates false agent_user rename_o50
               property_store
               (snd (PropertyFlow.createProperty false (Some agent_user)
                       rename_o50 property_store)))
    as (p & st'' & H1 & H2 & _ & H4 & _).
  - reflexivity.
  - reflexivity.
  - reflexivity.
  - apply injective_projections; [vm_compute; reflexivity | reflexivity].
  - exists p. repeat split; assumption.
Defined.

(** X15.  A manager is locked out of what it creates: a listing stored by
    [createProperty] for a manager has the office named in the request,
    and [canManageProperty] then refuses that manager, so its update and
    its soft delete of the listing are answered with 403. *)
Theorem manager_locked_out_of_own_listing
  (refused : bool) (user : User) (body body' : PropertyBody) (st st' : Store)
  (resp : Response)
  (Hrole : role user = manager)
  (Hfresh : lookup_property (next_id st) st = None)
  (H : PropertyFlow.createProperty refused (Some user) body st = (inr resp, st')) :
  exists p,
    lookup_property (next_id st) st' = Some p /\
    listingOffice p = pb_listingOffice body /\
    PropertyController.canManageProperty user p = false /\
    PropertyController.updateProperty (Some user) (next_id st) body' st'
    = (inl access_denied, st') /\
    PropertyController.deleteProperty (Some user) (next_id st) st'
    = (inl access_denied, st').
Proof.
  destruct (createProperty_success _ _ _ _ _ _ H)
    as (p & _ & Hid & _ & Hoff & Hsome & _ & ->).
  assert (Hp : lookup_property (next_id st)
                 {| users := users st; agentsC := agentsC st;
                    offices := offices st;
                    properties := properties st ++ [p];
                    next_id := S (next_id st) |} = Some p).
  { unfold lookup_property in *. simpl.
    rewrite (find_app_none _ _ [p] Hfresh). simpl.
    now rewrite Hid, Nat.eqb_refl. }
  assert (Hcan : PropertyController.canManageProperty user p = false).
  { rewrite canManageProperty_manager by exact Hrole.
    destruct (listingOffice p); [reflexivity | congruence]. }
  exists p. split; [exact Hp|]. split; [exact Hoff|]. split; [exact Hcan|].
  unfold PropertyController.updateProperty, PropertyController.deleteProperty,
    PropertyModel.findById, bind, gets.
  rewrite Hp, Hcan. split; reflexivity.
Qed.

Lemma manager_locked_out_of_own_listing_witness :
  exists p,
    lookup_property 100
      (snd (PropertyFlow.createProperty false (Some manager_o50) rename_o50
              property_store)) = Some p /\
    listingOffice p = Some 50 /\
    PropertyController.canManageProperty manager_o50 p = false.
Proof.
  edestruct (manager_locked_out_of_own_listing false manager_o50 rename_o50
               rename_o50 property_store
               (snd (PropertyFlow.createProperty false (Some manager_o50)
                       rename_o50 property_store)))
    as (p & H1 & H2 & H3 & _).
  - reflexivity.
  - reflexivity.
  - apply injective_projections; [vm_compute; reflexivity | reflexivity].
  - exists p. repeat split; assumption.
Defined.

(** X16.  A manager can never soft-delete a listing: [deleteProperty]
    called by a manager always answers with an error and leaves the
    store unchanged, because the only listings it is authorized for have
    no office and cannot be saved. *)
Theorem manager_cannot_soft_delete
  (user : User) (id : ObjectId) (st : Store)
  (Hrole : role user = manager) :
  exists e,
    PropertyController.deleteProperty (Some user) id st = (inl e, st).
Proof.
  unfold PropertyController.deleteProperty, PropertyModel.findById,
    PropertyModel.save, bind, gets.
  destruct (lookup_property id st) as [p|]; [|eexists; reflexivity].
  rewrite canManageProperty_manager by exact Hrole.
  destruct (listingOffice p) as [o|] eqn:Eo; simpl; [eexists; reflexivity|].
  unfold missing_required, PropertySchema, PropertyModel.present, path,
    present_ref.
  simpl. rewrite Eo.
  destruct (present_string (title p)), (listingAgent p); simpl;
    eexists; reflexivity.
Qed.

Lemma manager_cannot_soft_delete_witness :
  exists e,
    PropertyController.deleteProperty (Some manager_o50) 9 property_store
    = (inl e, property_store) /\ errorHandler e = 400.
Proof.
  destruct (manager_cannot_soft_delete manager_o50 9 property_store eq_refl)
    as (e & He).
  exists e. split; [exact He|].
  assert (E : inl e = fst (PropertyController.deleteProperty (Some manager_o50)
                             9 property_store)) by (now rewrite He).
  vm_compute in E. inversion E. reflexivity.
Defined.

(** X17.  A successful [updateProperty] overwrites every extracted field
    with what the request carries, also the fields the request leaves
    out: without a status the listing becomes active again, even when it
    was off-market, and without a seller the seller is cleared. *)
Theorem updateProperty_overwrites_every_field
  (user : User) (id : ObjectId) (body : PropertyBody) (st st' : Store)
  (resp : Response)
  (H : PropertyController.updateProperty (Some user) id body st = (inr resp, st')) :
  exists p p',
    lookup_property id st = Some p /\
    PropertyController.canManageProperty user p = true /\
    lookup_property id st' = Some p' /\
    title p' = pb_title body /\
    status p' = orDefault (pb_status body) ps_active /\
    listingAgent p' = pb_listingAgent body /\
    listingOffice p' = pb_listingOffice body /\
    p_seller p' = pb_seller body.
Proof.
  revert H.
  unfold PropertyController.updateProperty, PropertyModel.findById,
    PropertyModel.save, bind, gets.
  destruct (lookup_property id st) as [p|] eqn:Hp; [|discriminate].
  destruct (PropertyController.canManageProperty user p) eqn:Hcan; simpl;
    [|discriminate].
  destruct (missing_required PropertySchema
              (PropertyModel.present
                 (PropertyController.assign_fields body p))) eqn:Hm;
    [|discriminate].
  unfold modify. simpl. intros H. inversion H; subst; clear H.
  exists p, (PropertyController.assign_fields body p).
  split; [reflexivity|]. split; [exact Hcan|]. split.
  - unfold lookup_property in *. simpl.
    eapply find_replace_by; [exact Hp|].
    simpl. eapply find_some_key; exact Hp.
  - repeat split.
Qed.

(** The admin renames the soft-deleted listing 7 without naming a
    status. *)
Lemma updateProperty_overwrites_every_field_witness :
  option_map status (lookup_property 7 after_soft_delete) = Some ps_off_market
  /\
  exists p',
    lookup_property 7
      (snd (PropertyController.updateProperty (Some admin_user) 7 retitle_o50
              after_soft_delete)) = Some p' /\
    status p' = ps_active.
Proof.
  split; [reflexivity|].
  edestruct (updateProperty_overwrites_every_field admin_user 7 retitle_o50
               after_soft_delete
               (snd (PropertyController.updateProperty (Some admin_user) 7
                       retitle_o50 after_soft_delete)))
    as (p & p' & _ & _ & H3 & _ & H5 & _).
  - apply injective_projections; [vm_compute; reflexivity | reflexivity].
  - exists p'. split; [exact H3 | exact H5].
Defined.

(** X18.  A successful [deleteProperty] is a soft delete: the listing
    stays in the store under its id with its title, agent, office and
    seller, only its status becomes off-market, and no listing is added
    or removed. *)
Theorem deleteProperty_is_soft
  (user : User) (id : ObjectId) (st st' : Store) (resp : Response)
  (H : PropertyController.deleteProperty (Some user) id st = (inr resp, st')) :
  exists p,
    lookup_property id st = Some p /\
    lookup_property id st' = Some (set_p_status ps_off_market p) /\
    List.length (properties st') = List.length (properties st) /\
    users st' = users st /\ agentsC st' = agentsC st.
Proof.
  revert H.
  unfold PropertyController.deleteProperty, PropertyModel.findById,
    PropertyModel.save, bind, gets.
  destruct (lookup_property id st) as [p|] eqn:Hp; [|discriminate].
  destruct (PropertyController.canManageProperty user p); simpl;
    [|discriminate].
  destruct (missing_required PropertySchema
              (PropertyModel.present (set_p_status ps_off_market p)));
    [|discriminate].
  unfold modify. simpl. intros H. inversion H; subst; clear H.
  exists p. split; [reflexivity|]. split; [|split; [|split; reflexivity]].
  - unfold lookup_property in *. simpl.
    eapply find_replace_by; [exact Hp|].
    simpl. eapply find_some_key; exact Hp.
  - simpl. apply length_replace_by.
Qed.

Lemma deleteProperty_is_soft_witness :
  lookup_property 7 after_soft_delete
  = Some (set_p_status ps_off_market listing_o50) /\
  List.length (properties after_soft_delete) = 4.
Proof.
  edestruct (deleteProperty_is_soft admin_user 7 property_store
               after_soft_delete) as (p & H1 & H2 & H3 & _).
  - apply injective_projections; [vm_compute; reflexivity | reflexivity].
  - vm_compute in H1. inversion H1; subst p. split; [exact H2|].
    rewrite H3. reflexivity.
Defined.

(** ** Office lifecycle *)

(** [office.save()] either rejects the document and leaves the store as
    it is, or replaces the stored office. *)
Lemma OfficeDoc_save_cases (modified : bool) (o : Office) (st : Store) :
  (exists e, OfficeDoc.save modified o st = (inl e, st))
  \/
  OfficeDoc.save modified o st
  = (inr tt,
     set_offices
       (replace_by o_id
          (if modified
           then set_o_statistics
                  (OfficeModel.set_totalAgents (List.length (agents o))
                                               (statistics o)) o
           else o)
          (offices st)) st).
Proof.
  unfold OfficeDoc.save.
  destruct (missing_required OfficeSchema (OfficeDoc.present o)).
  - right. reflexivity.
  - left. eexists. reflexivity.
Qed.

Local Opaque OfficeDoc.save.

(** The two ways [deleteOffice] can end. *)
Lemma deleteOffice_cases (f : LifecycleFaults) (now : string)
  (ru : option User) (id : ObjectId) (st : Store) :
  let r := OfficeLifecycle.deleteOffice f now ru id st in
  (is_error (fst r) = true /\ snd r = st)
  \/
  (exists o,
      lookup_office id st = Some o /\
      office_isActive o = true /\
      fst r = inr {| res_status := 200;
                     res_message :=
                       "Office deleted successfully (soft delete)" |} /\
      snd r = {| users :=
                   map (fun u => if opt_id_eqb (officeId u) (Some (o_id o))
                                 then set_officeId None u else u)
                       (users st);
                 agentsC :=
                   map (fun a => if Nat.eqb (office a) (o_id o)
                                 then set_a_isActive false a else a)
                       (agentsC st);
                 offices :=
                   replace_by o_id
                     (set_o_paths
                        (assign_key "deletedAt" (JStr now)
                           (assign_key "isActive" (JBool false)
                                       (o_paths o)))
                        o)
                     (offices st);
                 properties := properties st;
                 next_id := next_id st |}).
Proof.
  unfold OfficeLifecycle.deleteOffice, OfficeLifecycle.deleteOffice_try,
    startTransaction, abortTransaction.
  simpl.
  destruct ru as [ru|]; [|left; split; reflexivity].
  unfold bind, in_session, UserModel.findById, OfficeModel.findById, gets.
  simpl.
  destruct (lookup_user (u_id ru) st) as [cu|]; [|left; split; reflexivity].
  simpl.
  destruct (negb (includes ["admin"; "manager"] (Role_to_string (role cu))));
    [left; split; reflexivity|].
  simpl.
  destruct (lookup_office id st) as [o|] eqn:Ho;
    [|left; split; reflexivity].
  simpl.
  destruct (office_isActive o) eqn:Hact; simpl;
    [|left; split; reflexivity].
  match goal with
  | |- context [if ?b
                then throwApp "Managers can only delete their own offices" 403
                else _] => destruct b
  end; [left; split; reflexivity|].
  simpl. unfold may_fail.
  destruct (lf_office_save f); [left; split; reflexivity|].
  match goal with
  | |- context [OfficeDoc.save false ?d st] =>
      destruct (OfficeDoc_save_cases false d st) as [[e He] | Hs]
  end.
  { rewrite He. left; split; reflexivity. }
  rewrite Hs. simpl.
  destruct (lf_agents_update f); [left; split; reflexivity|].
  unfold OfficeDoc.deactivate_agents_of, OfficeDoc.unset_officeId_of, modify.
  simpl.
  destruct (lf_users_update f); [left; split; reflexivity|].
  simpl. unfold commitTransaction.
  destruct (lf_commit f); [left; split; reflexivity|].
  simpl. right. exists o. repeat split; assumption.
Qed.

(** X19.  [deleteOffice] is all-or-nothing under every combination of
    refused writes: either it answers with an error and the store is
    unchanged, or it answers 200 and the store holds the deactivated
    office, its deactivated Agent Profiles and its accounts without
    [officeId]. *)
Theorem deleteOffice_all_or_nothing (f : LifecycleFaults) (now : string)
  (ru : option User) (id : ObjectId) (st : Store) :
  let r := OfficeLifecycle.deleteOffice f now ru id st in
  (is_error (fst r) = true /\ snd r = st)
  \/
  (is_error (fst r) = false /\
   exists o',
     lookup_office id (snd r) = Some o' /\ office_isActive o' = false /\
     users (snd r)
     = map (fun u => if opt_id_eqb (officeId u) (Some id)
                     then set_officeId None u else u) (users st) /\
     agentsC (snd r)
     = map (fun a => if Nat.eqb (office a) id
                     then set_a_isActive false a else a) (agentsC st)).
Proof.
  intros r. subst r.
  destruct (deleteOffice_cases f now ru id st)
    as [H | (o & Ho & _ & Hout & Hst)]; [left; exact H|].
  right. rewrite Hout, Hst.
  pose proof (find_some_key o_id _ _ _ Ho) as Hid.
  split; [reflexivity|]. eexists. split; [|split; [|split]].
  - unfold lookup_office in *. simpl.
    eapply find_replace_by; [exact Ho | exact Hid].
  - unfold office_isActive. simpl.
    rewrite lookup_key_assign_other by discriminate.
    clear. induction (o_paths o) as [|[k v] l IH]; simpl; [reflexivity|].
    destruct (k =? "isActive") eqn:E; simpl; rewrite E; [reflexivity|exact IH].
  - simpl. now rewrite Hid.
  - simpl. now rewrite Hid.
Qed.

Lemma lookup_isActive_after_delete (now : string) (l : list (string * JsValue)) :
  lookup_key "isActive"
    (assign_key "deletedAt" (JStr now) (assign_key "isActive" (JBool false) l))
  = JBool false.
Proof.
  rewrite lookup_key_assign_other by discriminate.
  induction l as [|[k v] l IH]; simpl; [reflexivity|].
  destruct (k =? "isActive") eqn:E; simpl; rewrite E; [reflexivity | exact IH].
Qed.

(** X20.  A successful [deleteOffice] cascades: afterwards every Agent
    Profile of the office is inactive and no account refers to the office
    any more, while the Agent Profiles of other offices and the accounts
    that referred to no or another office are exactly as before; no
    document is removed. *)
Theorem deleteOffice_cascades (f : LifecycleFaults) (now : string)
  (ru : option User) (id : ObjectId) (st st' : Store) (resp : Response)
  (H : OfficeLifecycle.deleteOffice f now ru id st = (inr resp, st')) :
  (forall a, In a (agentsC st') -> office a = id -> a_isActive a = false) /\
  (forall u, In u (users st') -> officeId u <> Some id) /\
  (forall a, In a (agentsC st) -> office a <> id -> In a (agentsC st')) /\
  (forall u, In u (users st) -> officeId u <> Some id -> In u (users st')) /\
  List.length (agentsC st') = List.length (agentsC st) /\
  List.length (users st') = List.length (users st) /\
  List.length (offices st') = List.length (offices st).
Proof.
  pose proof (deleteOffice_cases f now ru id st) as C. simpl in C.
  rewrite H in C. simpl in C.
  destruct C as [[C _] | (o & Ho & _ & _ & ->)]; [discriminate|].
  pose proof (find_some_key o_id _ _ _ Ho) as Hid. rewrite Hid. simpl.
  repeat split.
  - intros a Hin Eo. apply in_map_iff in Hin. destruct Hin as (a0 & <- & _).
    destruct (Nat.eqb (office a0) id) eqn:E; [reflexivity|].
    apply Nat.eqb_neq in E. contradiction.
  - intros u Hin Eo. apply in_map_iff in Hin. destruct Hin as (u0 & <- & _).
    destruct (opt_id_eqb (officeId u0) (Some id)) eqn:E; [discriminate|].
    rewrite Eo in E. simpl in E. rewrite Nat.eqb_refl in E. discriminate.
  - intros a Hin Hne. apply in_map_iff. exists a. split; [|exact Hin].
    apply Nat.eqb_neq in Hne. now rewrite Hne.
  - intros u Hin Hne. apply in_map_iff. exists u. split; [|exact Hin].
    destruct (officeId u) as [x|]; simpl; [|reflexivity].
    destruct (Nat.eqb x id) eqn:E; [|reflexivity].
    apply Nat.eqb_eq in E. congruence.
  - apply length_map.
  - apply length_map.
  - apply length_replace_by.
Qed.

(** The admin deletes the Harbour office. *)
Lemma deleteOffice_cascades_witness :
  (forall a, In a (agentsC after_office_delete) -> office a = 70 ->
             a_isActive a = false) /\
  (forall u, In u (users after_office_delete) -> officeId u <> Some 70).
Proof.
  destruct (deleteOffice_cascades no_lifecycle_faults "2026-01-01"
              (Some admin_user) 70 harbour_store after_office_delete
              {| res_status := 200;
                 res_message := "Office deleted successfully (soft delete)" |})
    as (H1 & H2 & _).
  - vm_compute. reflexivity.
  - split; assumption.
Defined.

(** X21.  A deleted office cannot be deleted again as it is.  In the
    store a successful [deleteOffice] leaves, a [deleteOffice] of that
    office by any stored admin or manager account is refused with status
    400, "Office is already inactive", and changes nothing.  This holds
    for that store, in which the office is inactive; [isActive] is among
    the fields [updateOffice] assigns, and an office made active again
    is outside this statement. *)
Theorem deleteOffice_again_is_refused (f f2 : LifecycleFaults)
  (now now2 : string)
  (ru : option User) (ru2 cu2 : User) (id : ObjectId) (st st' : Store)
  (resp : Response)
  (H : OfficeLifecycle.deleteOffice f now ru id st = (inr resp, st'))
  (Hcu : lookup_user (u_id ru2) st' = Some cu2)
  (Hrole : role cu2 = admin \/ role cu2 = manager) :
  OfficeLifecycle.deleteOffice f2 now2 (Some ru2) id st'
  = (inl office_already_inactive, st').
Proof.
  pose proof (deleteOffice_cases f now ru id st) as C. simpl in C.
  rewrite H in C. simpl in C.
  destruct C as [[C _] | (o & Ho & _ & _ & Hst)]; [discriminate|].
  pose proof (find_some_key o_id _ _ _ Ho) as Hid.
  assert (Ho' : lookup_office id st'
                = Some (set_o_paths
                          (assign_key "deletedAt" (JStr now)
                             (assign_key "isActive" (JBool false) (o_paths o)))
                          o)).
  { subst st'. unfold lookup_office in *. simpl.
    eapply find_replace_by; [exact Ho | exact Hid]. }
  unfold OfficeLifecycle.deleteOffice, OfficeLifecycle.deleteOffice_try,
    startTransaction, abortTransaction.
  simpl.
  unfold bind, in_session, UserModel.findById, OfficeModel.findById, gets.
  simpl. rewrite Hcu. simpl.
  assert (E : includes ["admin"; "manager"] (Role_to_string (role cu2)) = true)
    by (destruct Hrole as [-> | ->]; reflexivity).
  rewrite E. simpl. rewrite Ho'. simpl.
  unfold office_isActive. simpl. rewrite lookup_isActive_after_delete.
  reflexivity.
Qed.

Lemma deleteOffice_again_is_refused_witness :
  OfficeLifecycle.deleteOffice no_lifecycle_faults "2026-01-02"
    (Some manager_70) 70 after_office_delete
  = (inl office_already_inactive, after_office_delete).
Proof.
  eapply (deleteOffice_again_is_refused no_lifecycle_faults no_lifecycle_faults
            "2026-01-01" "2026-01-02" (Some admin_user) manager_70 _ 70
            harbour_store after_office_delete).
  - vm_compute. reflexivity.
  - vm_compute. reflexivity.
  - right. reflexivity.
Defined.

(** [office.save()] after assignments either rejects the document and
    leaves the store as it is, or no cast failed and the stored office is
    replaced. *)
Lemma OfficeDoc_save_invalid_cases (invalid : list string) (modified : bool)
  (o : Office) (st : Store) :
  (exists e, OfficeDoc.save_invalid invalid modified o st = (inl e, st))
  \/
  (invalid = [] /\
   OfficeDoc.save_invalid invalid modified o st
   = (inr tt,
      set_offices
        (replace_by o_id
           (if modified
            then set_o_statistics
                   (OfficeModel.set_totalAgents (List.length (agents o))
                                                (statistics o)) o
            else o)
           (offices st)) st)).
Proof.
  unfold OfficeDoc.save_invalid. destruct invalid as [|p ps].
  - destruct (OfficeDoc_save_cases modified o st) as [[e He] | Hs].
    + left. exists e. exact He.
    + right. split; [reflexivity | exact Hs].
  - left. eexists. reflexivity.
Qed.

Local Opaque OfficeDoc.save_invalid.








Local Opaque OfficeLifecycle.assign_allowed.

(** The ways [updateOffice] can end: an error with the store unchanged, a
    plain update of the allowed fields, or an update with a manager
    reassignment.  In the last two no assigned path was invalid. *)
Lemma updateOffice_cases (cast : SchemaCast) (f : LifecycleFaults)
  (ru : option User) (id : ObjectId) (body : OfficeBody) (st : Store) :
  let r := OfficeLifecycle.updateOffice cast f ru id body st in
  (is_error (fst r) = true /\ snd r = st)
  \/
  (exists o,
      lookup_office id st = Some o /\
      fst r = inr office_updated /\
      snd (OfficeLifecycle.assign_allowed cast OfficeController.allowedFields
             (ob_fields body) (o_paths o)) = [] /\
      let paths' :=
        fst (OfficeLifecycle.assign_allowed cast OfficeController.allowedFields
               (ob_fields body) (o_paths o)) in
      ((ob_manager body = None \/ ob_manager body = Some (o_manager o)) /\
       snd r = set_offices
                 (replace_by o_id (set_o_paths paths' o) (offices st)) st)
      \/
      (exists ma mu,
          ob_manager body = Some (a_id ma) /\
          a_id ma <> o_manager o /\
          lookup_agent (a_id ma) st = Some ma /\
          lookup_user_by_agentId (a_id ma) st = Some mu /\
          agentVerificationStatus mu = vs_verified /\
          snd r = {| users :=
                       replace_by u_id
                         (set_officeId (Some (o_id o))
                            (if Role_eqb (role mu) manager
                             then mu else set_role manager mu))
                         (users st);
                     agentsC := agentsC st;
                     offices :=
                       replace_by o_id
                         (saved_after_reassignment o paths' (a_id ma))
                         (offices st);
                     properties := properties st;
                     next_id := next_id st |})).
Proof.
  unfold OfficeLifecycle.updateOffice, OfficeLifecycle.updateOffice_try,
    startTransaction, abortTransaction.
  simpl.
  destruct ru as [ru|]; [|left; split; reflexivity].
  unfold bind, in_session, no_session, UserModel.findById,
    OfficeModel.findById, gets.
  simpl.
  destruct (lookup_user (u_id ru) st) as [cu|]; [|left; split; reflexivity].
  simpl.
  destruct (negb (includes ["admin"; "manager"] (Role_to_string (role cu))));
    [left; split; reflexivity|].
  simpl.
  destruct (lookup_office id st) as [o|] eqn:Ho; [|left; split; reflexivity].
  simpl.
  match goal with
  | |- context [if ?b
                then throwApp "You can only update your own office" 403
                else _] => destruct b
  end; [left; split; reflexivity|].
  simpl. unfold may_fail, commitTransaction.
  destruct (ob_manager body) as [newId|] eqn:Hm; simpl.
  - destruct (Nat.eqb newId (o_manager o)) eqn:En; simpl.
    + apply Nat.eqb_eq in En. subst newId.
      destruct (lf_office_save f); [left; split; reflexivity|].
      match goal with
      | |- context [OfficeDoc.save_invalid ?i false ?d st] =>
          destruct (OfficeDoc_save_invalid_cases i false d st)
            as [[e He] | [Hbad Hs]]
      end; [rewrite He; left; split; reflexivity|].
      rewrite Hs. simpl.
      destruct (lf_commit f); [left; split; reflexivity|].
      right. exists o. split; [reflexivity|]. split; [reflexivity|].
      split; [exact Hbad|].
      left. split; [right; reflexivity | reflexivity].
    + apply Nat.eqb_neq in En.
      unfold OfficeLifecycle.reassign_manager, bind, in_session,
        AgentModel.findById, UserModel.findOne_agentId, UserModel.save,
        gets, modify, may_fail, ret.
      simpl.
      destruct (lookup_agent newId st) as [ma|] eqn:Hma;
        [|left; split; reflexivity].
      simpl.
      destruct (lookup_user_by_agentId (a_id ma) st) as [mu|] eqn:Hmu;
        [|left; split; reflexivity].
      simpl.
      destruct (VerificationStatus_eqb (agentVerificationStatus mu) vs_verified)
        eqn:Ev; simpl; [|left; split; reflexivity].
      destruct (lf_user_save f); [left; split; reflexivity|].
      save_cases; [left; split; reflexivity|].
      destruct (lf_office_save f); [left; split; reflexivity|].
      pose proof (find_some_key a_id _ _ _ Hma) as Eid. subst newId.
      destruct (includes_id (agents o) (a_id ma)) eqn:Einc; simpl;
        match goal with
        | |- context [OfficeDoc.save_invalid ?i ?m ?d ?s] =>
            destruct (OfficeDoc_save_invalid_cases i m d s)
              as [[e He] | [Hbad Hs]]
        end;
        try (rewrite He; left; split; reflexivity);
        rewrite Hs; simpl;
        (destruct (lf_commit f); [left; split; reflexivity|]);
        simpl; right; exists o; (split; [reflexivity|]);
        (split; [reflexivity|]); (split; [exact Hbad|]);
        right; exists ma, mu;
        (split; [reflexivity|]); (split; [exact En|]);
        (split; [exact Hma|]); (split; [exact Hmu|]);
        (split; [destruct (agentVerificationStatus mu); simpl in Ev;
                 congruence|]);
        unfold saved_after_reassignment; simpl; rewrite Einc; reflexivity.
  - destruct (lf_office_save f); [left; split; reflexivity|].
    match goal with
    | |- context [OfficeDoc.save_invalid ?i false ?d st] =>
        destruct (OfficeDoc_save_invalid_cases i false d st)
          as [[e He] | [Hbad Hs]]
    end; [rewrite He; left; split; reflexivity|].
    rewrite Hs. simpl.
    destruct (lf_commit f); [left; split; reflexivity|].
    right. exists o. split; [reflexivity|]. split; [reflexivity|].
    split; [exact Hbad|].
    left. split; [left; reflexivity | reflexivity].
Qed.

Lemma includes_id_In (l : list ObjectId) (x : ObjectId) :
  includes_id l x = true <-> In x l.
Proof.
  unfold includes_id. rewrite existsb_exists. split.
  - intros (y & Hy & E). apply Nat.eqb_eq in E. now subst.
  - intros H. exists x. split; [exact H | apply Nat.eqb_refl].
Qed.

(** The office stored after a reassignment. *)
Lemma saved_after_reassignment_facts (o : Office)
  (paths' : list (string * JsValue)) (m : ObjectId) :
  let o' := saved_after_reassignment o paths' m in
  o_id o' = o_id o /\ o_manager o' = m /\ o_paths o' = paths' /\
  franchiseId o' = franchiseId o /\
  In m (agents o') /\
  (forall x, In x (agents o) -> In x (agents o')) /\
  (In m (agents o) \/
   totalAgents (statistics o') = List.length (agents o')).
Proof.
  unfold saved_after_reassignment. simpl.
  destruct (includes_id (agents o) m) eqn:E; simpl.
  - apply includes_id_In in E. repeat split; auto.
  - repeat split; auto.
    + apply in_or_app. right. now left.
    + intros x Hx. apply in_or_app. now left.
Qed.


(** X23.  A successful [updateOffice] that names another Agent Profile as
    manager makes it the office's manager and one of its agents
    (recounting the agents when it was added), and promotes the account
    that holds that profile to manager of the office.  Every other
    account, the former manager's included, is left exactly as it was,
    and no Agent Profile is changed. *)
Theorem updateOffice_reassigns_manager (cast : SchemaCast)
  (f : LifecycleFaults)
  (ru : option User) (id newId : ObjectId) (body : OfficeBody)
  (st st' : Store) (resp : Response) (o : Office)
  (Ho : lookup_office id st = Some o)
  (Hm : ob_manager body = Some newId)
  (Hne : newId <> o_manager o)
  (H : OfficeLifecycle.updateOffice cast f ru id body st = (inr resp, st')) :
  exists o' mu mu',
    lookup_office id st' = Some o' /\
    o_manager o' = newId /\ In newId (agents o') /\
    (forall x, In x (agents o) -> In x (agents o')) /\
    (In newId (agents o) \/
     totalAgents (statistics o') = List.length (agents o')) /\
    lookup_user_by_agentId newId st = Some mu /\
    lookup_user (u_id mu) st' = Some mu' /\
    role mu' = manager /\ officeId mu' = Some id /\
    (forall uid, uid <> u_id mu -> lookup_user uid st' = lookup_user uid st) /\
    agentsC st' = agentsC st.
Proof.
  pose proof (updateOffice_cases cast f ru id body st) as C. simpl in C.
  rewrite H in C. simpl in C.
  destruct C as [[C _] | (o0 & Ho0 & _ & _ & [([Hn | Hn] & _)
                          | (ma & mu & Hma & _ & _ & Hmu & _ & ->)])];
    try discriminate; try congruence.
  rewrite Ho in Ho0. inversion Ho0; subst o0; clear Ho0.
  rewrite Hm in Hma. inversion Hma; subst newId; clear Hma.
  pose proof (find_some_key o_id _ _ _ Ho) as Hid.
  destruct (saved_after_reassignment_facts o
              (fst (OfficeLifecycle.assign_allowed cast
                      OfficeController.allowedFields
                      (ob_fields body) (o_paths o))) (a_id ma))
    as (F1 & F2 & _ & _ & F5 & F6 & F7).
  assert (Hin : In mu (users st)).
  { unfold lookup_user_by_agentId in Hmu. apply find_some in Hmu. tauto. }
  assert (Hmu0 : exists x, lookup_user (u_id mu) st = Some x).
  { unfold lookup_user.
    destruct (find (fun u => Nat.eqb (u_id u) (u_id mu)) (users st)) eqn:E;
      [eauto|].
    pose proof (find_none _ _ E _ Hin) as X. simpl in X.
    rewrite Nat.eqb_refl in X. discriminate. }
  destruct Hmu0 as (x & Hx).
  eexists. exists mu. eexists.
  split; [|split; [exact F2|split; [exact F5|split; [exact F6|split;
    [exact F7|split; [exact Hmu|split; [|split; [|split; [|split]]]]]]]]].
  - unfold lookup_office in *. simpl.
    eapply find_replace_by; [exact Ho | now rewrite F1].
  - eapply lookup_user_save; [exact Hx | | simpl; reflexivity].
    destruct (Role_eqb (role mu) manager); reflexivity.
  - destruct (Role_eqb (role mu) manager) eqn:E; simpl; [|reflexivity].
    destruct (role mu); simpl in E; congruence.
  - simpl. now rewrite Hid.
  - intros uid Hu. unfold lookup_user. simpl.
    apply find_replace_by_other.
    destruct (Role_eqb (role mu) manager); simpl; congruence.
  - reflexivity.
Qed.

(** The admin makes Agent Profile 30 the manager of the Harbour office:
    account 3 is promoted, account 2 keeps its role and its office. *)
Lemma updateOffice_reassigns_manager_witness :
  exists o' mu',
    lookup_office 70 after_reassignment = Some o' /\
    o_manager o' = 30 /\ In 30 (agents o') /\
    lookup_user 3 after_reassignment = Some mu' /\ role mu' = manager /\
    lookup_user 2 after_reassignment = lookup_user 2 harbour_store.
Proof.
  edestruct (updateOffice_reassigns_manager as_given no_lifecycle_faults
               (Some admin_user) 70 30 new_manager_30 harbour_store
               after_reassignment office_updated office_70)
    as (o' & mu & mu' & H1 & H2 & H3 & _ & _ & H6 & H7 & H8 & _ & H10 & _).
  - reflexivity.
  - reflexivity.
  - discriminate.
  - vm_compute. reflexivity.
  - vm_compute in H6. inversion H6; subst mu.
    exists o', mu'.
    split; [exact H1|]. split; [exact H2|]. split; [exact H3|].
    split; [exact H7|]. split; [exact H8|].
    apply H10. discriminate.
Defined.

(** ** A manager's scope over offices *)

Lemma opt_id_eqb_neq (x : ObjectId) (y : option ObjectId) :
  y <> Some x -> opt_id_eqb (Some x) y = false.
Proof.
  destruct y as [y|]; simpl; [|reflexivity].
  intros H. apply Nat.eqb_neq. congruence.
Qed.

Lemma updateOffice_foreign_manager (cast : SchemaCast) (f : LifecycleFaults)
  (ru cu : User) (id : ObjectId) (body : OfficeBody) (st : Store)
  (o : Office) :
  lookup_user (u_id ru) st = Some cu ->
  role cu = manager ->
  lookup_office id st = Some o ->
  agentId cu <> Some (o_manager o) ->
  OfficeLifecycle.updateOffice cast f (Some ru) id body st
  = (inl (EApp {| message := "You can only update your own office";
                  statusCode := 403 |}), st).
Proof.
  intros Hcu Hrole Ho Hne.
  unfold OfficeLifecycle.updateOffice, OfficeLifecycle.updateOffice_try,
    startTransaction, abortTransaction.
  simpl.
  unfold bind, in_session, UserModel.findById, OfficeModel.findById, gets.
  simpl. rewrite Hcu. simpl. rewrite Hrole. simpl.
  change (includes ["admin"; "manager"] "manager") with true. simpl.
  pose proof (opt_id_eqb_neq _ _ Hne) as E. simpl in E.
  rewrite Ho. simpl. rewrite E. reflexivity.
Qed.

(** X24.  A manager is confined to the office its own Agent Profile
    manages.  On any other office, [updateOffice] answers 403 whatever the
    body holds, and [deleteOffice] answers 403 (or 400 when the office is
    already inactive); neither changes the store.  The role and the Agent
    Profile are those of the stored account, not those of the
    request. *)
Theorem manager_confined_to_own_office (cast : SchemaCast)
  (f : LifecycleFaults) (now : string)
  (ru cu : User) (id : ObjectId) (body : OfficeBody) (st : Store)
  (o : Office)
  (Hcu : lookup_user (u_id ru) st = Some cu)
  (Hrole : role cu = manager)
  (Ho : lookup_office id st = Some o)
  (Hne : agentId cu <> Some (o_manager o)) :
  OfficeLifecycle.updateOffice cast f (Some ru) id body st
  = (inl (EApp {| message := "You can only update your own office";
                  statusCode := 403 |}), st)
  /\
  OfficeLifecycle.deleteOffice f now (Some ru) id st
  = (inl (if office_isActive o
          then EApp {| message := "Managers can only delete their own offices";
                       statusCode := 403 |}
          else office_already_inactive), st).
Proof.
  split; [exact (updateOffice_foreign_manager cast f ru cu id body st o
                   Hcu Hrole Ho Hne)|].
  unfold OfficeLifecycle.deleteOffice, OfficeLifecycle.deleteOffice_try,
    startTransaction, abortTransaction.
  simpl.
  unfold bind, in_session, UserModel.findById, OfficeModel.findById, gets.
  simpl. rewrite Hcu. simpl. rewrite Hrole. simpl.
  change (includes ["admin"; "manager"] "manager") with true. simpl.
  pose proof (opt_id_eqb_neq _ _ Hne) as E. simpl in E.
  rewrite Ho. simpl.
  destruct (office_isActive o); simpl; [|reflexivity].
  rewrite E. reflexivity.
Qed.

(** A manager whose Agent Profile is 30 tries the Harbour office, which
    Agent Profile 20 manages. *)
Lemma manager_confined_to_own_office_witness :
  OfficeLifecycle.updateOffice as_given no_lifecycle_faults (Some agent_user) 70
    new_manager_30 (set_users [set_role manager agent_user] harbour_store)
  = (inl (EApp {| message := "You can only update your own office";
                  statusCode := 403 |}),
     set_users [set_role manager agent_user] harbour_store).
Proof.
  refine (proj1 (manager_confined_to_own_office as_given no_lifecycle_faults
                   "2026-01-01" agent_user (set_role manager agent_user) 70
                   new_manager_30
                   (set_users [set_role manager agent_user] harbour_store)
                   office_70 _ _ _ _)).
  - reflexivity.
  - reflexivity.
  - reflexivity.
  - discriminate.
Defined.

(** Ids that occur once name one document. *)
Lemma NoDup_key_eq {A} (key : A -> ObjectId) (l : list A) (x y : A) :
  NoDup (map key l) -> In x l -> In y l -> key x = key y -> x = y.
Proof.
  induction l as [|z l IH]; simpl; [tauto|].
  intros N Hx Hy E. inversion N as [|? ? Hn N']; subst.
  destruct Hx as [-> | Hx], Hy as [-> | Hy]; auto.
  - exfalso. apply Hn. rewrite E. now apply in_map.
  - exfalso. apply Hn. rewrite <- E. now apply in_map.
Qed.

(** X25.  A reassignment leaves the former manager locked out.  In the
    store that a successful [updateOffice] naming another Agent Profile
    as manager leaves, the account of the former manager is unchanged,
    manager role included, and any [updateOffice] of that office by it
    is refused with 403 and changes nothing.  This holds for that store:
    a later reassignment that names its profile again lets it back in.
    Account ids are unique, as [_id] is in the collection. *)
Theorem former_manager_refused_after_reassignment
  (cast cast2 : SchemaCast) (f f2 : LifecycleFaults)
  (ru : option User) (old : User) (id newId : ObjectId)
  (body body2 : OfficeBody) (st st' : Store) (resp : Response) (o : Office)
  (Hids : NoDup (map u_id (users st)))
  (Ho : lookup_office id st = Some o)
  (Hm : ob_manager body = Some newId)
  (Hne : newId <> o_manager o)
  (Hold : lookup_user (u_id old) st = Some old)
  (Hrole : role old = manager)
  (Hprof : agentId old = Some (o_manager o))
  (H : OfficeLifecycle.updateOffice cast f ru id body st = (inr resp, st')) :
  lookup_user (u_id old) st' = Some old /\
  OfficeLifecycle.updateOffice cast2 f2 (Some old) id body2 st'
  = (inl (EApp {| message := "You can only update your own office";
                  statusCode := 403 |}), st').
Proof.
  pose proof (updateOffice_cases cast f ru id body st) as C. simpl in C.
  rewrite H in C. simpl in C.
  destruct C as [[C _] | (o0 & Ho0 & _ & _ & [([Hn | Hn] & _)
                          | (ma & mu & Hma & _ & _ & Hmu & _ & Hst)])];
    try discriminate; try congruence.
  rewrite Ho in Ho0. inversion Ho0; subst o0; clear Ho0.
  rewrite Hm in Hma. inversion Hma; subst newId; clear Hma.
  pose proof (find_some_key o_id _ _ _ Ho) as Hid.
  destruct (saved_after_reassignment_facts o
              (fst (OfficeLifecycle.assign_allowed cast
                      OfficeController.allowedFields
                      (ob_fields body) (o_paths o))) (a_id ma))
    as (F1 & F2 & _).
  assert (Hdiff : u_id mu <> u_id old).
  { intros E.
    unfold lookup_user_by_agentId in Hmu. apply find_some in Hmu.
    destruct Hmu as [Y X].
    unfold lookup_user in Hold. apply find_some in Hold.
    destruct Hold as [Z _].
    assert (M : mu = old) by exact (NoDup_key_eq u_id _ _ _ Hids Y Z E).
    subst mu. rewrite Hprof in X. simpl in X.
    apply Nat.eqb_eq in X. congruence. }
  assert (Hold' : lookup_user (u_id old) st' = Some old).
  { rewrite Hst. unfold lookup_user in *. simpl.
    rewrite find_replace_by_other; [exact Hold|].
    destruct (Role_eqb (role mu) manager); simpl; exact Hdiff. }
  split; [exact Hold'|].
  eapply updateOffice_foreign_manager; [exact Hold' | exact Hrole | |].
  - rewrite Hst. unfold lookup_office in *. simpl.
    eapply find_replace_by; [exact Ho | now rewrite F1].
  - rewrite F2, Hprof. congruence.
Qed.

(** After the admin made Agent Profile 30 the manager of the Harbour
    office, account 2, its manager until then, cannot update it. *)
Lemma former_manager_refused_after_reassignment_witness :
  lookup_user 2 after_reassignment = Some manager_70 /\
  OfficeLifecycle.updateOffice as_given no_lifecycle_faults (Some manager_70) 70
    new_manager_30 after_reassignment
  = (inl (EApp {| message := "You can only update your own office";
                  statusCode := 403 |}), after_reassignment).
Proof.
  refine (former_manager_refused_after_reassignment as_given as_given
            no_lifecycle_faults no_lifecycle_faults
            (Some admin_user) manager_70 70 30 new_manager_30 new_manager_30
            harbour_store after_reassignment office_updated office_70
            _ _ _ _ _ _ _ _).
  - simpl. repeat constructor; simpl; intuition discriminate.
  - reflexivity.
  - reflexivity.
  - discriminate.
  - reflexivity.
  - reflexivity.
  - reflexivity.
  - vm_compute. reflexivity.
Defined.

(** ** The office's list of agents *)

(** The two ways [addAgent] can end. *)
Lemma addAgent_cases (a : ObjectId) (o : Office) (st : Store) :
  (exists e, OfficeDoc.addAgent a o st = (inl e, st))
  \/
  (let o' := if includes_id (agents o) a then o
             else set_o_statistics
                    (OfficeModel.set_totalAgents
                       (List.length (agents o ++ [a])) (statistics o))
                    (set_o_agents (agents o ++ [a]) o) in
   OfficeDoc.addAgent a o st
   = (inr o', set_offices (replace_by o_id o' (offices st)) st)).
Proof.
  unfold OfficeDoc.addAgent.
  destruct (includes_id (agents o) a) eqn:E; cbv zeta; unfold bind.
  - destruct (OfficeDoc_save_cases false o st) as [(e & H) | H]; rewrite H;
      [left; eauto | right; reflexivity].
  - match goal with |- context [OfficeDoc.save true ?x st] =>
      destruct (OfficeDoc_save_cases true x st) as [(e & H) | H]; rewrite H
    end; [left; eauto | right; reflexivity].
Qed.

(** The two ways [removeAgent] can end. *)
Lemma removeAgent_cases (a : ObjectId) (o : Office) (st : Store) :
  (exists e, OfficeDoc.removeAgent a o st = (inl e, st))
  \/
  (let l := filter (fun id => negb (Nat.eqb id a)) (agents o) in
   let o' := set_o_statistics
               (OfficeModel.set_totalAgents (List.length l) (statistics o))
               (set_o_agents l o) in
   OfficeDoc.removeAgent a o st
   = (inr o', set_offices (replace_by o_id o' (offices st)) st)).
Proof.
  unfold OfficeDoc.removeAgent. cbv zeta. unfold bind.
  match goal with |- context [OfficeDoc.save ?m ?x st] =>
    destruct (OfficeDoc_save_cases m x st) as [(e & H) | H]; rewrite H
  end; [left; eauto | right].
  match goal with |- context [if ?b then _ else _] => destruct b end;
    reflexivity.
Qed.


(** X26.  After a successful [addAgent] the office lists the agent, and
    lists no one else it did not list before: an agent already listed is
    not listed twice, a list without repetitions stays without, and a
    count that matched the list still matches.  The manager, the accounts
    and the Agent Profiles are not touched. *)
Theorem addAgent_adds_once (a : ObjectId) (o o' : Office) (st st' : Store)
  (H : OfficeDoc.addAgent a o st = (inr o', st')) :
  (forall x, In x (agents o') <-> In x (agents o) \/ x = a) /\
  (In a (agents o) -> agents o' = agents o) /\
  (NoDup (agents o) -> NoDup (agents o')) /\
  (totalAgents (statistics o) = List.length (agents o) ->
   totalAgents (statistics o') = List.length (agents o')) /\
  o_manager o' = o_manager o /\
  users st' = users st /\ agentsC st' = agentsC st.
Proof.
  destruct (addAgent_cases a o st) as [(e & C) | C];
    [rewrite C in H; discriminate|].
  cbv zeta in C. rewrite C in H. inversion H; subst o' st'; clear H C.
  destruct (includes_id (agents o) a) eqn:E.
  - apply includes_id_In in E.
    repeat split; auto.
    + intros [Hx | ->]; assumption.
  - assert (Hn : ~ In a (agents o)).
    { intros Hin. apply includes_id_In in Hin. congruence. }
    simpl. split; [|split; [|split; [|split; [|split; [|split]]]]];
      try reflexivity.
    + intros x. rewrite in_app_iff. simpl. intuition.
    + intros Hin. contradiction.
    + intros Hnd.
      apply (proj2 (NoDup_Add (a:=a) (l:=agents o) (l':=(agents o ++ [a])%list)
                             ltac:(rewrite <- (app_nil_r (agents o)) at 1;
                                   apply Add_app))).
      split; assumption.
Qed.

Lemma addAgent_adds_once_witness :
  exists o' st',
    OfficeDoc.addAgent 30 office_70 harbour_store = (inr o', st') /\
    NoDup (agents o') /\
    totalAgents (statistics o') = List.length (agents o').
Proof.
  eexists. eexists. split; [vm_compute; reflexivity|].
  edestruct addAgent_adds_once with (a := 30) (o := office_70)
    (st := harbour_store)
    as (_ & _ & H3 & H4 & _).
  - vm_compute. reflexivity.
  - split; [apply H3 | apply H4; reflexivity].
    simpl. repeat constructor; simpl; intuition discriminate.
Defined.



(** X28.  A successful [removeAgent] takes every occurrence of the agent
    out of the office's list and nothing else, keeps the order of the
    others, and stores a count equal to the length of the list.  It
    leaves the [manager] path as it was, also when the agent removed is
    the manager, and touches no account and no Agent Profile. *)
Theorem removeAgent_removes_exactly (a : ObjectId) (o o' : Office)
  (st st' : Store)
  (H : OfficeDoc.removeAgent a o st = (inr o', st')) :
  ~ In a (agents o') /\
  (forall x, x <> a -> (In x (agents o') <-> In x (agents o))) /\
  (~ In a (agents o) -> agents o' = agents o) /\
  totalAgents (statistics o') = List.length (agents o') /\
  List.length (agents o') <= List.length (agents o) /\
  o_manager o' = o_manager o /\
  users st' = users st /\ agentsC st' = agentsC st /\
  agents o' = filter (fun x => negb (Nat.eqb x a)) (agents o).
Proof.
  destruct (removeAgent_cases a o st) as [(e & C) | C];
    [rewrite C in H; discriminate|].
  cbv zeta in C. rewrite C in H. inversion H; subst o' st'; clear H C.
  simpl. split; [|split; [|split; [|split; [|split; [|repeat split]]]]].
  - intros Hin. apply filter_In in Hin. destruct Hin as [_ Hin].
    rewrite Nat.eqb_refl in Hin. discriminate.
  - intros x Hx. rewrite filter_In.
    assert (E : Nat.eqb x a = false) by now apply Nat.eqb_neq.
    rewrite E. simpl. tauto.
  - intros Hn. apply filter_all. intros x Hx.
    destruct (Nat.eqb x a) eqn:E; [|reflexivity].
    apply Nat.eqb_eq in E. subst. contradiction.
  - reflexivity.
  - apply filter_length_le.
Qed.

(** Removing Agent Profile 20, the manager, from the Harbour office. *)
Lemma removeAgent_removes_exactly_witness :
  exists o' st',
    OfficeDoc.removeAgent 20 office_70 harbour_store = (inr o', st') /\
    ~ In 20 (agents o') /\ o_manager o' = 20.
Proof.
  eexists. eexists. split; [vm_compute; reflexivity|].
  edestruct removeAgent_removes_exactly with (a := 20) (o := office_70)
    (st := harbour_store)
    as (H1 & _ & _ & _ & _ & H6 & _).
  - vm_compute. reflexivity.
  - split; [exact H1 | exact H6].
Defined.
